(** * fitpantry_dataloader: the recipe loader [load_data.py]

    A shallow embedding of the one-shot loading script (clean, sample, embed,
    bulk-insert) and the properties of its cleaner, sampler, batch loader and
    top-level error handling.

    Conventions of the embedding.
    - Python values that the script manipulates are the inductive [pyval].
      A pandas cell is a [pyval]; the missing-value marker (float NaN) is
      [PyNaN].  Finite floats are carried by their exact rational value
      (binary rounding is not modelled).
    - Exceptions are the inductive [exn]; [SystemExit] is the only one that
      is not an instance of Python's [Exception].
    - Effects (standard output, the file system, the sink, the ambient
      numpy generator) live in a [World] threaded through a state and
      exception monad [M].
    - Collaborators outside the repository ([ast.literal_eval], the
      embedding model, the sink's commit, numpy's generator) are fields of
      an environment record [Env]; every general theorem holds for all
      environments, and a concrete environment is built for evaluation. *)

From Stdlib Require Import List String Ascii Bool Arith ZArith QArith Lia.
From Stdlib Require Import Permutation DecimalString.
Import ListNotations.
Local Close Scope Q_scope.
Local Open Scope nat_scope.
Local Open Scope string_scope.

(* ================================================================== *)
(** ** Python values and exceptions *)

Module Py.

(** The exceptions the script can meet.  [OtherError] stands for any
    further subclass of [Exception] raised by a collaborator. *)
Inductive exn : Type :=
| SystemExit (code : Z)
| FileNotFoundError (msg : string)
| ValueError (msg : string)
| SyntaxError (msg : string)
| TypeError (msg : string)
| IndexError (msg : string)
| OtherError (msg : string).

(** [isinstance(e, Exception)]: what [except Exception] catches. *)
Definition is_Exception (e : exn) : bool :=
  match e with
  | SystemExit _ => false
  | _ => true
  end.

(** [str(e)], as interpolated by the f-strings of the script. *)
Definition exn_str (e : exn) : string :=
  match e with
  | SystemExit c => NilEmpty.string_of_int (Z.to_int c)
  | FileNotFoundError m | ValueError m | SyntaxError m
  | TypeError m | IndexError m | OtherError m => m
  end.

Inductive result (A : Type) : Type :=
| Ok (a : A)
| Raise (e : exn).
Arguments Ok {A} a.
Arguments Raise {A} e.

Definition rbind {A B} (r : result A) (k : A -> result B) : result B :=
  match r with
  | Ok a => k a
  | Raise e => Raise e
  end.

#[warnings="-register-all"]
Inductive pyval : Type :=
| PyNone
| PyBool (b : bool)
| PyInt (z : Z)
| PyFloat (q : Q)
| PyNaN
| PyStr (s : string)
| PyList (items : list pyval)
| PyTuple (items : list pyval).

(** [type(v).__name__], used in error messages. *)
Definition type_name (v : pyval) : string :=
  match v with
  | PyNone => "NoneType"
  | PyBool _ => "bool"
  | PyInt _ => "int"
  | PyFloat _ | PyNaN => "float"
  | PyStr _ => "str"
  | PyList _ => "list"
  | PyTuple _ => "tuple"
  end.

Definition is_str (v : pyval) : bool :=
  match v with PyStr _ => true | _ => false end.

Definition string_of_nat (n : nat) : string :=
  NilEmpty.string_of_uint (Nat.to_uint n).

(** [sep.join(items)], from position [i] on: every item must be a [str]. *)
Fixpoint join_from (i : nat) (sep : string) (items : list pyval)
  : result string :=
  match items with
  | [] => Ok ""
  | PyStr s :: rest =>
      match rest with
      | [] => Ok s
      | _ => rbind (join_from (S i) sep rest)
               (fun t => Ok (s ++ sep ++ t))
      end
  | v :: _ =>
      Raise (TypeError ("sequence item " ++ string_of_nat i
                          ++ ": expected str instance, "
                          ++ type_name v ++ " found"))
  end.

Definition str_join (sep : string) (items : list pyval) : result string :=
  join_from 0 sep items.

(** [x[i]] for a constant index [i >= 0]. *)
Definition getitem (i : nat) (x : pyval) : result pyval :=
  match x with
  | PyList l =>
      match nth_error l i with
      | Some v => Ok v
      | None => Raise (IndexError "list index out of range")
      end
  | PyTuple l =>
      match nth_error l i with
      | Some v => Ok v
      | None => Raise (IndexError "tuple index out of range")
      end
  | PyStr s =>
      match String.get i s with
      | Some c => Ok (PyStr (String c EmptyString))
      | None => Raise (IndexError "string index out of range")
      end
  | v => Raise (TypeError ("'" ++ type_name v
                             ++ "' object is not subscriptable"))
  end.

(** [v > 0] on one cell, as the element-wise comparison evaluates it. *)
Definition gt_zero (v : pyval) : result bool :=
  match v with
  | PyInt z => Ok (0 <? z)%Z
  | PyFloat q => Ok (0 <? Qnum q)%Z
  | PyBool b => Ok b
  | PyNaN => Ok false
  | v => Raise (TypeError ("'>' not supported between instances of '"
                             ++ type_name v ++ "' and 'int'"))
  end.

(** pandas' [isna] on one cell. *)
Definition isna (v : pyval) : bool :=
  match v with
  | PyNone | PyNaN => true
  | _ => false
  end.

(** [Series.apply(f)]: [f] runs on the cells in order; the first
    exception aborts the whole pass. *)
Fixpoint series_apply {A B} (f : A -> result B) (xs : list A)
  : result (list B) :=
  match xs with
  | [] => Ok []
  | x :: rest =>
      rbind (f x) (fun y =>
      rbind (series_apply f rest) (fun ys => Ok (y :: ys)))
  end.

End Py.
Import Py.

(* ================================================================== *)
(** ** A parser for a fragment of Python's literal syntax

    [ast.literal_eval] belongs to the Python library.  The general results
    below hold for any evaluator (a field of [Env]); this module gives a
    concrete one for the fragment that recipe files use, so that the
    scenarios can be evaluated: lists, quoted strings with the escapes
    [\\ \' \n \t] and the escaped double quote, decimal integers and
    decimal fractions with an optional sign, [None], [True], [False].
    Anything outside the fragment is reported as a [SyntaxError]. *)

Module Ast.

Local Open Scope char_scope.

Definition dquote : ascii := "034".
Definition newline : ascii := "010".
Definition tab : ascii := "009".
Definition cr : ascii := "013".

Definition is_digit (c : ascii) : bool :=
  let n := nat_of_ascii c in (48 <=? n)%nat && (n <=? 57)%nat.

Definition digit_val (c : ascii) : Z := Z.of_nat (nat_of_ascii c - 48).

Definition is_space (c : ascii) : bool :=
  Ascii.eqb c " " || Ascii.eqb c tab || Ascii.eqb c newline || Ascii.eqb c cr.

Definition is_ident_char (c : ascii) : bool :=
  let n := nat_of_ascii c in
  is_digit c || Ascii.eqb c "_"
  || ((65 <=? n)%nat && (n <=? 90)%nat)
  || ((97 <=? n)%nat && (n <=? 122)%nat).

Fixpoint skip_ws (s : list ascii) : list ascii :=
  match s with
  | c :: rest => if is_space c then skip_ws rest else s
  | [] => []
  end.

(** [str.lstrip(" \t")] *)
Fixpoint lstrip_blank (s : list ascii) : list ascii :=
  match s with
  | c :: rest =>
      if Ascii.eqb c " " || Ascii.eqb c tab then lstrip_blank rest else s
  | [] => []
  end.

(** Reads a run of digits: accumulated value, number of digits, rest. *)
Fixpoint take_digits (s : list ascii) (acc : Z) (n : nat)
  : Z * nat * list ascii :=
  match s with
  | c :: rest =>
      if is_digit c then take_digits rest (10 * acc + digit_val c)%Z (S n)
      else (acc, n, s)
  | [] => (acc, n, [])
  end.

Definition starts_with_zero (s : list ascii) : bool :=
  match s with
  | c :: _ => Ascii.eqb c "0"
  | [] => false
  end.

(** An unsigned number: [digits], [digits.digits], [digits.] or [.digits]. *)
Definition parse_number (s : list ascii) : option (pyval * list ascii) :=
  let '(ip, n1, rest1) := take_digits s 0%Z 0 in
  match rest1 with
  | "." :: rest2 =>
      let '(fp, n2, rest3) := take_digits rest2 0%Z 0 in
      if ((n1 =? 0) && (n2 =? 0))%nat then None
      else
        let den := Pos.pow 10 (Pos.of_nat n2) in
        let den' := if (n2 =? 0)%nat then 1%positive else den in
        Some (PyFloat (Qred (Qmake (ip * Zpos den' + fp) den')), rest3)
  | _ =>
      if (n1 =? 0)%nat then None
      else if starts_with_zero s && negb (ip =? 0)%Z then None
      else Some (PyInt ip, rest1)
  end.

Definition negate (v : pyval) : pyval :=
  match v with
  | PyInt z => PyInt (- z)
  | PyFloat q => PyFloat (Qopp q)
  | v => v
  end.

Definition unescape (c : ascii) : option ascii :=
  if Ascii.eqb c "\" then Some "\"
  else if Ascii.eqb c "'" then Some "'"
  else if Ascii.eqb c dquote then Some dquote
  else if Ascii.eqb c "n" then Some newline
  else if Ascii.eqb c "t" then Some tab
  else None.

(** The body of a string literal opened by the quote [q]. *)
Fixpoint read_string (q : ascii) (s : list ascii) (acc : list ascii)
  : option (string * list ascii) :=
  match s with
  | [] => None
  | c :: rest =>
      if Ascii.eqb c q then Some (string_of_list_ascii (rev acc), rest)
      else if Ascii.eqb c "\" then
        match rest with
        | d :: rest' =>
            match unescape d with
            | Some x => read_string q rest' (x :: acc)
            | None => None
            end
        | [] => None
        end
      else if Ascii.eqb c newline then None
      else read_string q rest (c :: acc)
  end.

(** A keyword must not run on into an identifier ([Nonesuch]). *)
Definition keyword_end (v : pyval) (rest : list ascii)
  : option (pyval * list ascii) :=
  match rest with
  | c :: _ => if is_ident_char c then None else Some (v, rest)
  | [] => Some (v, rest)
  end.

Fixpoint parse_value (fuel : nat) (s : list ascii)
  : option (pyval * list ascii) :=
  match fuel with
  | O => None
  | S f =>
      match skip_ws s with
      | "[" :: rest => parse_items f rest []
      | "N" :: "o" :: "n" :: "e" :: rest => keyword_end PyNone rest
      | "T" :: "r" :: "u" :: "e" :: rest => keyword_end (PyBool true) rest
      | "F" :: "a" :: "l" :: "s" :: "e" :: rest =>
          keyword_end (PyBool false) rest
      | "-" :: rest =>
          match parse_number rest with
          | Some (v, rest') => Some (negate v, rest')
          | None => None
          end
      | "+" :: rest => parse_number rest
      | c :: rest =>
          if Ascii.eqb c "'" || Ascii.eqb c dquote then
            match read_string c rest [] with
            | Some (str, rest') => Some (PyStr str, rest')
            | None => None
            end
          else parse_number (c :: rest)
      | [] => None
      end
  end
with parse_items (fuel : nat) (s : list ascii) (acc : list pyval)
  : option (pyval * list ascii) :=
  match fuel with
  | O => None
  | S f =>
      match skip_ws s with
      | "]" :: rest => Some (PyList (rev acc), rest)
      | s' =>
          match parse_value f s' with
          | Some (v, rest) =>
              match skip_ws rest with
              | "," :: rest' => parse_items f rest' (v :: acc)
              | "]" :: rest' => Some (PyList (rev (v :: acc)), rest')
              | _ => None
              end
          | None => None
          end
      end
  end.

(** [ast.literal_eval] on a string of the fragment. *)
Definition literal_eval (s : string) : result pyval :=
  let cs := lstrip_blank (list_ascii_of_string s) in
  match parse_value (2 * List.length cs + 2) cs with
  | Some (v, rest) =>
      match skip_ws rest with
      | [] => Ok v
      | _ => Raise (SyntaxError "invalid syntax")
      end
  | None => Raise (SyntaxError "invalid syntax")
  end.

End Ast.

(* ================================================================== *)
(** ** Data model *)

(** One row of the frame after [df[columns_to_keep]]: the four kept
    columns.  A text cell read from the file is a [PyStr] or, when the
    field is empty, [PyNaN].  The input file is taken to have the four
    columns, so that the selection itself cannot fail. *)
Record RawRow : Type := mkRawRow {
  r_name : pyval;
  r_nutrition : pyval;
  r_steps : pyval;
  r_ingredients : pyval
}.

(** One row of the frame once the four nutrition columns are assigned. *)
Record Row : Type := mkRow {
  name : pyval;
  nutrition : pyval;
  steps : pyval;
  ingredients : pyval;
  calories : pyval;
  fat_g : pyval;
  protein_g : pyval;
  carbs_g : pyval
}.

(** [models.py]: the persisted table row.  [id] is left to the sink. *)
Module Models.

Record Recipe : Type := mkRecipe {
  id : option Z;
  name : pyval;
  calories : pyval;
  protein_g : pyval;
  fat_g : pyval;
  carbs_g : pyval;
  ingredients : pyval;
  steps : pyval;
  embedding : list Q
}.

End Models.

(* ================================================================== *)
(** ** The world, the collaborators and the effect monad *)

Inductive event : Type :=
| EvInitDb
| EvLoadModel (model_name : string)
| EvReadCsv (path : string)
| EvEncode (n : nat)
| EvCommit (n : nat) (ok : bool).

Record World : Type := mkWorld {
  stdout : list string;                        (* printed lines, oldest first *)
  files : string -> option (list RawRow);      (* CSV files by path *)
  np_random : Z;                               (* numpy's global generator *)
  db : list Models.Recipe;                     (* rows committed to the sink *)
  log : list event                             (* external actions, oldest first *)
}.

Definition M (A : Type) : Type := World -> result A * World.

Definition ret {A} (a : A) : M A := fun w => (Ok a, w).

Definition raise {A} (e : exn) : M A := fun w => (Raise e, w).

Definition bind {A B} (m : M A) (k : A -> M B) : M B :=
  fun w =>
    match m w with
    | (Ok a, w1) => k a w1
    | (Raise e, w1) => (Raise e, w1)
    end.

Definition lift {A} (r : result A) : M A := fun w => (r, w).

(** [try: m  except <catches> as e: h e] *)
Definition try_except {A} (m : M A) (catches : exn -> bool) (h : exn -> M A)
  : M A :=
  fun w =>
    match m w with
    | (Ok a, w1) => (Ok a, w1)
    | (Raise e, w1) => if catches e then h e w1 else (Raise e, w1)
    end.

(** The pure counterpart, for code without effects. *)
Definition rcatch {A} (r : result A) (catches : exn -> bool)
  (h : exn -> result A) : result A :=
  match r with
  | Ok a => Ok a
  | Raise e => if catches e then h e else Raise e
  end.

Declare Scope py_scope.
Delimit Scope py_scope with py.
Notation "x <- m ;; k" := (bind m (fun x => k))
  (at level 61, m at next level, right associativity) : py_scope.
Notation "m ;; k" := (bind m (fun _ => k))
  (at level 61, right associativity) : py_scope.
Notation "x <~ r ;; k" := (rbind r (fun x => k))
  (at level 61, r at next level, right associativity) : py_scope.
Local Open Scope py_scope.

Definition print (line : string) : M unit :=
  fun w => (Ok tt, mkWorld (stdout w ++ [line]) (files w) (np_random w)
                     (db w) (log w)).

Definition emit (ev : event) (w : World) : World :=
  mkWorld (stdout w) (files w) (np_random w) (db w) (log w ++ [ev]).

Definition sys_exit {A} (code : Z) : M A := raise (SystemExit code).

Definition Engine : Type := string.

(** A loaded embedding model: [encode] maps the texts of one batch to their
    vectors, or raises. *)
Record Model : Type := mkModel {
  encode : list pyval -> result (list (list Q))
}.

(** What the script calls but does not define. *)
Record Env : Type := mkEnv {
  DATABASE_URL : string;                           (* settings.DATABASE_URL *)
  create_engine : string -> result Engine;
  db_init_fault : World -> option exn;             (* connect, execute, create_all *)
  SentenceTransformer : string -> World -> result Model;
  literal_eval : string -> result pyval;           (* ast.literal_eval on a str *)
  commit_fault : World -> list Models.Recipe -> option exn;
  rs_seed : Z -> Z;                                (* RandomState(seed) *)
  rs_next : Z -> Z;                                (* generator after one draw *)
  rs_choice : Z -> nat -> nat -> list nat          (* choice(len, n, replace=False) *)
}.

(** The contract of numpy's [choice] without replacement: [n] distinct
    positions below [len]. *)
Record RandomStateLaws (E : Env) : Prop := mkRandomStateLaws {
  choice_length : forall g len n, n <= len ->
    List.length (rs_choice E g len n) = n;
  choice_bound : forall g len n, n <= len ->
    Forall (fun i => i < len) (rs_choice E g len n);
  choice_nodup : forall g len n, n <= len ->
    NoDup (rs_choice E g len n)
}.

(** The contract of the Embedder: one vector per text, in order. *)
Definition EncodeContract (model : Model) : Prop :=
  forall texts vectors, encode model texts = Ok vectors ->
    List.length vectors = List.length texts.

(* ================================================================== *)
(** ** [load_data.py] *)

(** *** Configuration *)

Definition DATA_FILE_PATH : string := "data/RAW_recipes.csv".
#[warnings="-abstract-large-number"]
Definition SAMPLE_SIZE : nat := 50000.
Definition BATCH_SIZE : nat := 1000.
Definition EMBEDDING_MODEL : string := "all-MiniLM-L6-v2".

(** *** [initialize_database] *)

(** The body of the [try]: connect, create the extension, commit,
    create the tables.  Its failure is decided by the sink. *)
Definition db_bootstrap (E : Env) (engine : Engine) : M unit :=
  fun w =>
    match db_init_fault E w with
    | Some e => (Raise e, emit EvInitDb w)
    | None => (Ok tt, emit EvInitDb w)
    end.

Definition initialize_database (E : Env) (engine : Engine) : M unit :=
  print "Initializing database..." ;;
  try_except
    (db_bootstrap E engine ;;
     print "Database initialized and pgvector extension is active.")
    is_Exception
    (fun e =>
       print ("Error initializing database: " ++ exn_str e) ;;
       print ("Please ensure you have run 'create extension if not exists "
                ++ "vector;' in your Supabase SQL Editor.") ;;
       sys_exit 1).

(** *** [clean_text] *)

(** [ast.literal_eval(x)]: a [str] is parsed; any other object is a
    malformed node. *)
Definition ast_literal_eval (E : Env) (x : pyval) : result pyval :=
  match x with
  | PyStr s => literal_eval E s
  | PyNaN => Raise (ValueError "malformed node or string: nan")
  | v => Raise (ValueError ("malformed node or string: " ++ type_name v))
  end.

(** [except (ValueError, SyntaxError)] *)
Definition is_ValueError_or_SyntaxError (e : exn) : bool :=
  match e with
  | ValueError _ | SyntaxError _ => true
  | _ => false
  end.

Definition clean_text (E : Env) (text_list_str : pyval) : result pyval :=
  rcatch
    (items <~ ast_literal_eval E text_list_str ;;
     match items with
     | PyList l => s <~ str_join ", " l ;; Ok (PyStr s)
     | _ => Ok text_list_str
     end)
    is_ValueError_or_SyntaxError
    (fun _ => Ok text_list_str).

(** *** [load_and_clean_data] *)

Definition pd_read_csv (path : string) : M (list RawRow) :=
  fun w =>
    match files w path with
    | Some rows => (Ok rows, emit (EvReadCsv path) w)
    | None =>
        (Raise (FileNotFoundError
                  ("[Errno 2] No such file or directory: '" ++ path ++ "'")),
         w)
    end.

Definition is_FileNotFoundError (e : exn) : bool :=
  match e with
  | FileNotFoundError _ => true
  | _ => false
  end.

(** [df['calories'] = ...] and the three further assignments: the new
    columns are laid beside the kept ones, row by row. *)
Fixpoint assign_nutrition (df : list RawRow) (cal fat prot carb : list pyval)
  : list Row :=
  match df, cal, fat, prot, carb with
  | r :: df', c :: cal', f :: fat', p :: prot', b :: carb' =>
      mkRow (r_name r) (r_nutrition r) (r_steps r) (r_ingredients r) c f p b
        :: assign_nutrition df' cal' fat' prot' carb'
  | _, _, _, _, _ => []
  end.

(** One pass over the nutrition column (the five statements of either
    branch of the [try]): parse every cell, then take positions 0, 1, 4
    and 6, column by column. *)
Definition parse_nutrition (E : Env) (df : list RawRow) : result (list Row) :=
  nutrition_df <~ series_apply (ast_literal_eval E) (map r_nutrition df) ;;
  cal <~ series_apply (getitem 0) nutrition_df ;;
  fat <~ series_apply (getitem 1) nutrition_df ;;
  prot <~ series_apply (getitem 4) nutrition_df ;;
  carb <~ series_apply (getitem 6) nutrition_df ;;
  Ok (assign_nutrition df cal fat prot carb).

(** [df.dropna(subset=['nutrition'])] *)
Definition dropna_nutrition (df : list RawRow) : list RawRow :=
  filter (fun r => negb (isna (r_nutrition r))) df.

(** Step 2: the [try] and its [except Exception] fallback. *)
Definition nutrition_columns (E : Env) (df : list RawRow) : M (list Row) :=
  try_except
    (lift (parse_nutrition E df))
    is_Exception
    (fun e =>
       print ("Error parsing nutrition column: " ++ exn_str e) ;;
       print "Skipping bad rows." ;;
       lift (parse_nutrition E (dropna_nutrition df))).

Definition set_steps (r : Row) (v : pyval) : Row :=
  mkRow (name r) (nutrition r) v (ingredients r)
    (calories r) (fat_g r) (protein_g r) (carbs_g r).

Definition set_ingredients (r : Row) (v : pyval) : Row :=
  mkRow (name r) (nutrition r) (steps r) v
    (calories r) (fat_g r) (protein_g r) (carbs_g r).

(** [df[col] = df[col].apply(f)] *)
Definition apply_column (get : Row -> pyval) (set : Row -> pyval -> Row)
  (f : pyval -> result pyval) (df : list Row) : result (list Row) :=
  col <~ series_apply f (map get df) ;;
  Ok (map (fun rv => set (fst rv) (snd rv)) (combine df col)).

(** A row survives [dropna(subset=[...])] when none of the seven cells is
    missing. *)
Definition required_present (r : Row) : bool :=
  negb (isna (name r)) && negb (isna (calories r))
  && negb (isna (protein_g r)) && negb (isna (fat_g r))
  && negb (isna (carbs_g r)) && negb (isna (steps r))
  && negb (isna (ingredients r)).

Definition dropna_required (df : list Row) : list Row :=
  filter required_present df.

(** [df[mask]] *)
Definition boolean_index {A} (df : list A) (mask : list bool) : list A :=
  map fst (filter snd (combine df mask)).

(** [df[df['calories'] > 0]] *)
Definition positive_calories (df : list Row) : result (list Row) :=
  mask <~ series_apply gt_zero (map calories df) ;;
  Ok (boolean_index df mask).

(** [df.take(locs)] *)
Definition take_rows {A} (df : list A) (locs : list nat) : result (list A) :=
  series_apply
    (fun i => match nth_error df i with
              | Some r => Ok r
              | None => Raise (IndexError "indices are out-of-bounds")
              end)
    locs.

(** [df.sample(n=n, random_state=random_state)]: with a seed, a fresh
    generator is built from it; without one, numpy's global generator is
    used and advanced. *)
Definition DataFrame_sample {A} (E : Env) (n : nat) (random_state : option Z)
  (df : list A) : M (list A) :=
  fun w =>
    let len := List.length df in
    if (len <? n)%nat then
      (Raise (ValueError ("Cannot take a larger sample than population "
                            ++ "when 'replace=False'")), w)
    else
      match random_state with
      | Some seed => (take_rows df (rs_choice E (rs_seed E seed) len n), w)
      | None =>
          (take_rows df (rs_choice E (np_random w) len n),
           mkWorld (stdout w) (files w) (rs_next E (np_random w))
             (db w) (log w))
      end.

(** Step 5, for a target size [n]. *)
Definition sampler {A} (E : Env) (n : nat) (df : list A) : M (list A) :=
  if (n <? List.length df)%nat then DataFrame_sample E n (Some 42%Z) df
  else ret df.

(** Steps 2 to 4: the Record Cleaner. *)
Definition cleaner (E : Env) (df : list RawRow) : M (list Row) :=
  df <- nutrition_columns E df ;;
  df <- lift (apply_column steps set_steps (clean_text E) df) ;;
  df <- lift (apply_column ingredients set_ingredients (clean_text E) df) ;;
  lift (positive_calories (dropna_required df)).

Definition load_and_clean_data (E : Env) : M (list Row) :=
  print ("Loading data from " ++ DATA_FILE_PATH ++ "...") ;;
  df <- try_except
          (pd_read_csv DATA_FILE_PATH)
          is_FileNotFoundError
          (fun _ =>
             print ("ERROR: Data file not found at " ++ DATA_FILE_PATH) ;;
             print ("Please download 'RAW_recipes.csv' from Kaggle and "
                      ++ "place it in the 'data' folder.") ;;
             sys_exit 1) ;;
  print ("Loaded " ++ string_of_nat (List.length df)
           ++ " total songs. Cleaning and processing...") ;;
  df <- cleaner E df ;;
  df <- sampler E SAMPLE_SIZE df ;;
  print ("Cleaned and sampled data. Total recipes to load: "
           ++ string_of_nat (List.length df)) ;;
  ret df.

(** *** [create_embeddings_and_load] *)

(** [range(start, stop, step)] for a step that is not negative. *)
Definition py_range (start stop step : nat) : result (list nat) :=
  if (step =? 0)%nat then Raise (ValueError "range() arg 3 must not be zero")
  else Ok (map (fun k => start + k * step)
             (seq 0 ((stop - start + step - 1) / step))).

(** [df.iloc[i : j]]: a slice is clamped to the frame. *)
Definition iloc_slice {A} (i j : nat) (df : list A) : list A :=
  firstn (j - i) (skipn i df).

(** Element-wise [+] of two object cells of which one is a [str] or
    missing: strings concatenate, a missing operand gives a missing
    result, anything else is a [TypeError]. *)
Definition concat_cells (a b : pyval) : result pyval :=
  match a, b with
  | PyStr x, PyStr y => Ok (PyStr (x ++ y))
  | _, _ =>
      if isna a || isna b then Ok PyNaN
      else Raise (TypeError ("unsupported operand type(s) for +: '"
                               ++ type_name a ++ "' and '"
                               ++ type_name b ++ "'"))
  end.

(** [(batch_df['name'] + ". Ingredients: " + batch_df['ingredients']).tolist()] *)
Definition texts_to_embed (batch_df : list Row) : result (list pyval) :=
  left <~ series_apply (fun n => concat_cells n (PyStr ". Ingredients: "))
            (map name batch_df) ;;
  series_apply (fun lr => concat_cells (fst lr) (snd lr))
    (combine left (map ingredients batch_df)).

(** [model.encode(texts, show_progress_bar=False)] *)
Definition model_encode (model : Model) (texts : list pyval)
  : M (list (list Q)) :=
  fun w => (encode model texts, emit (EvEncode (List.length texts)) w).

Definition to_recipe (row_embedding : Row * list Q) : Models.Recipe :=
  let (row, embedding) := row_embedding in
  Models.mkRecipe None (name row) (calories row) (protein_g row)
    (fat_g row) (carbs_g row) (ingredients row) (steps row) embedding.

(** The objects of one batch: [zip] stops at the shorter sequence. *)
Definition objects_to_add (batch_df : list Row) (embeddings : list (list Q))
  : list Models.Recipe :=
  map to_recipe (combine batch_df embeddings).

(** A session is the list of objects added and not yet committed. *)
Definition Session : Type := list Models.Recipe.

Definition session_add_all (session : Session) (objs : list Models.Recipe)
  : Session := (session ++ objs)%list.

(** [session.commit()]: one transaction.  When the sink refuses it,
    nothing of it is stored and the error is raised. *)
Definition session_commit (E : Env) (session : Session) : M Session :=
  fun w =>
    match commit_fault E w session with
    | Some e => (Raise e, emit (EvCommit (List.length session) false) w)
    | None =>
        (Ok [],
         mkWorld (stdout w) (files w) (np_random w) (db w ++ session)
           (log w ++ [EvCommit (List.length session) true]))
    end.

(** The body of the [for] loop, for the batch that starts at row [i]. *)
Definition load_batch (E : Env) (batch_size : nat) (df : list Row)
  (model : Model) (session : Session) (i : nat) : M Session :=
  let batch_df := iloc_slice i (i + batch_size) df in
  texts <- lift (texts_to_embed batch_df) ;;
  embeddings <- model_encode model texts ;;
  session_commit E
    (session_add_all session (objects_to_add batch_df embeddings)).

(** [for x in xs: s = body(s, x)] *)
Fixpoint for_each {S A} (xs : list A) (body : S -> A -> M S) (s : S) : M S :=
  match xs with
  | [] => ret s
  | x :: rest => s' <- body s x ;; for_each rest body s'
  end.

Definition create_embeddings_and_load_sized (batch_size : nat) (E : Env)
  (df : list Row) (engine : Engine) (model : Model) : M unit :=
  print ("Starting to embed and load " ++ string_of_nat (List.length df)
           ++ " recipes in batches of " ++ string_of_nat batch_size
           ++ "...") ;;
  starts <- lift (py_range 0 (List.length df) batch_size) ;;
  _ <- for_each starts (load_batch E batch_size df model) [] ;;
  print "Data loading complete!".

Definition create_embeddings_and_load (E : Env) (df : list Row)
  (engine : Engine) (model : Model) : M unit :=
  create_embeddings_and_load_sized BATCH_SIZE E df engine model.

(** The batches the loop visits, in order. *)
Definition batches {A} (batch_size : nat) (df : list A) : list (list A) :=
  match py_range 0 (List.length df) batch_size with
  | Ok starts => map (fun i => iloc_slice i (i + batch_size) df) starts
  | Raise _ => []
  end.

(** *** [main] and the process *)

Definition nl : string := String "010"%char EmptyString.

Definition load_model (E : Env) (model_name : string) : M Model :=
  fun w => (SentenceTransformer E model_name w, emit (EvLoadModel model_name) w).

(** The body of the [try] in [main]. *)
Definition main_body (E : Env) : M unit :=
  engine <- lift (create_engine E (DATABASE_URL E)) ;;
  initialize_database E engine ;;
  print ("Loading embedding model: '" ++ EMBEDDING_MODEL ++ "'...") ;;
  model <- load_model E EMBEDDING_MODEL ;;
  print "Embedding model loaded." ;;
  df <- load_and_clean_data E ;;
  create_embeddings_and_load E df engine model ;;
  print (nl ++ "--- SUCCESSFULLY POPULATED YOUR NUTRITIONAL DATABASE ---") ;;
  print ("Your Supabase DB now contains " ++ string_of_nat (List.length df)
           ++ " recipes, each with a 384-dimension vector.") ;;
  print "You are now ready for Part 2: Building the RAG API.".

Definition main (E : Env) : M unit :=
  try_except
    (main_body E)
    is_Exception
    (fun e =>
       print (nl ++ "An error occurred: " ++ exn_str e) ;;
       print ("Please check your DATABASE_URL in the .env file and ensure "
                ++ "your Supabase project is active.")).

(** Running the script: the exit status of the process and the world it
    leaves.  Normal completion is status 0; [sys.exit(c)] is status [c];
    any other exception that leaves [main] ends the process with 1. *)
Definition run_script (E : Env) (w : World) : Z * World :=
  match main E w with
  | (Ok _, w') => (0%Z, w')
  | (Raise (SystemExit c), w') => (c, w')
  | (Raise _, w') => (1%Z, w')
  end.

(* ================================================================== *)
(** ** A concrete environment, for evaluation *)

Module Demo.

(** A stand-in for numpy's generator: the positions [0 .. len-1], rotated
    by the generator state, cut to [n]. *)
Definition rotate_choice (g : Z) (len n : nat) : list nat :=
  let k := Z.to_nat (g mod Z.of_nat len) in
  firstn n (skipn k (seq 0 len) ++ firstn k (seq 0 len)).

(** A stand-in for the embedding model: one two-component vector per text. *)
Definition model : Model :=
  mkModel (fun texts => Ok (map (fun _ => [0%Q; 1%Q]) texts)).

Fixpoint commit_attempts (l : list event) : nat :=
  match l with
  | EvCommit _ _ :: rest => S (commit_attempts rest)
  | _ :: rest => commit_attempts rest
  | [] => 0
  end.

(** [model_fault]: the error of the model constructor, if any;
    [failing_commit]: the commit (counted from 0) that the sink refuses. *)
Definition env (model_fault : option exn) (failing_commit : option nat) : Env :=
  mkEnv "postgresql://demo"
    (fun url => Ok url)
    (fun _ => None)
    (fun _ _ => match model_fault with
                | Some e => Raise e
                | None => Ok model
                end)
    Ast.literal_eval
    (fun w _ =>
       match failing_commit with
       | Some k =>
           if (commit_attempts (log w) =? k)%nat
           then Some (OtherError "connection lost") else None
       | None => None
       end)
    (fun seed => seed)
    (fun g => ((g * 1103515245 + 12345) mod 2147483648)%Z)
    rotate_choice.

Definition good_env : Env := env None None.

(** An environment in which the model cannot be loaded. *)
Definition offline_env : Env := env (Some (OtherError "no network")) None.

Definition raw (n nutr st ing : string) : RawRow :=
  mkRawRow (PyStr n) (PyStr nutr) (PyStr st) (PyStr ing).

Definition soup : RawRow :=
  raw "soup" "[100.0, 5.0, 2.0, 1.0, 3.0, 0.5, 10.0]"
    "['mix', 'bake']" "['water', 'salt']".

Definition water : RawRow :=
  raw "water" "[0.0, 0.0, 0.0, 0.0, 0.0, 0.0, 0.0]"
    "['pour']" "['water']".

Definition toast : RawRow :=
  raw "toast" "[80, 1, 2, 3, 4, 5, 15]" "['toast the bread']" "['bread']".

Definition world_with (rows : option (list RawRow)) (g : Z) : World :=
  mkWorld []
    (fun path => if String.eqb path DATA_FILE_PATH then rows else None)
    g [] [].

Definition three_rows : World := world_with (Some [soup; water; toast]) 7%Z.

(** The three rows of [three_rows] once steps 2 and 3 have run. *)
Definition soup_row : Row :=
  mkRow (PyStr "soup") (PyStr "[100.0, 5.0, 2.0, 1.0, 3.0, 0.5, 10.0]")
    (PyStr "mix, bake") (PyStr "water, salt")
    (PyFloat (100 # 1)) (PyFloat (5 # 1)) (PyFloat (3 # 1)) (PyFloat (10 # 1)).

Definition water_row : Row :=
  mkRow (PyStr "water") (PyStr "[0.0, 0.0, 0.0, 0.0, 0.0, 0.0, 0.0]")
    (PyStr "pour") (PyStr "water")
    (PyFloat (0 # 1)) (PyFloat (0 # 1)) (PyFloat (0 # 1)) (PyFloat (0 # 1)).

Definition toast_row : Row :=
  mkRow (PyStr "toast") (PyStr "[80, 1, 2, 3, 4, 5, 15]")
    (PyStr "toast the bread") (PyStr "bread")
    (PyInt 80) (PyInt 1) (PyInt 4) (PyInt 15).

Definition clean_row (i : nat) : Row :=
  mkRow (PyStr ("recipe " ++ string_of_nat i)) (PyStr "[1, 0, 0, 0, 0, 0, 0]")
    (PyStr "stir") (PyStr "salt") (PyInt 1) (PyInt 0) (PyInt 0) (PyInt 0).

Definition frame (n : nat) : list Row := map clean_row (seq 0 n).

(** A run of the loader over 2500 rows in which the sink refuses the
    second commit, and one in which it refuses none. *)
Definition flaky_run : result unit * World :=
  create_embeddings_and_load (env None (Some 1)) (frame 2500) "engine" model
    (world_with None 0%Z).

Definition smooth_run : result unit * World :=
  create_embeddings_and_load good_env (frame 2500) "engine" model
    (world_with None 0%Z).

End Demo.

(* ================================================================== *)
(** ** Vocabulary of the statements *)

(** [row] is [raw] with the four nutrition columns read at positions 0, 1,
    4 and 6 of the parsed nutrition cell. *)
Definition extracted (E : Env) (raw : RawRow) (row : Row) : Prop :=
  exists x,
    ast_literal_eval E (r_nutrition raw) = Ok x /\
    getitem 0 x = Ok (calories row) /\
    getitem 1 x = Ok (fat_g row) /\
    getitem 4 x = Ok (protein_g row) /\
    getitem 6 x = Ok (carbs_g row) /\
    name row = r_name raw /\ nutrition row = r_nutrition raw /\
    steps row = r_steps raw /\ ingredients row = r_ingredients raw.

(** The evaluator raises only instances of [Exception]. *)
Definition raises_only_Exceptions (E : Env) : Prop :=
  forall s e, literal_eval E s = Raise e -> is_Exception e = true.

(** The world after the two lines of the nutrition fallback are printed. *)
Definition after_fallback_message (e : exn) (w : World) : World :=
  mkWorld (stdout w ++ ["Error parsing nutrition column: " ++ exn_str e;
                        "Skipping bad rows."])
    (files w) (np_random w) (db w) (log w).

(** [calories > 0] holds of the row. *)
Definition calories_positive (r : Row) : bool :=
  match gt_zero (calories r) with
  | Ok true => true
  | _ => false
  end.



(** Row by row: [row] is what steps 2 and 3 make of [raw] when nothing
    raises. *)
Definition cleans_to (E : Env) (raw : RawRow) (row : Row) : Prop :=
  (exists x,
      ast_literal_eval E (r_nutrition raw) = Ok x /\
      getitem 0 x = Ok (calories row) /\
      getitem 1 x = Ok (fat_g row) /\
      getitem 4 x = Ok (protein_g row) /\
      getitem 6 x = Ok (carbs_g row)) /\
  clean_text E (r_steps raw) = Ok (steps row) /\
  clean_text E (r_ingredients raw) = Ok (ingredients row) /\
  name row = r_name raw /\ nutrition row = r_nutrition raw.

(** [r'] is [r] with the column read by [get] replaced by [f] of it. *)
Definition column_applied (get : Row -> pyval) (set : Row -> pyval -> Row)
  (f : pyval -> result pyval) (r r' : Row) : Prop :=
  exists v, f (get r) = Ok v /\ r' = set r v.

(** Two worlds hold the same input file. *)
Definition same_input_file (w1 w2 : World) : Prop :=
  files w1 DATA_FILE_PATH = files w2 DATA_FILE_PATH.

(** The outcome of [m] depends on the world through the input file only,
    and [m] leaves that file as it is. *)
Definition file_determined {A} (m : M A) : Prop :=
  forall w1 w2, same_input_file w1 w2 ->
    fst (m w1) = fst (m w2) /\ same_input_file (snd (m w1)) (snd (m w2)).

(** [out] is a selection of rows of [df] without replacement: together
    with the rows left out it is a rearrangement of [df]. *)
Definition selection_of {A} (df out : list A) : Prop :=
  exists rest, Permutation (out ++ rest) df.

(** The seven clean fields of a row, and of a stored record. *)
Definition row_fields (r : Row)
  : pyval * pyval * pyval * pyval * pyval * pyval * pyval :=
  (name r, calories r, protein_g r, fat_g r, carbs_g r, ingredients r, steps r).

Definition recipe_fields (o : Models.Recipe)
  : pyval * pyval * pyval * pyval * pyval * pyval * pyval :=
  (Models.name o, Models.calories o, Models.protein_g o, Models.fat_g o,
   Models.carbs_g o, Models.ingredients o, Models.steps o).

(** Where the work on one batch can stop: building the texts, encoding
    them, or committing the transaction. *)
Inductive failure_stage : Type :=
| TextFailure
| EncodeFailure
| CommitFailure.

(** The external actions of batches that were encoded and committed. *)
Definition committed_events (bs : list (list Row)) : list event :=
  flat_map (fun b => [EvEncode (List.length b); EvCommit (List.length b) true])
    bs.

(** The external actions of a batch of [n] rows that stopped at [stage]. *)
Definition failure_events (n : nat) (stage : failure_stage) : list event :=
  match stage with
  | TextFailure => []
  | EncodeFailure => [EvEncode n]
  | CommitFailure => [EvEncode n; EvCommit n false]
  end.

(** The sizes of the slices the loop takes from a frame of [len] rows. *)
Definition batch_sizes (batch_size len : nat) : list nat :=
  match py_range 0 len batch_size with
  | Ok starts => map (fun i => Nat.min (i + batch_size - i) (len - i)) starts
  | Raise _ => []
  end.

(** The world after the top-level handler of [main] has printed its two
    lines about [e]. *)
Definition after_top_level_message (e : exn) (w : World) : World :=
  mkWorld
    (stdout w
       ++ [nl ++ "An error occurred: " ++ exn_str e;
           "Please check your DATABASE_URL in the .env file and ensure "
             ++ "your Supabase project is active."])
    (files w) (np_random w) (db w) (log w).

(** The constructor of the embedding model raises [e], whenever called. *)
Definition model_load_fails (E : Env) (e : exn) : Prop :=
  forall w, SentenceTransformer E EMBEDDING_MODEL w = Raise e.

(** The engine is created and the sink bootstraps without error. *)
Definition database_ready (E : Env) : Prop :=
  (exists engine, create_engine E (DATABASE_URL E) = Ok engine) /\
  (forall w, db_init_fault E w = None).

(** [w'] differs from [w] at most in what was printed. *)
Definition only_printed (w w' : World) : Prop :=
  files w' = files w /\ np_random w' = np_random w /\
  db w' = db w /\ log w' = log w.

(** [m] does nothing to the world but print. *)
Definition prints_only {A} (m : M A) : Prop :=
  forall w r w', m w = (r, w') -> only_printed w w'.

(** Whatever [m] raises is an instance of [Exception]. *)
Definition raises_Exceptions {A} (m : M A) : Prop :=
  forall w e w', m w = (Raise e, w') -> is_Exception e = true.

(** A cell as a text column of the file holds it: a string or the
    missing-value marker. *)
Definition text_cell (c : pyval) : Prop :=
  c = PyNaN \/ exists s, c = PyStr s.

(** The bootstrap of the sink raises [e], whenever tried. *)
Definition bootstrap_fails (E : Env) (e : exn) : Prop :=
  forall w, db_init_fault E w = Some e.

(** The constructor of the embedding model returns [model]. *)
Definition model_loads (E : Env) (model : Model) : Prop :=
  forall w, SentenceTransformer E EMBEDDING_MODEL w = Ok model.

(** No collaborator ends the process on its own: what the engine, the
    sink, the model and the evaluator raise are instances of
    [Exception]. *)
Record CollaboratorsRaiseExceptions (E : Env) : Prop :=
  mkCollaboratorsRaiseExceptions {
  cre_engine : forall url e,
    create_engine E url = Raise e -> is_Exception e = true;
  cre_init : forall w e,
    db_init_fault E w = Some e -> is_Exception e = true;
  cre_model : forall model_name w e,
    SentenceTransformer E model_name w = Raise e -> is_Exception e = true;
  cre_encode : forall model_name w model texts e,
    SentenceTransformer E model_name w = Ok model ->
    encode model texts = Raise e -> is_Exception e = true;
  cre_literal : raises_only_Exceptions E;
  cre_commit : forall w session e,
    commit_fault E w session = Some e -> is_Exception e = true
}.

(** Environments with a sink that cannot be bootstrapped. *)
Module Scenarios.

Definition no_sink_env : Env :=
  mkEnv "postgresql://demo"
    (fun url => Ok url)
    (fun _ => Some (OtherError "connection refused"))
    (fun _ _ => Ok Demo.model)
    Ast.literal_eval
    (fun _ _ => None)
    (fun seed => seed)
    (fun g => g)
    Demo.rotate_choice.

(** An environment whose database URL the engine rejects. *)
Definition bad_url_env : Env :=
  mkEnv "not a url"
    (fun url => Raise (OtherError "Could not parse SQLAlchemy URL"))
    (fun _ => None)
    (fun _ _ => Ok Demo.model)
    Ast.literal_eval
    (fun _ _ => None)
    (fun seed => seed)
    (fun g => g)
    Demo.rotate_choice.

End Scenarios.

(** The name and the ingredients of the row are strings. *)
Definition has_text_fields (r : Row) : Prop :=
  exists n i, name r = PyStr n /\ ingredients r = PyStr i.

(** The text that is embedded for a row with string fields:
    [name + ". Ingredients: " + ingredients]. *)
Definition embedding_text (r : Row) : pyval :=
  match name r, ingredients r with
  | PyStr n, PyStr i => PyStr ((n ++ ". Ingredients: ") ++ i)
  | _, _ => PyNaN
  end.

(** The vectors the model returns for the texts of a batch, and the
    objects built from the batch and these vectors. *)
Definition batch_vectors (model : Model) (b : list Row) : list (list Q) :=
  match texts_to_embed b with
  | Ok texts =>
      match encode model texts with
      | Ok vectors => vectors
      | Raise _ => []
      end
  | Raise _ => []
  end.

Definition batch_objects (model : Model) (b : list Row)
  : list Models.Recipe :=
  objects_to_add b (batch_vectors model b).

(** The model encodes whatever it is given; the sink refuses no commit. *)
Definition encode_total (model : Model) : Prop :=
  forall texts, exists vectors, encode model texts = Ok vectors.

Definition sink_accepts (E : Env) : Prop :=
  forall w session, commit_fault E w session = None.

(** The line the loader prints first. *)
Definition loader_start_line (df : list Row) : string :=
  "Starting to embed and load " ++ string_of_nat (List.length df)
    ++ " recipes in batches of " ++ string_of_nat BATCH_SIZE ++ "...".

(** [w'] has the files and the generator of [w], and its sink holds the
    rows of [w] followed by further rows. *)
Definition sink_extended (w w' : World) : Prop :=
  files w' = files w /\ np_random w' = np_random w /\
  exists added, db w' = (db w ++ added)%list.

(** Whatever its outcome, [m] at most appends to the sink. *)
Definition appends_only {A} (m : M A) : Prop :=
  forall w r w', m w = (r, w') -> sink_extended w w'.

(** The value of a cell as a number, when it is one.  pandas may store
    an [int] of a column as the [float] of the same value; a [float] is
    stored as it is. *)
Definition as_float (v : pyval) : option Q :=
  match v with
  | PyInt z => Some (inject_Z z)
  | PyFloat q => Some q
  | _ => None
  end.

(** [field] is the element [v] of a parsed list, read as a number. *)
Definition extracted_number (v field : pyval) : Prop :=
  as_float field = as_float v /\
  (forall q, v = PyFloat q -> field = PyFloat q).

(** The four nutrition columns of [row] are positions 0, 1, 4 and 6 of
    the list [l]. *)
Definition holds_positions (l : list pyval) (row : Row) : Prop :=
  extracted_number (nth 0 l PyNone) (calories row) /\
  extracted_number (nth 1 l PyNone) (fat_g row) /\
  extracted_number (nth 4 l PyNone) (protein_g row) /\
  extracted_number (nth 6 l PyNone) (carbs_g row).

(** The world in which the bootstrap of the sink is tried, and the one in
    which the model is constructed when the bootstrap went well. *)
Definition at_bootstrap (w : World) : World :=
  mkWorld (stdout w ++ ["Initializing database..."])
    (files w) (np_random w) (db w) (log w).

Definition at_model_load (w : World) : World :=
  mkWorld
    (((stdout w ++ ["Initializing database..."])
        ++ ["Database initialized and pgvector extension is active."])
       ++ ["Loading embedding model: '" ++ EMBEDDING_MODEL ++ "'..."])
    (files w) (np_random w) (db w) (log w ++ [EvInitDb]).

(** The exit status of a call of [main], read off the first stage that
    fails: a rejected URL and a failed model load are caught (0), a failed
    bootstrap and a missing file exit (1), anything later is caught (0). *)
Definition exit_status_of (E : Env) (w : World) : Z :=
  match create_engine E (DATABASE_URL E) with
  | Raise _ => 0%Z
  | Ok _ =>
      match db_init_fault E (at_bootstrap w) with
      | Some _ => 1%Z
      | None =>
          match SentenceTransformer E EMBEDDING_MODEL (at_model_load w) with
          | Raise _ => 0%Z
          | Ok _ =>
              match files w DATA_FILE_PATH with
              | None => 1%Z
              | Some _ => 0%Z
              end
          end
      end
  end.

(* ================================================================== *)
(** ** Generic facts about the result type and [Series.apply] *)

Section SeriesApply.

Context {A B : Type}.
Variable f : A -> result B.

Lemma series_apply_Forall2 (xs : list A) (ys : list B) :
  series_apply f xs = Ok ys -> Forall2 (fun x y => f x = Ok y) xs ys.
Proof.
  revert ys; induction xs as [|x xs IH]; intros ys H; cbn in H.
  - injection H as <-. constructor.
  - destruct (f x) as [y|e] eqn:Hx; cbn in H; [|discriminate].
    destruct (series_apply f xs) as [ys'|e] eqn:Hxs; cbn in H; [|discriminate].
    injection H as <-. constructor; auto.
Qed.

Lemma series_apply_length (xs : list A) (ys : list B) :
  series_apply f xs = Ok ys -> List.length ys = List.length xs.
Proof.
  intros H. apply series_apply_Forall2 in H.
  symmetry. eapply Forall2_length; eauto.
Qed.

Lemma series_apply_pointwise (g : A -> B) (xs : list A) :
  Forall (fun x => f x = Ok (g x)) xs -> series_apply f xs = Ok (map g xs).
Proof.
  induction 1 as [|x xs Hx _ IH]; cbn; [reflexivity|].
  now rewrite Hx, IH.
Qed.

Lemma series_apply_total (xs : list A) :
  Forall (fun x => exists y, f x = Ok y) xs ->
  exists ys, series_apply f xs = Ok ys.
Proof.
  induction 1 as [|x xs [y Hx] _ [ys IH]]; cbn.
  - now exists [].
  - exists (y :: ys). now rewrite Hx, IH.
Qed.

(** One failing cell fails the whole pass. *)
Lemma series_apply_raises (xs : list A) (x : A) (e : exn) :
  In x xs -> f x = Raise e -> exists e', series_apply f xs = Raise e'.
Proof.
  induction xs as [|a xs IH]; intros Hin Hx; [contradiction|].
  cbn. destruct Hin as [->|Hin].
  - rewrite Hx. now exists e.
  - destruct (f a); cbn; [|eauto].
    destruct (IH Hin Hx) as [e' ->]. now exists e'.
Qed.

End SeriesApply.

(* ================================================================== *)
(** ** [clean_text] *)

Lemma join_from_strings (i : nat) (sep : string) (ss : list string) :
  join_from i sep (map PyStr ss) = Ok (String.concat sep ss).
Proof.
  revert i; induction ss as [|s ss IH]; intros i; [reflexivity|].
  destruct ss as [|t ss]; [reflexivity|].
  change (join_from i sep (map PyStr (s :: t :: ss)))
    with (rbind (join_from (S i) sep (map PyStr (t :: ss)))
            (fun u => Ok (s ++ sep ++ u))).
  now rewrite IH.
Qed.

Lemma join_from_non_string (i : nat) (sep : string) (items : list pyval) :
  forallb is_str items = false ->
  exists msg, join_from i sep items = Raise (TypeError msg).
Proof.
  revert i; induction items as [|v items IH]; intros i H; [discriminate|].
  destruct v; cbn in H |- *; eauto.
  destruct items as [|v' items]; [discriminate|].
  destruct (IH (S i) H) as [msg ->]. cbn. eauto.
Qed.

(** A list of strings is joined with [", "]. *)
Lemma clean_text_joins (E : Env) (s : string) (ss : list string) :
  literal_eval E s = Ok (PyList (map PyStr ss)) ->
  clean_text E (PyStr s) = Ok (PyStr (String.concat ", " ss)).
Proof.
  intros H. unfold clean_text, ast_literal_eval, str_join.
  rewrite H. cbn. now rewrite join_from_strings.
Qed.

(** A [ValueError] or a [SyntaxError] of the parser gives the text back. *)
Lemma clean_text_handled (E : Env) (s : string) (e : exn) :
  literal_eval E s = Raise e -> is_ValueError_or_SyntaxError e = true ->
  clean_text E (PyStr s) = Ok (PyStr s).
Proof.
  intros H He. unfold clean_text, ast_literal_eval.
  rewrite H. cbn. now rewrite He.
Qed.

(** A literal that is not a list gives the text back. *)
Lemma clean_text_not_a_list (E : Env) (s : string) (v : pyval) :
  literal_eval E s = Ok v -> (forall l, v <> PyList l) ->
  clean_text E (PyStr s) = Ok (PyStr s).
Proof.
  intros H Hv. unfold clean_text, ast_literal_eval.
  rewrite H. cbn. destruct v; try reflexivity.
  now destruct (Hv items).
Qed.

(** A missing cell stays missing. *)
Lemma clean_text_missing (E : Env) : clean_text E PyNaN = Ok PyNaN.
Proof. reflexivity. Qed.

Example clean_text_mix_bake :
  clean_text Demo.good_env (PyStr "['mix', 'bake']") = Ok (PyStr "mix, bake").
Proof. reflexivity. Qed.

(** C7 (the code departs from the claim): on the text [[1, 2]], which
    parses as a list literal, [clean_text] returns neither the joined
    elements nor the original text; the [TypeError] of [join] leaves the
    function. *)
Theorem clean_text_numeric_list_raises :
  Ast.literal_eval "[1, 2]" = Ok (PyList [PyInt 1; PyInt 2]) /\
  clean_text Demo.good_env (PyStr "[1, 2]")
    = Raise (TypeError "sequence item 0: expected str instance, int found") /\
  (forall v, clean_text Demo.good_env (PyStr "[1, 2]") <> Ok v).
Proof.
  split; [reflexivity|]. split; [reflexivity|].
  intros v H. vm_compute in H. discriminate.
Qed.

(** C10: [clean_text] is not total.  Whenever the text parses as a list
    literal with an element that is not a string, [join] raises a
    [TypeError]; the handler of [clean_text] takes only [ValueError] and
    [SyntaxError], so the error leaves [clean_text] and the text is not
    returned. *)
Theorem clean_text_type_error_escapes (E : Env) (s : string)
  (items : list pyval) :
  literal_eval E s = Ok (PyList items) ->
  forallb is_str items = false ->
  exists msg,
    str_join ", " items = Raise (TypeError msg) /\
    is_ValueError_or_SyntaxError (TypeError msg) = false /\
    clean_text E (PyStr s) = Raise (TypeError msg) /\
    clean_text E (PyStr s) <> Ok (PyStr s).
Proof.
  intros H Hns.
  destruct (join_from_non_string 0 ", " items Hns) as [msg Hj].
  exists msg. unfold clean_text, ast_literal_eval, str_join.
  rewrite H. cbn. rewrite Hj. cbn. repeat split; auto. discriminate.
Qed.

Lemma clean_text_type_error_escapes_witness :
  exists msg,
    str_join ", " [PyInt 1; PyInt 2] = Raise (TypeError msg) /\
    is_ValueError_or_SyntaxError (TypeError msg) = false /\
    clean_text Demo.good_env (PyStr "[1, 2]") = Raise (TypeError msg) /\
    clean_text Demo.good_env (PyStr "[1, 2]") <> Ok (PyStr "[1, 2]").
Proof.
  apply (clean_text_type_error_escapes Demo.good_env "[1, 2]"
           [PyInt 1; PyInt 2]); reflexivity.
Defined.

(* ================================================================== *)
(** ** The nutrition pass *)

Lemma series_apply_raise_inv {A B} (f : A -> result B) (xs : list A) (e : exn) :
  series_apply f xs = Raise e -> exists x, In x xs /\ f x = Raise e.
Proof.
  induction xs as [|a xs IH]; cbn; [discriminate|].
  destruct (f a) as [y|e'] eqn:Ha; cbn.
  - destruct (series_apply f xs) as [ys|e'] eqn:Hxs; cbn; [discriminate|].
    intros [= ->]. destruct (IH eq_refl) as (x & Hin & Hx). eauto.
  - intros [= ->]. eauto.
Qed.

Lemma assign_nutrition_extracted (E : Env) (df : list RawRow) :
  forall nutr cal fat prot carb,
    Forall2 (fun x y => ast_literal_eval E x = Ok y) (map r_nutrition df) nutr ->
    Forall2 (fun x y => getitem 0 x = Ok y) nutr cal ->
    Forall2 (fun x y => getitem 1 x = Ok y) nutr fat ->
    Forall2 (fun x y => getitem 4 x = Ok y) nutr prot ->
    Forall2 (fun x y => getitem 6 x = Ok y) nutr carb ->
    Forall2 (extracted E) df (assign_nutrition df cal fat prot carb).
Proof.
  induction df as [|raw df IH]; intros nutr cal fat prot carb H0 H1 H2 H3 H4.
  - constructor.
  - cbn in H0. inversion H0 as [|? x ? nutr' Hx H0']; subst.
    inversion H1; subst. inversion H2; subst.
    inversion H3; subst. inversion H4; subst.
    cbn. constructor.
    + exists x. cbn. repeat split; assumption.
    + eapply IH; eassumption.
Qed.

(** A successful pass reads every row at positions 0, 1, 4 and 6. *)
Lemma parse_nutrition_extracted (E : Env) (df : list RawRow) (rows : list Row) :
  parse_nutrition E df = Ok rows -> Forall2 (extracted E) df rows.
Proof.
  unfold parse_nutrition. intros H.
  destruct (series_apply (ast_literal_eval E) (map r_nutrition df))
    as [nutr|] eqn:H0; cbn in H; [|discriminate].
  destruct (series_apply (getitem 0) nutr) as [cal|] eqn:H1;
    cbn in H; [|discriminate].
  destruct (series_apply (getitem 1) nutr) as [fat|] eqn:H2;
    cbn in H; [|discriminate].
  destruct (series_apply (getitem 4) nutr) as [prot|] eqn:H3;
    cbn in H; [|discriminate].
  destruct (series_apply (getitem 6) nutr) as [carb|] eqn:H4;
    cbn in H; [|discriminate].
  injection H as <-.
  eapply assign_nutrition_extracted; eauto using series_apply_Forall2.
Qed.

Lemma Forall2_series_apply {A B} (f : A -> result B) (xs : list A) (ys : list B) :
  Forall2 (fun x y => f x = Ok y) xs ys -> series_apply f xs = Ok ys.
Proof.
  induction 1 as [|x y xs ys Hx _ IH]; cbn; [reflexivity|].
  now rewrite Hx, IH.
Qed.

(** Conversely, rows that can each be read make the pass succeed. *)
Lemma extracted_parse_nutrition (E : Env) (df : list RawRow) (rows : list Row) :
  Forall2 (extracted E) df rows -> parse_nutrition E df = Ok rows.
Proof.
  intros H.
  assert (exists nutr,
     Forall2 (fun x y => ast_literal_eval E x = Ok y) (map r_nutrition df) nutr /\
     Forall2 (fun x y => getitem 0 x = Ok y) nutr (map calories rows) /\
     Forall2 (fun x y => getitem 1 x = Ok y) nutr (map fat_g rows) /\
     Forall2 (fun x y => getitem 4 x = Ok y) nutr (map protein_g rows) /\
     Forall2 (fun x y => getitem 6 x = Ok y) nutr (map carbs_g rows) /\
     assign_nutrition df (map calories rows) (map fat_g rows)
       (map protein_g rows) (map carbs_g rows) = rows) as (nutr & H0 & H1 & H2 & H3 & H4 & Heq).
  { induction H as [|raw row df rows Hr _ IH].
    - exists []. cbn. repeat split; constructor.
    - destruct IH as (nutr & H0 & H1 & H2 & H3 & H4 & Heq).
      destruct Hr as (x & Hx & G0 & G1 & G4 & G6 & Hn & Hnu & Hs & Hi).
      exists (x :: nutr). cbn. repeat split; try (constructor; assumption).
      rewrite Heq. destruct row; cbn in *. congruence. }
  unfold parse_nutrition.
  rewrite (Forall2_series_apply _ _ _ H0). cbn.
  rewrite (Forall2_series_apply _ _ _ H1). cbn.
  rewrite (Forall2_series_apply _ _ _ H2). cbn.
  rewrite (Forall2_series_apply _ _ _ H3). cbn.
  rewrite (Forall2_series_apply _ _ _ H4). cbn.
  now rewrite Heq.
Qed.

Lemma getitem_list_seven (l : list pyval) (i : nat) :
  List.length l = 7 -> i < 7 -> getitem i (PyList l) = Ok (nth i l PyNone).
Proof.
  intros Hl Hi. cbn.
  destruct (nth_error l i) as [v|] eqn:Hn.
  - now rewrite (nth_error_nth _ _ PyNone Hn).
  - apply nth_error_None in Hn. lia.
Qed.

(* ================================================================== *)
(** ** The fallback of the nutrition pass *)

Lemma ast_literal_eval_Exception (E : Env) (x : pyval) (e : exn) :
  raises_only_Exceptions E ->
  ast_literal_eval E x = Raise e -> is_Exception e = true.
Proof.
  intros HE. destruct x; cbn; try (intros [= <-]; reflexivity).
  apply HE.
Qed.

Lemma getitem_Exception (i : nat) (x : pyval) (e : exn) :
  getitem i x = Raise e -> is_Exception e = true.
Proof.
  destruct x; cbn; try (intros [= <-]; reflexivity).
  - destruct (String.get i s); intros [= <-]; reflexivity.
  - destruct (nth_error items i); intros [= <-]; reflexivity.
  - destruct (nth_error items i); intros [= <-]; reflexivity.
Qed.

(** Whatever the pass raises is caught by [except Exception]. *)
Lemma parse_nutrition_Exception (E : Env) (df : list RawRow) (e : exn) :
  raises_only_Exceptions E ->
  parse_nutrition E df = Raise e -> is_Exception e = true.
Proof.
  intros HE. unfold parse_nutrition.
  destruct (series_apply (ast_literal_eval E) _) as [nutr|e0] eqn:H0; cbn.
  2:{ intros [= <-]. apply series_apply_raise_inv in H0 as (x & _ & Hx).
      eapply ast_literal_eval_Exception; eauto. }
  destruct (series_apply (getitem 0) nutr) as [cal|e0] eqn:H1; cbn.
  2:{ intros [= <-]. apply series_apply_raise_inv in H1 as (x & _ & Hx).
      eapply getitem_Exception; eauto. }
  destruct (series_apply (getitem 1) nutr) as [fat|e0] eqn:H2; cbn.
  2:{ intros [= <-]. apply series_apply_raise_inv in H2 as (x & _ & Hx).
      eapply getitem_Exception; eauto. }
  destruct (series_apply (getitem 4) nutr) as [prot|e0] eqn:H3; cbn.
  2:{ intros [= <-]. apply series_apply_raise_inv in H3 as (x & _ & Hx).
      eapply getitem_Exception; eauto. }
  destruct (series_apply (getitem 6) nutr) as [carb|e0] eqn:H4; cbn.
  2:{ intros [= <-]. apply series_apply_raise_inv in H4 as (x & _ & Hx).
      eapply getitem_Exception; eauto. }
  discriminate.
Qed.

(** A cell that does not parse makes the whole pass raise. *)
Lemma parse_nutrition_row_raises (E : Env) (df : list RawRow) (raw : RawRow)
  (e0 : exn) :
  In raw df -> ast_literal_eval E (r_nutrition raw) = Raise e0 ->
  exists e, parse_nutrition E df = Raise e.
Proof.
  intros Hin Hraw. unfold parse_nutrition.
  destruct (series_apply_raises (ast_literal_eval E) (map r_nutrition df)
              (r_nutrition raw) e0) as [e He]; auto using in_map.
  rewrite He. cbn. eauto.
Qed.

Lemma nutrition_columns_fallback (E : Env) (df : list RawRow) (w : World)
  (e : exn) :
  parse_nutrition E df = Raise e -> is_Exception e = true ->
  nutrition_columns E df w
  = (parse_nutrition E (dropna_nutrition df), after_fallback_message e w).
Proof.
  intros H He. unfold nutrition_columns, try_except, lift.
  rewrite H, He.
  cbv [bind print after_fallback_message stdout files np_random db log].
  now rewrite <- app_assoc.
Qed.

Lemma Ast_raises_only_Exceptions : raises_only_Exceptions Demo.good_env.
Proof.
  intros s e. cbn. unfold Ast.literal_eval.
  destruct (Ast.parse_value _ _) as [[v rest]|].
  - destruct (Ast.skip_ws rest); intros [= <-]; reflexivity.
  - intros [= <-]; reflexivity.
Qed.

(** C5: when the parse of the nutrition column throws for some row in the
    first pass, the pass raises; the Cleaner then prints its two lines,
    drops exactly the rows whose nutrition cell is missing and runs the
    same pass once more over what is left: the outcome of the step is the
    outcome of that second pass, be it the columns or its error.  Rows are
    not skipped one by one: a row whose cell is present but does not parse
    stays in the reduced set and makes the second pass, hence the step,
    raise. *)
Theorem nutrition_fallback_single_global_retry (E : Env) (df : list RawRow)
  (w : World) :
  raises_only_Exceptions E ->
  (forall raw e0,
      In raw df -> ast_literal_eval E (r_nutrition raw) = Raise e0 ->
      exists e, parse_nutrition E df = Raise e) /\
  (forall e,
      parse_nutrition E df = Raise e ->
      nutrition_columns E df w
      = (parse_nutrition E (dropna_nutrition df), after_fallback_message e w)) /\
  (forall r, In r (dropna_nutrition df) <->
             In r df /\ isna (r_nutrition r) = false) /\
  (forall raw e0,
      In raw df -> isna (r_nutrition raw) = false ->
      ast_literal_eval E (r_nutrition raw) = Raise e0 ->
      exists e', fst (nutrition_columns E df w) = Raise e').
Proof.
  intros HE.
  assert (Hfb : forall e, parse_nutrition E df = Raise e ->
            nutrition_columns E df w
            = (parse_nutrition E (dropna_nutrition df),
               after_fallback_message e w)).
  { intros e He. apply nutrition_columns_fallback; [exact He|].
    exact (parse_nutrition_Exception E df e HE He). }
  split; [|split; [exact Hfb|split]].
  - intros raw e0. apply parse_nutrition_row_raises.
  - intros r. unfold dropna_nutrition. rewrite filter_In.
    now rewrite negb_true_iff.
  - intros raw e0 Hin Hpresent Hraw.
    destruct (parse_nutrition_row_raises E df raw e0 Hin Hraw) as [e He].
    rewrite (Hfb e He). cbn [fst].
    apply (parse_nutrition_row_raises E _ raw e0); [|exact Hraw].
    unfold dropna_nutrition. apply filter_In. now rewrite Hpresent.
Qed.

Lemma nutrition_fallback_single_global_retry_witness :
  nutrition_columns Demo.good_env
    [Demo.soup; mkRawRow (PyStr "ice") PyNaN (PyStr "['freeze']")
                  (PyStr "['water']")] Demo.three_rows
  = (parse_nutrition Demo.good_env
       (dropna_nutrition
          [Demo.soup; mkRawRow (PyStr "ice") PyNaN (PyStr "['freeze']")
                        (PyStr "['water']")]),
     after_fallback_message (ValueError "malformed node or string: nan")
       Demo.three_rows).
Proof.
  apply (proj1 (proj2 (nutrition_fallback_single_global_retry Demo.good_env
                         [Demo.soup;
                          mkRawRow (PyStr "ice") PyNaN (PyStr "['freeze']")
                            (PyStr "['water']")]
                         Demo.three_rows Ast_raises_only_Exceptions))).
  reflexivity.
Defined.

(* ================================================================== *)
(** ** The monad: inversion of a successful run *)

Lemma bind_Ok_inv {A B} (m : M A) (k : A -> M B) (w w' : World) (b : B) :
  bind m k w = (Ok b, w') ->
  exists a w1, m w = (Ok a, w1) /\ k a w1 = (Ok b, w').
Proof.
  unfold bind. destruct (m w) as [[a|e] w1]; [eauto|discriminate].
Qed.

Lemma lift_Ok_inv {A} (r : result A) (w w' : World) (a : A) :
  lift r w = (Ok a, w') -> r = Ok a /\ w' = w.
Proof. unfold lift. intros [= -> ->]. auto. Qed.

Lemma print_inv (line : string) (w w' : World) (u : unit) :
  print line w = (Ok u, w') ->
  db w' = db w /\ log w' = log w /\ files w' = files w.
Proof. unfold print. intros [= _ <-]. auto. Qed.

Ltac bind_inv H :=
  let a := fresh "a" in
  let w1 := fresh "w" in
  let H1 := fresh "Hm" in
  apply bind_Ok_inv in H as (a & w1 & H1 & H).

(* ================================================================== *)
(** ** The Record Cleaner *)

Lemma combine_column_applied get set f (df : list Row) :
  forall col,
    Forall2 (fun x y => f x = Ok y) (map get df) col ->
    Forall2 (column_applied get set f) df
      (map (fun rv => set (fst rv) (snd rv)) (combine df col)).
Proof.
  induction df as [|r df IH]; intros col H; cbn in *.
  - constructor.
  - inversion H as [|? v ? col' Hv H']; subst. cbn.
    constructor; [exists v; auto|auto].
Qed.

Lemma apply_column_Forall2 get set f (df out : list Row) :
  apply_column get set f df = Ok out ->
  Forall2 (column_applied get set f) df out.
Proof.
  unfold apply_column.
  destruct (series_apply f (map get df)) as [col|] eqn:Hc; cbn; [|discriminate].
  intros [= <-]. apply combine_column_applied.
  now apply series_apply_Forall2.
Qed.

Lemma Forall2_apply_column get set f (df out : list Row) :
  Forall2 (column_applied get set f) df out ->
  apply_column get set f df = Ok out.
Proof.
  intros H. unfold apply_column.
  assert (exists col,
            Forall2 (fun x y => f x = Ok y) (map get df) col /\
            map (fun rv => set (fst rv) (snd rv)) (combine df col) = out)
    as (col & Hc & Heq).
  { induction H as [|r r' df out (v & Hv & ->) _ (col & Hc & Heq)].
    - exists []. split; constructor.
    - exists (v :: col). cbn. split; [constructor; auto|now rewrite Heq]. }
  rewrite (Forall2_series_apply _ _ _ Hc). cbn. now rewrite Heq.
Qed.

Lemma boolean_index_filter (df : list Row) :
  forall mask,
    Forall2 (fun x b => gt_zero x = Ok b) (map calories df) mask ->
    boolean_index df mask = filter calories_positive df.
Proof.
  unfold boolean_index.
  induction df as [|r df IH]; intros mask H; cbn in *.
  - reflexivity.
  - inversion H as [|? b ? mask' Hb H']; subst. cbn.
    unfold calories_positive at 1. rewrite Hb.
    destruct b; cbn; now rewrite IH.
Qed.

(** [df[df['calories'] > 0]] keeps exactly the rows with positive
    calories, when the comparison is defined on every row. *)
Lemma positive_calories_filter (df out : list Row) :
  positive_calories df = Ok out -> out = filter calories_positive df.
Proof.
  unfold positive_calories.
  destruct (series_apply gt_zero (map calories df)) as [mask|] eqn:Hm;
    cbn; [|discriminate].
  intros [= <-]. apply boolean_index_filter.
  now apply series_apply_Forall2.
Qed.

Lemma positive_calories_total (df : list Row) :
  Forall (fun r => exists b, gt_zero (calories r) = Ok b) df ->
  positive_calories df = Ok (filter calories_positive df).
Proof.
  intros H. unfold positive_calories.
  destruct (series_apply_total gt_zero (map calories df)) as [mask Hm].
  { apply Forall_map. exact H. }
  rewrite Hm. cbn. f_equal. apply boolean_index_filter.
  now apply series_apply_Forall2.
Qed.



(** The rows a seeded sample returns are rows of the frame. *)
Lemma take_rows_incl {A} (df : list A) (locs : list nat) (out : list A) :
  take_rows df locs = Ok out -> incl out df.
Proof.
  unfold take_rows. intros H. apply series_apply_Forall2 in H.
  induction H as [|i r locs out Hi _ IH]; [intros ? []|].
  intros x [<-|Hx]; [|auto].
  destruct (nth_error df i) eqn:Hn; [|discriminate].
  injection Hi as <-. eapply nth_error_In; eauto.
Qed.

Lemma sampler_incl {A} (E : Env) (n : nat) (df : list A) (w w' : World)
  (out : list A) :
  sampler E n df w = (Ok out, w') -> incl out df /\ w' = w.
Proof.
  unfold sampler, DataFrame_sample, ret.
  destruct (n <? List.length df)%nat.
  - destruct (List.length df <? n)%nat; [discriminate|].
    intros [= H <-]. split; [eapply take_rows_incl; eauto|reflexivity].
  - intros [= <- <-]. split; [apply incl_refl|reflexivity].
Qed.

(** The frame [load_and_clean_data] returns is cut from the Cleaner's
    output on the file's rows. *)
Lemma load_and_clean_data_inv (E : Env) (w w' : World) (out : list Row) :
  load_and_clean_data E w = (Ok out, w') ->
  exists raw cleaned w1 w2,
    files w DATA_FILE_PATH = Some raw /\
    cleaner E raw w1 = (Ok cleaned, w2) /\
    sampler E SAMPLE_SIZE cleaned w2 = (Ok out, w2).
Proof.
  unfold load_and_clean_data. intros H.
  bind_inv H. bind_inv H. bind_inv H. bind_inv H. bind_inv H. bind_inv H.
  injection H as <- <-.
  destruct (sampler_incl _ _ _ _ _ _ Hm3) as [_ ->].
  exists a0, a2, w2, w3. split; [|split; assumption].
  apply print_inv in Hm as (_ & _ & Hf). rewrite <- Hf.
  unfold try_except, pd_read_csv in Hm0.
  destruct (files w0 DATA_FILE_PATH) as [rows|].
  - injection Hm0 as <- _. reflexivity.
  - cbn in Hm0. discriminate.
Qed.

Lemma cleans_to_stages (E : Env) (df : list RawRow) (rows : list Row) :
  Forall2 (cleans_to E) df rows ->
  exists rows0 rows1,
    Forall2 (extracted E) df rows0 /\
    Forall2 (column_applied steps set_steps (clean_text E)) rows0 rows1 /\
    Forall2 (column_applied ingredients set_ingredients (clean_text E))
      rows1 rows.
Proof.
  induction 1 as [|raw row df rows Hr _ (rows0 & rows1 & H0 & H1 & H2)].
  - exists [], []. repeat split; constructor.
  - destruct Hr as ((x & Hx & G0 & G1 & G4 & G6) & Hs & Hi & Hn & Hnu).
    set (r0 := mkRow (r_name raw) (r_nutrition raw) (r_steps raw)
                 (r_ingredients raw) (calories row) (fat_g row)
                 (protein_g row) (carbs_g row)).
    exists (r0 :: rows0), (set_steps r0 (steps row) :: rows1).
    repeat split; constructor; auto.
    + exists x. cbn. repeat split; assumption.
    + exists (steps row). split; [exact Hs|reflexivity].
    + exists (ingredients row). split; [exact Hi|].
      destruct row; cbn in *. subst. reflexivity.
Qed.

(** When no step raises, the Cleaner keeps exactly the rows with every
    required cell present and positive calories, in the order of the
    input, and drops the others. *)
Lemma cleaner_rowwise (E : Env) (df : list RawRow) (rows : list Row)
  (w : World) :
  Forall2 (cleans_to E) df rows ->
  Forall (fun r => required_present r = true ->
                   exists b, gt_zero (calories r) = Ok b) rows ->
  cleaner E df w = (Ok (filter calories_positive (dropna_required rows)), w).
Proof.
  intros Hrows Hcmp.
  destruct (cleans_to_stages E df rows Hrows) as (rows0 & rows1 & H0 & H1 & H2).
  unfold cleaner, bind, nutrition_columns, try_except, lift.
  rewrite (extracted_parse_nutrition E df rows0 H0).
  rewrite (Forall2_apply_column _ _ _ _ _ H1).
  rewrite (Forall2_apply_column _ _ _ _ _ H2).
  rewrite positive_calories_total; [reflexivity|].
  apply Forall_forall. intros r Hr.
  apply filter_In in Hr as [Hr Hreq].
  rewrite Forall_forall in Hcmp. auto.
Qed.

Lemma sampler_small {A} (E : Env) (n : nat) (df : list A) (w : World) :
  List.length df <= n -> sampler E n df w = (Ok df, w).
Proof.
  intros Hle. unfold sampler.
  destruct (Nat.ltb_spec n (List.length df)); [lia|reflexivity].
Qed.

Lemma load_and_clean_data_rowwise (E : Env) (w : World) (df : list RawRow)
  (rows : list Row) :
  files w DATA_FILE_PATH = Some df ->
  Forall2 (cleans_to E) df rows ->
  Forall (fun r => required_present r = true ->
                   exists b, gt_zero (calories r) = Ok b) rows ->
  List.length (filter calories_positive (dropna_required rows)) <= SAMPLE_SIZE ->
  exists w',
    load_and_clean_data E w
    = (Ok (filter calories_positive (dropna_required rows)), w').
Proof.
  intros Hfile Hrows Hcmp Hsmall.
  unfold load_and_clean_data.
  unfold bind at 1. unfold print at 1.
  unfold bind at 1. unfold try_except, pd_read_csv.
  cbv [files]. fold (files w). rewrite Hfile.
  unfold bind at 1. unfold print at 1.
  unfold bind at 1. rewrite (cleaner_rowwise E df rows _ Hrows Hcmp).
  unfold bind at 1. rewrite (sampler_small E SAMPLE_SIZE _ _ Hsmall).
  unfold bind, print, ret. eexists. reflexivity.
Qed.





(* ================================================================== *)
(** ** The Sampler *)

Lemma Forall2_map_left {A B C} (R : B -> C -> Prop) (f : A -> B)
  (l : list A) (l' : list C) :
  Forall2 (fun x y => R (f x) y) l l' -> Forall2 R (map f l) l'.
Proof. induction 1; cbn; constructor; auto. Qed.

(** Position [i] of the frame holds its [i]-th row. *)
Lemma positions_rows {A} (df : list A) :
  Forall2 (fun i r => nth_error df i = Some r) (seq 0 (List.length df)) df.
Proof.
  induction df as [|a df IH]; cbn; constructor; [reflexivity|].
  rewrite <- seq_shift. apply Forall2_map_left. exact IH.
Qed.

(** Distinct positions below [len] extend to a rearrangement of all
    positions. *)
Lemma positions_complement (len : nat) (locs : list nat) :
  NoDup locs -> Forall (fun i => i < len) locs ->
  exists rest, Permutation (locs ++ rest) (seq 0 len).
Proof.
  intros Hnd Hb.
  exists (filter (fun i => negb (existsb (Nat.eqb i) locs)) (seq 0 len)).
  assert (Hmem : forall i, existsb (Nat.eqb i) locs = true <-> In i locs).
  { intros i. rewrite existsb_exists. split.
    - intros (x & Hx & Heq). apply Nat.eqb_eq in Heq. now subst.
    - intros Hi. exists i. split; [assumption|apply Nat.eqb_refl]. }
  apply NoDup_Permutation.
  - apply NoDup_app; [assumption|apply NoDup_filter, seq_NoDup|].
    intros i Hi Hf. apply filter_In in Hf as [_ Hf].
    apply Hmem in Hi. rewrite Hi in Hf. discriminate.
  - apply seq_NoDup.
  - intros i. rewrite in_app_iff, filter_In, in_seq. split.
    + intros [Hi|[Hi _]]; [|lia].
      rewrite Forall_forall in Hb. specialize (Hb i Hi). lia.
    + intros Hi. destruct (in_dec Nat.eq_dec i locs) as [Hin|Hout];
        [now left|right].
      split; [lia|]. destruct (existsb (Nat.eqb i) locs) eqn:He;
        [|reflexivity].
      apply Hmem in He. contradiction.
Qed.

(** Taking distinct valid positions gives a selection without
    replacement, one row per position. *)
Lemma take_rows_selection {A} (df : list A) (locs : list nat) :
  NoDup locs -> Forall (fun i => i < List.length df) locs ->
  exists out,
    take_rows df locs = Ok out /\
    List.length out = List.length locs /\
    selection_of df out.
Proof.
  intros Hnd Hb.
  destruct (positions_complement _ locs Hnd Hb) as [rest Hperm].
  destruct (Permutation_Forall2 (Permutation_sym Hperm) (positions_rows df))
    as (rows & Hrows & Hall).
  apply Forall2_app_inv_l in Hall as (out & others & Hout & _ & ->).
  exists out. split; [|split].
  - apply Forall2_series_apply.
    eapply Forall2_impl; [|exact Hout]. cbn. intros i r ->. reflexivity.
  - symmetry. eapply Forall2_length; eauto.
  - exists others. now apply Permutation_sym.
Qed.

Section SamplerLaws.

Variable E : Env.
Hypothesis HE : RandomStateLaws E.

Lemma sampler_exact {A} (n : nat) (df : list A) (w : World) :
  n < List.length df ->
  exists out,
    sampler E n df w = (Ok out, w) /\
    take_rows df (rs_choice E (rs_seed E 42) (List.length df) n) = Ok out /\
    List.length out = n /\
    selection_of df out.
Proof.
  intros Hlt. unfold sampler, DataFrame_sample.
  destruct (Nat.ltb_spec n (List.length df)); [|lia].
  destruct (Nat.ltb_spec (List.length df) n); [lia|].
  destruct (take_rows_selection df
              (rs_choice E (rs_seed E 42) (List.length df) n))
    as (out & Hout & Hlen & Hsel).
  - apply (choice_nodup E HE); lia.
  - apply (choice_bound E HE); lia.
  - exists out. rewrite Hout. repeat split; auto.
    rewrite Hlen. apply (choice_length E HE); lia.
Qed.

End SamplerLaws.

(** *** Determinism *)

Lemma fd_ret {A} (a : A) : file_determined (ret a).
Proof. intros w1 w2 H. split; [reflexivity|exact H]. Qed.

Lemma fd_raise {A} (e : exn) : file_determined (@raise A e).
Proof. intros w1 w2 H. split; [reflexivity|exact H]. Qed.

Lemma fd_lift {A} (r : result A) : file_determined (lift r).
Proof. intros w1 w2 H. split; [reflexivity|exact H]. Qed.

Lemma fd_print (line : string) : file_determined (print line).
Proof. intros w1 w2 H. split; [reflexivity|exact H]. Qed.

Lemma fd_bind {A B} (m : M A) (k : A -> M B) :
  file_determined m -> (forall a, file_determined (k a)) ->
  file_determined (bind m k).
Proof.
  intros Hm Hk w1 w2 H. unfold bind.
  destruct (Hm w1 w2 H) as [Hr Hw].
  destruct (m w1) as [[a1|e1] v1], (m w2) as [[a2|e2] v2]; cbn in *;
    try discriminate.
  - injection Hr as <-. now apply Hk.
  - injection Hr as <-. auto.
Qed.

Lemma fd_try_except {A} (m : M A) (catches : exn -> bool) (h : exn -> M A) :
  file_determined m -> (forall e, file_determined (h e)) ->
  file_determined (try_except m catches h).
Proof.
  intros Hm Hh w1 w2 H. unfold try_except.
  destruct (Hm w1 w2 H) as [Hr Hw].
  destruct (m w1) as [[a1|e1] v1], (m w2) as [[a2|e2] v2]; cbn in *;
    try discriminate.
  - injection Hr as <-. auto.
  - injection Hr as <-. destruct (catches e1); [now apply Hh|auto].
Qed.

Lemma fd_read_csv : file_determined (pd_read_csv DATA_FILE_PATH).
Proof.
  intros w1 w2 H. unfold pd_read_csv. assert (H0 := H). red in H0.
  rewrite H0.
  destruct (files w2 DATA_FILE_PATH); cbn; (split; [reflexivity|exact H]).
Qed.

(** With the seed given, the sample does not consult the ambient
    generator. *)
Lemma fd_sampler {A} (E : Env) (n : nat) (df : list A) :
  file_determined (sampler E n df).
Proof.
  intros w1 w2 H. unfold sampler, DataFrame_sample, ret.
  destruct (n <? List.length df)%nat; [|split; auto].
  destruct (List.length df <? n)%nat; split; auto.
Qed.

Lemma fd_cleaner (E : Env) (df : list RawRow) : file_determined (cleaner E df).
Proof.
  unfold cleaner, nutrition_columns.
  repeat (apply fd_bind || apply fd_try_except || apply fd_lift
          || apply fd_print || intro).
Qed.

Lemma fd_load_and_clean_data (E : Env) :
  file_determined (load_and_clean_data E).
Proof.
  unfold load_and_clean_data, sys_exit.
  repeat (apply fd_bind || apply fd_try_except || apply fd_lift
          || apply fd_print || apply fd_read_csv || apply fd_cleaner
          || apply fd_sampler || apply fd_ret || apply fd_raise || intro).
Qed.

(** Without a seed the sample follows the ambient generator: two worlds
    that differ only there give different samples. *)
Remark unseeded_sample_follows_world :
  fst (DataFrame_sample Demo.good_env 1 None [PyInt 10; PyInt 20]
         (Demo.world_with None 0))
  <> fst (DataFrame_sample Demo.good_env 1 None [PyInt 10; PyInt 20]
            (Demo.world_with None 1)).
Proof. vm_compute. discriminate. Qed.

(** The stand-in generator of [Demo] meets the contract of [choice]. *)
Lemma rotation_Permutation (k len : nat) :
  Permutation (skipn k (seq 0 len) ++ firstn k (seq 0 len)) (seq 0 len).
Proof.
  rewrite Permutation_app_comm. now rewrite firstn_skipn.
Qed.

Lemma Demo_random_state_laws : RandomStateLaws Demo.good_env.
Proof.
  constructor; cbn; unfold Demo.rotate_choice; intros g len n Hn;
    set (k := Z.to_nat (g mod Z.of_nat len));
    set (rot := (skipn k (seq 0 len) ++ firstn k (seq 0 len))%list);
    assert (Hperm : Permutation rot (seq 0 len))
      by apply rotation_Permutation.
  - rewrite length_firstn.
    rewrite (Permutation_length Hperm), length_seq. lia.
  - assert (Hall : Forall (fun i => i < len) rot).
    { apply Forall_forall. intros i Hi.
      apply (Permutation_in _ Hperm), in_seq in Hi. lia. }
    rewrite <- (firstn_skipn n rot) in Hall.
    now apply Forall_app in Hall.
  - assert (Hnd : NoDup rot).
    { apply (Permutation_NoDup (Permutation_sym Hperm)), seq_NoDup. }
    rewrite <- (firstn_skipn n rot) in Hnd.
    now apply NoDup_app_remove_r in Hnd.
Qed.

(** C9: for a cleaned set and a target size [n], when the set is larger
    than [n] the Sampler returns exactly [n] of its rows, drawn without
    replacement from the generator seeded with 42, and leaves the world
    as it is; otherwise it returns the set unchanged.  The draw does not
    depend on the world: two runs select the same rows, and two runs of
    [load_and_clean_data] on worlds that hold the same input file return
    the same frame. *)
Theorem sampler_exact_and_reproducible (E : Env) :
  RandomStateLaws E ->
  (forall (n : nat) (cleaned : list Row) (w : World),
      n < List.length cleaned ->
      exists out,
        sampler E n cleaned w = (Ok out, w) /\
        take_rows cleaned
          (rs_choice E (rs_seed E 42) (List.length cleaned) n) = Ok out /\
        List.length out = n /\
        selection_of cleaned out) /\
  (forall (n : nat) (cleaned : list Row) (w : World),
      List.length cleaned <= n -> sampler E n cleaned w = (Ok cleaned, w)) /\
  (forall (n : nat) (cleaned : list Row) (w1 w2 : World),
      fst (sampler E n cleaned w1) = fst (sampler E n cleaned w2)) /\
  (forall w1 w2 : World,
      same_input_file w1 w2 ->
      fst (load_and_clean_data E w1) = fst (load_and_clean_data E w2)).
Proof.
  intros HE. split; [|split; [|split]].
  - intros n cleaned w H. exact (sampler_exact E HE n cleaned w H).
  - intros n cleaned w Hle. now apply sampler_small.
  - intros n cleaned w1 w2. unfold sampler, DataFrame_sample, ret.
    destruct (n <? List.length cleaned)%nat; [|reflexivity].
    destruct (List.length cleaned <? n)%nat; reflexivity.
  - intros w1 w2 H. now apply (fd_load_and_clean_data E w1 w2).
Qed.

Lemma sampler_exact_and_reproducible_witness :
  exists out,
    sampler Demo.good_env 2 (Demo.frame 5) Demo.three_rows
    = (Ok out, Demo.three_rows) /\
    take_rows (Demo.frame 5)
      (rs_choice Demo.good_env (rs_seed Demo.good_env 42)
         (List.length (Demo.frame 5)) 2) = Ok out /\
    List.length out = 2 /\
    selection_of (Demo.frame 5) out.
Proof.
  apply (proj1 (sampler_exact_and_reproducible Demo.good_env
                  Demo_random_state_laws)
           2 (Demo.frame 5) Demo.three_rows).
  cbn. lia.
Defined.

(* ================================================================== *)
(** ** The batches of the loader *)

Section Batches.

Context {A : Type}.
Variable B : nat.
Hypothesis B_pos : 0 < B.

Lemma range_count_succ (len : nat) :
  0 < len -> (len - 0 + B - 1) / B = S ((len - B - 0 + B - 1) / B).
Proof.
  intros Hlen. rewrite !Nat.sub_0_r.
  destruct (Nat.le_gt_cases len B) as [Hle|Hgt].
  - replace (len - B) with 0 by lia. cbn [Nat.add].
    rewrite (Nat.div_small (B - 1) B) by lia.
    replace (len + B - 1) with ((len - 1) + 1 * B) by lia.
    rewrite Nat.div_add by lia. rewrite Nat.div_small by lia. reflexivity.
  - replace (len + B - 1) with ((len - B + B - 1) + 1 * B) by lia.
    rewrite Nat.div_add by lia. lia.
Qed.

Lemma batches_nil : batches B (@nil A) = [].
Proof.
  unfold batches, py_range.
  destruct (Nat.eqb_spec B 0); [lia|].
  cbn [List.length]. rewrite Nat.sub_0_r. cbn [Nat.add].
  now rewrite Nat.div_small by lia.
Qed.

(** The first batch is the first [B] rows; the loop goes on over the
    rest. *)
Lemma batches_step (df : list A) :
  df <> [] -> batches B df = firstn B df :: batches B (skipn B df).
Proof.
  intros Hne. unfold batches, py_range.
  destruct (Nat.eqb_spec B 0); [lia|].
  assert (Hlen : 0 < List.length df) by (destruct df; cbn; [congruence|lia]).
  rewrite (range_count_succ _ Hlen), length_skipn.
  cbn [seq map]. unfold iloc_slice at 1.
  rewrite Nat.add_0_l, Nat.mul_0_l, Nat.add_0_l, Nat.sub_0_r, skipn_0.
  f_equal. rewrite <- seq_shift, !map_map.
  apply map_ext. intros k. unfold iloc_slice.
  rewrite skipn_skipn. cbn [Nat.mul]. f_equal; [|f_equal]; lia.
Qed.

Lemma batches_ind (P : list A -> Prop) :
  P [] ->
  (forall df, df <> [] -> P (skipn B df) -> P df) ->
  forall df, P df.
Proof.
  intros Hnil Hstep df.
  remember (List.length df) as n eqn:Hn. revert df Hn.
  induction n as [n IH] using lt_wf_ind. intros df Hn.
  destruct df as [|a df]; [exact Hnil|].
  apply Hstep; [discriminate|].
  apply (IH (List.length (skipn B (a :: df)))); [|reflexivity].
  rewrite length_skipn. cbn [List.length] in *. lia.
Qed.

(** The batches are contiguous and in the order of the input. *)
Lemma batches_concat (df : list A) : List.concat (batches B df) = df.
Proof.
  induction df as [|df Hne IH] using batches_ind.
  - now rewrite batches_nil.
  - rewrite (batches_step df Hne). cbn [List.concat]. rewrite IH.
    apply firstn_skipn.
Qed.

Lemma batches_empty_iff (df : list A) : batches B df = [] <-> df = [].
Proof.
  split; [|intros ->; apply batches_nil].
  destruct df as [|a df]; [reflexivity|].
  rewrite batches_step by discriminate. discriminate.
Qed.

(** No batch is empty and none exceeds [B]. *)
Lemma batches_bounds (df : list A) :
  Forall (fun b => 0 < List.length b <= B) (batches B df).
Proof.
  induction df as [|df Hne IH] using batches_ind.
  - rewrite batches_nil. constructor.
  - rewrite (batches_step df Hne). constructor; [|exact IH].
    rewrite length_firstn. destruct df; cbn [List.length]; [congruence|lia].
Qed.

(** Only the last batch can be smaller than [B]. *)
Lemma batches_full_but_last (df : list A) :
  Forall (fun b => List.length b = B) (removelast (batches B df)).
Proof.
  induction df as [|df Hne IH] using batches_ind.
  - rewrite batches_nil. constructor.
  - rewrite (batches_step df Hne).
    destruct (batches B (skipn B df)) as [|b bs] eqn:Hrest.
    + constructor.
    + cbn [removelast] in *. constructor; [|exact IH].
      assert (Hs : skipn B df <> []).
      { intros Hs. apply batches_empty_iff in Hs. congruence. }
      rewrite length_firstn.
      assert (List.length (skipn B df) <> 0).
      { destruct (skipn B df); cbn; congruence. }
      rewrite length_skipn in *. lia.
Qed.

Lemma batches_count (df : list A) :
  List.length (batches B df) = (List.length df + B - 1) / B.
Proof.
  unfold batches, py_range. destruct (Nat.eqb_spec B 0); [lia|].
  now rewrite !length_map, length_seq, Nat.sub_0_r.
Qed.

Lemma batches_total (df : list A) :
  list_sum (map (@List.length A) (batches B df)) = List.length df.
Proof.
  rewrite <- (batches_concat df) at 2.
  rewrite length_concat. reflexivity.
Qed.

End Batches.

(* ================================================================== *)
(** ** The Batch Loader *)

Lemma texts_to_embed_length (batch_df : list Row) (texts : list pyval) :
  texts_to_embed batch_df = Ok texts ->
  List.length texts = List.length batch_df.
Proof.
  unfold texts_to_embed.
  destruct (series_apply _ (map name batch_df)) as [left|] eqn:Hl;
    cbn; [|discriminate].
  intros H. apply series_apply_length in H, Hl.
  rewrite H, length_combine, Hl, !length_map. lia.
Qed.

Lemma map_fst_combine {A B} (l : list A) (l' : list B) :
  List.length l <= List.length l' -> map fst (combine l l') = l.
Proof.
  revert l'; induction l as [|a l IH]; intros [|b l'] H; cbn in *;
    try reflexivity; try lia.
  f_equal. apply IH. lia.
Qed.

Section Loader.

Variable E : Env.
Variable B : nat.
Variable df : list Row.
Variable model : Model.
Hypothesis Hmodel : EncodeContract model.

(** One turn of the loop from an empty session: either the batch is
    stored whole, or nothing of it is. *)
Lemma load_batch_cases (i : nat) (w w1 : World) (r : result Session) :
  load_batch E B df model [] i w = (r, w1) ->
  let b := iloc_slice i (i + B) df in
  stdout w1 = stdout w /\
  ((exists objs,
       r = Ok [] /\ db w1 = (db w ++ objs)%list /\
       map recipe_fields objs = map row_fields b /\
       log w1 = (log w ++ [EvEncode (List.length b);
                           EvCommit (List.length b) true])%list)
   \/
   (exists e stage,
       r = Raise e /\ db w1 = db w /\
       log w1 = (log w ++ failure_events (List.length b) stage)%list)).
Proof.
  intros H b. unfold load_batch in H. fold b in H.
  unfold bind, lift, model_encode, session_commit, session_add_all in H.
  destruct (texts_to_embed b) as [texts|e] eqn:Ht.
  2:{ injection H as <- <-. split; [reflexivity|]. right.
      exists e, TextFailure. cbn. now rewrite app_nil_r. }
  apply texts_to_embed_length in Ht.
  destruct (encode model texts) as [embeddings|e] eqn:He.
  2:{ injection H as <- <-. split; [reflexivity|]. right.
      exists e, EncodeFailure. cbn. now rewrite Ht. }
  apply Hmodel in He.
  assert (Hfields : map recipe_fields (objects_to_add b embeddings)
                    = map row_fields b).
  { unfold objects_to_add. rewrite map_map.
    rewrite <- (map_fst_combine b embeddings) at 2 by lia.
    rewrite map_map. apply map_ext. now intros [row v]. }
  assert (Hobjs : List.length (objects_to_add b embeddings) = List.length b).
  { unfold objects_to_add. rewrite length_map, length_combine. lia. }
  cbn [app] in H.
  destruct (commit_fault E _ _) as [e|] in H.
  - injection H as <- <-. split; [reflexivity|]. right.
    exists e, CommitFailure. cbn. rewrite Hobjs, Ht, <- app_assoc.
    repeat split.
  - injection H as <- <-. split; [reflexivity|]. left.
    exists (objects_to_add b embeddings). cbn.
    rewrite Hobjs, Ht, <- app_assoc. repeat split. exact Hfields.
Qed.

(** The loop: the batches before some [K] are stored, in order; the run
    either reaches the end or stops inside batch [K], after which nothing
    further is attempted. *)
Lemma for_each_load_batch (starts : list nat) :
  forall (w w' : World) (r : result Session),
    for_each starts (load_batch E B df model) [] w = (r, w') ->
    let bs := map (fun i => iloc_slice i (i + B) df) starts in
    exists K added,
      db w' = (db w ++ added)%list /\
      map recipe_fields added = map row_fields (List.concat (firstn K bs)) /\
      stdout w' = stdout w /\
      ((r = Ok [] /\ K = List.length bs /\
        log w' = (log w ++ committed_events bs)%list)
       \/
       (exists e stage,
           r = Raise e /\ K < List.length bs /\
           log w' = (log w ++ committed_events (firstn K bs)
                       ++ failure_events (List.length (nth K bs [])) stage)%list)).
Proof.
  induction starts as [|i starts IH]; intros w w' r H bs.
  - injection H as <- <-. exists 0, []. cbn.
    rewrite !app_nil_r. repeat split. left. repeat split.
  - cbn [for_each] in H. unfold bind in H.
    destruct (load_batch E B df model [] i w) as [r1 w1] eqn:H1.
    destruct (load_batch_cases i w w1 r1 H1)
      as (Hout & [(objs & -> & Hdb & Hlen & Hlog)
                 |(e & stage & -> & Hdb & Hlog)]).
    + destruct (IH w1 w' r H) as (K & added & Hdb' & Hlen' & Hout' & Hcase).
      exists (S K), (objs ++ added)%list. subst bs.
      cbn [map firstn List.concat].
      rewrite Hdb', Hdb, <- app_assoc, !map_app, Hlen, Hlen', Hout', Hout.
      repeat split.
      destruct Hcase as [(-> & -> & Hlog')|(e & stage & -> & HK & Hlog')].
      * left. repeat split. rewrite Hlog', Hlog, <- app_assoc. reflexivity.
      * right. exists e, stage. cbn [List.length nth].
        repeat split; [lia|].
        rewrite Hlog', Hlog, <- !app_assoc. reflexivity.
    + injection H as <- <-. exists 0, []. subst bs.
      cbn [map firstn List.concat].
      rewrite Hdb, app_nil_r, Hout. repeat split.
      right. exists e, stage. cbn [List.length nth committed_events flat_map app].
      repeat split; [lia|exact Hlog].
Qed.

End Loader.

Lemma batches_sizes {A} (B : nat) (df : list A) :
  map (@List.length A) (batches B df) = batch_sizes B (List.length df).
Proof.
  unfold batches, batch_sizes.
  destruct (py_range 0 (List.length df) B) as [starts|]; [|reflexivity].
  rewrite map_map. apply map_ext. intros i.
  unfold iloc_slice. now rewrite length_firstn, length_skipn.
Qed.

Lemma committed_events_sizes (bs : list (list Row)) :
  committed_events bs
  = flat_map (fun n => [EvEncode n; EvCommit n true])
      (map (@List.length Row) bs).
Proof.
  unfold committed_events.
  induction bs as [|b bs IH]; cbn; [reflexivity|now rewrite IH].
Qed.

Lemma stored_count (added : list Models.Recipe) (bs : list (list Row)) :
  map recipe_fields added = map row_fields (List.concat bs) ->
  List.length added = list_sum (map (@List.length Row) bs).
Proof.
  intros H. apply (f_equal (@List.length _)) in H.
  rewrite !length_map, length_concat in H. exact H.
Qed.

(** The loader of a given batch size: what is stored and what is
    attempted. *)
Lemma loader_sized_outcome (B : nat) (E : Env) (df : list Row)
  (engine : Engine) (model : Model) (w w' : World) (r : result unit) :
  0 < B ->
  EncodeContract model ->
  create_embeddings_and_load_sized B E df engine model w = (r, w') ->
  let bs := batches B df in
  exists K added,
    db w' = (db w ++ added)%list /\
    map recipe_fields added = map row_fields (List.concat (firstn K bs)) /\
    ((r = Ok tt /\ K = List.length bs /\
      log w' = (log w ++ committed_events bs)%list)
     \/
     (exists e stage,
         r = Raise e /\ K < List.length bs /\
         log w' = (log w ++ committed_events (firstn K bs)
                     ++ failure_events (List.length (nth K bs [])) stage)%list)).
Proof.
  intros HB Hm H bs. subst bs. unfold batches.
  unfold create_embeddings_and_load_sized in H.
  unfold bind at 1 in H. unfold print at 1 in H.
  unfold bind at 1 in H. unfold lift at 1 in H.
  destruct (py_range 0 (List.length df) B) as [starts|e] eqn:Hr.
  2:{ unfold py_range in Hr. destruct (Nat.eqb_spec B 0); [lia|discriminate]. }
  unfold bind at 1 in H.
  match type of H with
  | context [for_each starts ?body [] ?w0] =>
      destruct (for_each starts body [] w0) as [r1 w1] eqn:Hloop
  end.
  destruct (for_each_load_batch E B df model Hm starts _ _ _ Hloop)
    as (K & added & Hdb & Hlen & Hout & Hcase).
  cbn [db log] in Hdb, Hcase.
  exists K, added.
  destruct Hcase as [(-> & -> & Hlog)|(e & stage & -> & HK & Hlog)].
  - unfold print in H. injection H as <- <-. cbn [db log].
    repeat split; auto.
  - injection H as <- <-. repeat split; auto.
    right. exists e, stage. repeat split; auto.
Qed.

(** C1: a run of the loader with an embedder that returns one vector per
    text stores the batches before some batch [K], whole and in order,
    after the rows already in the sink.  If the run completes, [K] is the
    number of batches and the stored records number as many as the sampled
    set.  If it fails, [K] is the batch it failed in: the stored records
    number the sum of the sizes of the batches before [K], those batches
    stay stored, and the external actions end with the failing action of
    batch [K] (for a refused commit: its encoding and the one refused
    commit), so no later batch is attempted and nothing is tried again. *)
Theorem batch_loader_persistence (E : Env) (df : list Row) (engine : Engine)
  (model : Model) (w w' : World) (r : result unit) :
  EncodeContract model ->
  create_embeddings_and_load E df engine model w = (r, w') ->
  let bs := batches BATCH_SIZE df in
  exists K added,
    db w' = (db w ++ added)%list /\
    map recipe_fields added = map row_fields (List.concat (firstn K bs)) /\
    List.length (db w')
    = List.length (db w) + list_sum (map (@List.length Row) (firstn K bs)) /\
    ((r = Ok tt /\ K = List.length bs /\
      List.length (db w') = List.length (db w) + List.length df /\
      log w' = (log w ++ committed_events bs)%list)
     \/
     (exists e stage,
         r = Raise e /\ K < List.length bs /\
         log w' = (log w ++ committed_events (firstn K bs)
                     ++ failure_events (List.length (nth K bs [])) stage)%list)).
Proof.
  intros Hm H bs.
  assert (HB : 0 < BATCH_SIZE) by (unfold BATCH_SIZE; lia).
  destruct (loader_sized_outcome BATCH_SIZE E df engine model w w' r HB Hm H)
    as (K & added & Hdb & Hfields & Hcase).
  fold bs in Hfields, Hcase.
  exists K, added. split; [exact Hdb|]. split; [exact Hfields|].
  assert (Hcount : List.length (db w')
                   = List.length (db w)
                     + list_sum (map (@List.length Row) (firstn K bs))).
  { now rewrite Hdb, length_app, (stored_count _ _ Hfields). }
  split; [exact Hcount|].
  destruct Hcase as [(-> & -> & Hlog)|Hfail]; [left|right; exact Hfail].
  repeat split; auto.
  rewrite Hcount, firstn_all. subst bs.
  now rewrite (batches_total BATCH_SIZE HB df).
Qed.

Lemma Demo_model_contract : EncodeContract Demo.model.
Proof.
  intros texts vectors. cbn. intros [= <-]. apply length_map.
Qed.

Example flaky_run_outcome :
  fst Demo.flaky_run = Raise (OtherError "connection lost") /\
  List.length (db (snd Demo.flaky_run)) = 1000 /\
  log (snd Demo.flaky_run)
  = [EvEncode 1000; EvCommit 1000 true; EvEncode 1000; EvCommit 1000 false].
Proof. vm_compute. repeat split. Qed.

Lemma batch_loader_persistence_witness :
  exists K added,
    db (snd Demo.flaky_run) = (db (Demo.world_with None 0) ++ added)%list /\
    map recipe_fields added
    = map row_fields
        (List.concat (firstn K (batches BATCH_SIZE (Demo.frame 2500)))) /\
    List.length (db (snd Demo.flaky_run))
    = List.length (db (Demo.world_with None 0))
      + list_sum (map (@List.length Row)
                    (firstn K (batches BATCH_SIZE (Demo.frame 2500)))) /\
    ((fst Demo.flaky_run = Ok tt /\
      K = List.length (batches BATCH_SIZE (Demo.frame 2500)) /\
      List.length (db (snd Demo.flaky_run))
      = List.length (db (Demo.world_with None 0))
        + List.length (Demo.frame 2500) /\
      log (snd Demo.flaky_run)
      = (log (Demo.world_with None 0)
           ++ committed_events (batches BATCH_SIZE (Demo.frame 2500)))%list)
     \/
     (exists e stage,
         fst Demo.flaky_run = Raise e /\
         K < List.length (batches BATCH_SIZE (Demo.frame 2500)) /\
         log (snd Demo.flaky_run)
         = (log (Demo.world_with None 0)
              ++ committed_events
                   (firstn K (batches BATCH_SIZE (Demo.frame 2500)))
              ++ failure_events
                   (List.length
                      (nth K (batches BATCH_SIZE (Demo.frame 2500)) []))
                   stage)%list)).
Proof.
  apply (batch_loader_persistence (Demo.env None (Some 1)) (Demo.frame 2500)
           "engine" Demo.model (Demo.world_with None 0)
           (snd Demo.flaky_run) (fst Demo.flaky_run)).
  - exact Demo_model_contract.
  - unfold Demo.flaky_run. apply surjective_pairing.
Defined.

(** A run that completes has encoded and committed every batch once. *)
Lemma loader_completed (E : Env) (df : list Row) (engine : Engine)
  (model : Model) (w w' : World) :
  EncodeContract model ->
  create_embeddings_and_load E df engine model w = (Ok tt, w') ->
  log w' = (log w ++ committed_events (batches BATCH_SIZE df))%list /\
  List.length (db w') = List.length (db w) + List.length df.
Proof.
  intros Hm H.
  assert (HB : 0 < BATCH_SIZE) by (unfold BATCH_SIZE; lia).
  destruct (loader_sized_outcome BATCH_SIZE E df engine model w w' _ HB Hm H)
    as (K & added & Hdb & Hfields & [(_ & -> & Hlog)|(e & stage & Hr & _)]);
    [|discriminate].
  split; [exact Hlog|].
  rewrite Hdb, length_app, (stored_count _ _ Hfields), firstn_all.
  now rewrite (batches_total BATCH_SIZE HB df).
Qed.

(** C2: the loop of the loader cuts the frame into contiguous slices in
    the order of the input (their concatenation is the frame), none empty,
    each of [BATCH_SIZE] = 1000 rows except possibly the last, which has
    at most 1000.  A frame of 2500 rows gives three batches of 1000, 1000
    and 500 rows, and a run that completes on it encodes and commits each
    of the three once, in that order, one transaction per batch. *)
Theorem batches_contiguous_fixed_size :
  BATCH_SIZE = 1000 /\
  (forall df : list Row,
      List.concat (batches BATCH_SIZE df) = df /\
      Forall (fun b => 0 < List.length b <= BATCH_SIZE) (batches BATCH_SIZE df) /\
      Forall (fun b => List.length b = BATCH_SIZE)
        (removelast (batches BATCH_SIZE df))) /\
  (forall df : list Row,
      List.length df = 2500 ->
      map (@List.length Row) (batches BATCH_SIZE df) = [1000; 1000; 500]) /\
  (forall (E : Env) (df : list Row) (engine : Engine) (model : Model)
          (w w' : World),
      EncodeContract model ->
      List.length df = 2500 ->
      create_embeddings_and_load E df engine model w = (Ok tt, w') ->
      log w' = (log w ++ [EvEncode 1000; EvCommit 1000 true;
                          EvEncode 1000; EvCommit 1000 true;
                          EvEncode 500; EvCommit 500 true])%list /\
      List.length (db w') = List.length (db w) + 2500).
Proof.
  assert (HB : 0 < BATCH_SIZE) by (unfold BATCH_SIZE; lia).
  assert (Hsizes : forall df : list Row, List.length df = 2500 ->
            map (@List.length Row) (batches BATCH_SIZE df) = [1000; 1000; 500]).
  { intros df Hlen. rewrite batches_sizes, Hlen. vm_compute. reflexivity. }
  split; [reflexivity|]. split; [|split].
  - intros df. split; [|split].
    + apply batches_concat, HB.
    + apply batches_bounds, HB.
    + apply batches_full_but_last, HB.
  - exact Hsizes.
  - intros E df engine model w w' Hm Hlen H.
    destruct (loader_completed E df engine model w w' Hm H)
      as (Hlog & Hcount).
    rewrite Hlog, Hcount, committed_events_sizes, (Hsizes df Hlen), Hlen.
    split; reflexivity.
Qed.

Lemma Demo_frame_length (n : nat) : List.length (Demo.frame n) = n.
Proof. unfold Demo.frame. now rewrite length_map, length_seq. Qed.

Lemma batches_contiguous_fixed_size_witness :
  log (snd Demo.smooth_run)
  = (log (Demo.world_with None 0)
       ++ [EvEncode 1000; EvCommit 1000 true;
           EvEncode 1000; EvCommit 1000 true;
           EvEncode 500; EvCommit 500 true])%list /\
  List.length (db (snd Demo.smooth_run))
  = List.length (db (Demo.world_with None 0)) + 2500.
Proof.
  apply (proj2 (proj2 (proj2 batches_contiguous_fixed_size))
           Demo.good_env (Demo.frame 2500) "engine" Demo.model
           (Demo.world_with None 0) (snd Demo.smooth_run)).
  - exact Demo_model_contract.
  - apply Demo_frame_length.
  - vm_compute. reflexivity.
Defined.

(* ================================================================== *)
(** ** [main]: the top-level handler and the exit status *)

Lemma main_catches (E : Env) (w w1 : World) (e : exn) :
  main_body E w = (Raise e, w1) -> is_Exception e = true ->
  main E w = (Ok tt, after_top_level_message e w1).
Proof.
  intros H He. unfold main, try_except. rewrite H, He.
  cbv [bind print after_top_level_message stdout files np_random db log].
  now rewrite <- app_assoc.
Qed.

(** C4: every exception that reaches the top level of [main] and is an
    instance of [Exception] (so not the [SystemExit] of [sys.exit]) is
    caught there; the two lines of the diagnostic are printed after what
    was printed before, nothing else changes, and the process ends with
    exit status 0. *)
Theorem unanticipated_error_exits_zero (E : Env) (w w1 : World) (e : exn) :
  main_body E w = (Raise e, w1) ->
  is_Exception e = true ->
  main E w = (Ok tt, after_top_level_message e w1) /\
  run_script E w = (0%Z, after_top_level_message e w1) /\
  fst (run_script E w) = 0%Z.
Proof.
  intros H He. assert (Hmain := main_catches E w w1 e H He).
  unfold run_script. rewrite Hmain. repeat split.
Qed.

Lemma unanticipated_error_exits_zero_witness :
  main Demo.offline_env Demo.three_rows
  = (Ok tt, after_top_level_message (OtherError "no network")
              (snd (main_body Demo.offline_env Demo.three_rows))) /\
  run_script Demo.offline_env Demo.three_rows
  = (0%Z, after_top_level_message (OtherError "no network")
            (snd (main_body Demo.offline_env Demo.three_rows))) /\
  fst (run_script Demo.offline_env Demo.three_rows) = 0%Z.
Proof.
  apply (unanticipated_error_exits_zero Demo.offline_env Demo.three_rows
           (snd (main_body Demo.offline_env Demo.three_rows))
           (OtherError "no network")); reflexivity.
Defined.

(** The explicit exits are the only way to a status other than 0. *)
Lemma nonzero_status_is_sys_exit (E : Env) (w : World) :
  fst (run_script E w) <> 0%Z ->
  exists c w1, main_body E w = (Raise (SystemExit c), w1) /\ c <> 0%Z.
Proof.
  unfold run_script, main, try_except.
  destruct (main_body E w) as [[u|e] w1]; cbn; [congruence|].
  destruct e; cbn; try congruence.
  intros Hc. eauto.
Qed.

(** C3, as stated, fails: with a model that cannot be loaded the process
    still ends with exit status 0. *)
Lemma model_load_failure_exit_status_zero :
  ~ (forall (E : Env) (w : World) (e : exn),
        database_ready E -> model_load_fails E e -> is_Exception e = true ->
        fst (run_script E w) <> 0%Z).
Proof.
  intros claim.
  apply (claim Demo.offline_env Demo.three_rows (OtherError "no network")).
  - split; [now exists "postgresql://demo"|reflexivity].
  - intros w. reflexivity.
  - reflexivity.
  - reflexivity.
Qed.

(** C3 (amended): when the database is ready and the constructor of the
    embedding model raises an exception, [main] catches it at the top
    level: the diagnostic is printed after the lines of the bootstrap, the
    process ends with exit status 0, and no data is touched: the input
    file is not read, nothing is encoded, the sink holds the rows it held
    before. *)
Theorem model_load_failure_aborts_before_data (E : Env) (w : World) (e : exn) :
  database_ready E ->
  model_load_fails E e ->
  is_Exception e = true ->
  fst (run_script E w) = 0%Z /\
  stdout (snd (run_script E w))
  = (stdout w
       ++ ["Initializing database...";
           "Database initialized and pgvector extension is active.";
           ("Loading embedding model: '" ++ EMBEDDING_MODEL ++ "'...")%string;
           (nl ++ "An error occurred: " ++ exn_str e)%string;
           ("Please check your DATABASE_URL in the .env file and ensure "
              ++ "your Supabase project is active.")%string])%list /\
  log (snd (run_script E w))
  = (log w ++ [EvInitDb; EvLoadModel EMBEDDING_MODEL])%list /\
  db (snd (run_script E w)) = db w /\
  files (snd (run_script E w)) = files w.
Proof.
  intros ([engine Heng] & Hinit) Hmodel He.
  assert (Hbody : exists w1,
            main_body E w = (Raise e, w1) /\
            stdout w1
            = (stdout w
                 ++ ["Initializing database...";
                     "Database initialized and pgvector extension is active.";
                     ("Loading embedding model: '" ++ EMBEDDING_MODEL ++ "'...")%string])%list /\
            log w1 = (log w ++ [EvInitDb; EvLoadModel EMBEDDING_MODEL])%list /\
            db w1 = db w /\ files w1 = files w).
  { unfold main_body, initialize_database.
    cbv [bind lift try_except print db_bootstrap load_model emit
         stdout files np_random db log].
    rewrite Heng, Hinit, Hmodel.
    eexists. split; [reflexivity|]. cbn [stdout log db files].
    rewrite <- !app_assoc. repeat split. }
  destruct Hbody as (w1 & Hbody & Hout & Hlog & Hdb & Hfiles).
  assert (Hmain := main_catches E w w1 e Hbody He).
  unfold run_script. rewrite Hmain. cbn [fst snd after_top_level_message stdout log db files].
  rewrite Hout, Hlog, Hdb, Hfiles, <- !app_assoc. repeat split.
Qed.

Lemma model_load_failure_aborts_before_data_witness :
  fst (run_script Demo.offline_env Demo.three_rows) = 0%Z /\
  stdout (snd (run_script Demo.offline_env Demo.three_rows))
  = (stdout Demo.three_rows
       ++ ["Initializing database...";
           "Database initialized and pgvector extension is active.";
           ("Loading embedding model: '" ++ EMBEDDING_MODEL ++ "'...")%string;
           (nl ++ "An error occurred: "
               ++ exn_str (OtherError "no network"))%string;
           ("Please check your DATABASE_URL in the .env file and ensure "
              ++ "your Supabase project is active.")%string])%list /\
  log (snd (run_script Demo.offline_env Demo.three_rows))
  = (log Demo.three_rows ++ [EvInitDb; EvLoadModel EMBEDDING_MODEL])%list /\
  db (snd (run_script Demo.offline_env Demo.three_rows)) = db Demo.three_rows /\
  files (snd (run_script Demo.offline_env Demo.three_rows))
  = files Demo.three_rows.
Proof.
  apply (model_load_failure_aborts_before_data Demo.offline_env
           Demo.three_rows (OtherError "no network")).
  - split; [now exists "postgresql://demo"|reflexivity].
  - intros w. reflexivity.
  - reflexivity.
Defined.

(* ================================================================== *)
(** ** Further properties of [clean_text] *)

Lemma str_join_TypeError (sep : string) (items : list pyval) (e : exn) :
  str_join sep items = Raise e -> exists msg, e = TypeError msg.
Proof.
  unfold str_join. generalize 0.
  induction items as [|v items IH]; intros i; cbn; [discriminate|].
  destruct v; try (intros [= <-]; eauto).
  destruct items as [|v' items]; [discriminate|].
  destruct (join_from (S i) sep (v' :: items)) as [t|e'] eqn:Hj;
    cbn; [discriminate|].
  intros [= <-]. eapply IH. exact Hj.
Qed.

(** X1: [clean_text] never lets a [ValueError] or a [SyntaxError] out:
    whatever it raises is an error that its handler does not name. *)
Theorem clean_text_never_raises_handled (E : Env) (x : pyval) (e : exn) :
  clean_text E x = Raise e -> is_ValueError_or_SyntaxError e = false.
Proof.
  unfold clean_text, rcatch.
  destruct (ast_literal_eval E x) as [items|e0]; cbn.
  - destruct items; try discriminate.
    destruct (str_join ", " items) as [s|e1] eqn:Hj; cbn; [discriminate|].
    apply str_join_TypeError in Hj as [msg ->]. cbn. now intros [= <-].
  - destruct (is_ValueError_or_SyntaxError e0) eqn:He0; [discriminate|].
    now intros [= <-].
Qed.

Lemma clean_text_never_raises_handled_witness :
  is_ValueError_or_SyntaxError
    (TypeError "sequence item 0: expected str instance, int found") = false.
Proof.
  apply (clean_text_never_raises_handled Demo.good_env (PyStr "[1, 2]")).
  reflexivity.
Defined.

Lemma clean_text_cell_kind (E : Env) (x v : pyval) :
  clean_text E x = Ok v ->
  (forall s, x = PyStr s -> exists t, v = PyStr t) /\
  ((forall s, x <> PyStr s) -> v = x) /\
  isna v = isna x.
Proof.
  intros H.
  assert (Hstr : forall s, x = PyStr s -> exists t, v = PyStr t).
  { intros s ->. unfold clean_text, rcatch in H.
    destruct (ast_literal_eval E (PyStr s)) as [items|e0]; cbn in H.
    - destruct items; try (injection H as <-; eauto).
      destruct (str_join ", " items) as [t|e1] eqn:Hj; cbn in H.
      + injection H as <-. eauto.
      + apply str_join_TypeError in Hj as [msg ->]. discriminate.
    - destruct (is_ValueError_or_SyntaxError e0); [|discriminate].
      injection H as <-. eauto. }
  assert (Hother : (forall s, x <> PyStr s) -> v = x).
  { intros Hx. destruct x; cbn in H; try (injection H as <-; reflexivity).
    now destruct (Hx s). }
  split; [exact Hstr|]. split; [exact Hother|].
  destruct x; try (rewrite Hother by discriminate; reflexivity).
  destruct (Hstr s eq_refl) as [t ->]. reflexivity.
Qed.

(** X2: [clean_text] keeps the kind of its cell: a string comes back as a
    string (joined or as it was), anything that is not a string comes back
    as it is; so the result is missing exactly when the cell was. *)
Theorem clean_text_keeps_cell_kind (E : Env) (x v : pyval) :
  clean_text E x = Ok v ->
  (forall s, x = PyStr s -> exists t, v = PyStr t) /\
  ((forall s, x <> PyStr s) -> v = x) /\
  isna v = isna x.
Proof. intros. eapply clean_text_cell_kind; eauto. Qed.

Lemma clean_text_keeps_cell_kind_witness :
  (forall s, PyStr "['mix', 'bake']" = PyStr s ->
             exists t, PyStr "mix, bake" = PyStr t) /\
  ((forall s, PyStr "['mix', 'bake']" <> PyStr s) ->
   PyStr "mix, bake" = PyStr "['mix', 'bake']") /\
  isna (PyStr "mix, bake") = isna (PyStr "['mix', 'bake']").
Proof.
  apply (clean_text_keeps_cell_kind Demo.good_env).
  reflexivity.
Defined.

(* ================================================================== *)
(** ** Further properties of the Record Cleaner *)

Lemma stages_cleans_to (E : Env) (df : list RawRow) (rows0 : list Row) :
  Forall2 (extracted E) df rows0 ->
  forall rows1 rows,
    Forall2 (column_applied steps set_steps (clean_text E)) rows0 rows1 ->
    Forall2 (column_applied ingredients set_ingredients (clean_text E))
      rows1 rows ->
    Forall2 (cleans_to E) df rows.
Proof.
  induction 1 as [|raw r0 df rows0 Hr _ IH]; intros rows1 rows H1 H2.
  - inversion H1; subst. inversion H2; subst. constructor.
  - inversion H1 as [|? r1 ? rows1' (vs & Hvs & ->) H1']; subst.
    inversion H2 as [|? r ? rows' (vi & Hvi & ->) H2']; subst.
    constructor; [|eapply IH; eassumption].
    destruct Hr as (x & Hx & G0 & G1 & G4 & G6 & Hn & Hnu & Hs & Hi).
    cbn in Hvi. unfold cleans_to. cbn. split.
    + exists x. repeat split; assumption.
    + rewrite <- Hs, <- Hi. repeat split; assumption.
Qed.

Lemma nutrition_columns_Ok_inv (E : Env) (df : list RawRow) (w w0 : World)
  (rows0 : list Row) :
  nutrition_columns E df w = (Ok rows0, w0) ->
  (parse_nutrition E df = Ok rows0 /\ w0 = w) \/
  (exists e, parse_nutrition E df = Raise e /\
             parse_nutrition E (dropna_nutrition df) = Ok rows0 /\
             w0 = after_fallback_message e w).
Proof.
  intros H.
  destruct (parse_nutrition E df) as [rows|e] eqn:Hp.
  - left. unfold nutrition_columns, try_except, lift in H.
    rewrite Hp in H. injection H as <- <-. auto.
  - right. exists e. destruct (is_Exception e) eqn:He.
    + rewrite (nutrition_columns_fallback E df w e Hp He) in H.
      injection H as H1 H2. auto.
    + unfold nutrition_columns, try_except, lift in H.
      rewrite Hp, He in H. discriminate.
Qed.

Lemma cleaner_Ok_inv (E : Env) (df : list RawRow) (w w' : World)
  (out : list Row) :
  cleaner E df w = (Ok out, w') ->
  exists kept rows,
    ((kept = df /\ w' = w) \/
     (exists e, parse_nutrition E df = Raise e /\
                kept = dropna_nutrition df /\
                w' = after_fallback_message e w)) /\
    Forall2 (cleans_to E) kept rows /\
    out = filter calories_positive (dropna_required rows).
Proof.
  unfold cleaner. intros H.
  bind_inv H. bind_inv H. bind_inv H.
  apply lift_Ok_inv in H as [H ->].
  apply lift_Ok_inv in Hm1 as [Hm1 ->].
  apply lift_Ok_inv in Hm0 as [Hm0 ->].
  apply positive_calories_filter in H.
  apply apply_column_Forall2 in Hm0, Hm1.
  apply nutrition_columns_Ok_inv in Hm
    as [[Hp ->]|(e & Hp & Hp' & ->)].
  - exists df, a1. split; [now left|]. split; [|exact H].
    eapply stages_cleans_to; eauto using parse_nutrition_extracted.
  - exists (dropna_nutrition df), a1. split; [right; eauto|].
    split; [|exact H].
    eapply stages_cleans_to; eauto using parse_nutrition_extracted.
Qed.

(** X3: what the Cleaner returns is read off its input row by row.  It
    works on the whole frame, or, after the fallback, on the rows whose
    nutrition cell is present; each of these rows is parsed and read at
    positions 0, 1, 4, 6, has its steps and ingredients passed through
    [clean_text] and keeps its name; the output is, in the order of the
    input, those of the resulting rows that have no required cell missing
    and calories > 0.  Apart from the two lines of the fallback the world
    is unchanged. *)
Theorem cleaner_sound (E : Env) (df : list RawRow) (w w' : World)
  (out : list Row) :
  cleaner E df w = (Ok out, w') ->
  exists kept rows,
    ((kept = df /\ w' = w) \/
     (exists e, parse_nutrition E df = Raise e /\
                kept = dropna_nutrition df /\
                w' = after_fallback_message e w)) /\
    Forall2 (cleans_to E) kept rows /\
    out = filter calories_positive (dropna_required rows).
Proof. intros. eapply cleaner_Ok_inv; eauto. Qed.

Lemma cleaner_sound_witness :
  exists kept rows,
    ((kept = [Demo.soup; Demo.water; Demo.toast]
      /\ Demo.three_rows = Demo.three_rows) \/
     (exists e,
         parse_nutrition Demo.good_env [Demo.soup; Demo.water; Demo.toast]
         = Raise e /\
         kept = dropna_nutrition [Demo.soup; Demo.water; Demo.toast] /\
         Demo.three_rows = after_fallback_message e Demo.three_rows)) /\
    Forall2 (cleans_to Demo.good_env) kept rows /\
    [Demo.soup_row; Demo.toast_row]
    = filter calories_positive (dropna_required rows).
Proof.
  apply (cleaner_sound Demo.good_env [Demo.soup; Demo.water; Demo.toast]
           Demo.three_rows Demo.three_rows
           [Demo.soup_row; Demo.toast_row]).
  reflexivity.
Defined.

Lemma cleaner_after_nutrition (E : Env) (df : list RawRow) (w w0 : World)
  (rows0 rows1 rows : list Row) :
  nutrition_columns E df w = (Ok rows0, w0) ->
  Forall2 (column_applied steps set_steps (clean_text E)) rows0 rows1 ->
  Forall2 (column_applied ingredients set_ingredients (clean_text E))
    rows1 rows ->
  Forall (fun r => required_present r = true ->
                   exists b, gt_zero (calories r) = Ok b) rows ->
  cleaner E df w = (Ok (filter calories_positive (dropna_required rows)), w0).
Proof.
  intros Hn H1 H2 Hcmp. unfold cleaner, bind. rewrite Hn. unfold lift.
  rewrite (Forall2_apply_column _ _ _ _ _ H1).
  rewrite (Forall2_apply_column _ _ _ _ _ H2).
  rewrite positive_calories_total; [reflexivity|].
  apply Forall_forall. intros r Hr.
  apply filter_In in Hr as [Hr Hreq].
  rewrite Forall_forall in Hcmp. auto.
Qed.

Lemma extracted_present (E : Env) (raw : RawRow) (row : Row) :
  extracted E raw row -> isna (r_nutrition raw) = false.
Proof.
  intros (x & Hx & _). destruct (r_nutrition raw); try discriminate.
  reflexivity.
Qed.

Lemma only_printed_fallback (e : exn) (w : World) :
  only_printed w (after_fallback_message e w).
Proof. repeat split. Qed.

(** X4: the fallback is what lets a file with empty nutrition cells load.
    When the rows whose nutrition cell is present all clean without error
    and their calories can be compared with 0, the Cleaner succeeds on the
    whole frame, whether or not other rows lack the cell: it returns the
    valid ones among the cleaned rows and changes nothing but the
    output. *)
Theorem cleaner_tolerates_missing_nutrition (E : Env) (df : list RawRow)
  (rows : list Row) (w : World) :
  raises_only_Exceptions E ->
  Forall2 (cleans_to E) (dropna_nutrition df) rows ->
  Forall (fun r => required_present r = true ->
                   exists b, gt_zero (calories r) = Ok b) rows ->
  exists w',
    cleaner E df w
    = (Ok (filter calories_positive (dropna_required rows)), w') /\
    only_printed w w'.
Proof.
  intros HE Hrows Hcmp.
  destruct (cleans_to_stages E _ rows Hrows) as (rows0 & rows1 & H0 & H1 & H2).
  destruct (parse_nutrition E df) as [rows0'|e] eqn:Hp.
  - assert (Hall : dropna_nutrition df = df).
    { unfold dropna_nutrition. apply forallb_filter_id, forallb_forall.
      intros raw Hin. apply parse_nutrition_extracted in Hp.
      clear - Hp Hin. induction Hp as [|a b l l' Hab _ IH]; [contradiction|].
      destruct Hin as [->|Hin]; [|auto].
      now rewrite (extracted_present E raw b Hab). }
    rewrite Hall in *. exists w. split; [|repeat split].
    now apply cleaner_rowwise.
  - exists (after_fallback_message e w).
    split; [|apply only_printed_fallback].
    eapply cleaner_after_nutrition; eauto.
    rewrite (nutrition_columns_fallback E df w e Hp
               (parse_nutrition_Exception E df e HE Hp)).
    now rewrite (extracted_parse_nutrition E _ rows0 H0).
Qed.

Lemma cleaner_tolerates_missing_nutrition_witness :
  exists w',
    cleaner Demo.good_env
      [Demo.soup; mkRawRow (PyStr "ice") PyNaN (PyStr "['freeze']")
                    (PyStr "['water']")] Demo.three_rows
    = (Ok (filter calories_positive (dropna_required [Demo.soup_row])), w') /\
    only_printed Demo.three_rows w'.
Proof.
  apply (cleaner_tolerates_missing_nutrition Demo.good_env
           [Demo.soup; mkRawRow (PyStr "ice") PyNaN (PyStr "['freeze']")
                         (PyStr "['water']")]
           [Demo.soup_row] Demo.three_rows).
  - exact Ast_raises_only_Exceptions.
  - repeat (apply Forall2_cons || apply Forall2_nil);
      (split; [eexists|]; vm_compute; repeat split; reflexivity).
  - repeat (apply Forall_cons || apply Forall_nil). intros _.
    eexists. vm_compute. reflexivity.
Defined.

Lemma Forall2_In_left {A B} (R : A -> B -> Prop) (l : list A) (l' : list B)
  (a : A) :
  Forall2 R l l' -> In a l -> exists b, In b l' /\ R a b.
Proof.
  induction 1 as [|x y l l' Hxy _ IH]; [contradiction|].
  intros [->|Hin].
  - exists y. split; [now left|exact Hxy].
  - destruct (IH Hin) as (b & Hb & Hab). exists b. split; [now right|exact Hab].
Qed.

(** A row that cannot be read at one of the four positions fails the
    pass over any frame that holds it. *)
Lemma parse_nutrition_unreadable (E : Env) (df : list RawRow) (raw : RawRow)
  (x : pyval) (i : nat) (e0 : exn) :
  In raw df ->
  ast_literal_eval E (r_nutrition raw) = Ok x ->
  In i [0; 1; 4; 6] -> getitem i x = Raise e0 ->
  exists e, parse_nutrition E df = Raise e.
Proof.
  intros Hin Hx Hi Hget.
  destruct (parse_nutrition E df) as [rows|e] eqn:Hp; [|eauto].
  apply parse_nutrition_extracted in Hp.
  destruct (Forall2_In_left _ _ _ _ Hp Hin)
    as (row & _ & x' & Hx' & G0 & G1 & G4 & G6 & _).
  rewrite Hx in Hx'. injection Hx' as <-.
  cbn in Hi. destruct Hi as [<-|[<-|[<-|[<-|[]]]]]; congruence.
Qed.

(** X5: one row whose nutrition cell parses but cannot be read at
    position 0, 1, 4 or 6 (a list shorter than seven elements, a number)
    aborts the whole Cleaner: the first pass raises, the row survives the
    fallback because its cell is present, and the second pass raises
    again. *)
Theorem unreadable_nutrition_aborts_cleaner (E : Env) (df : list RawRow)
  (w : World) (raw : RawRow) (x : pyval) (i : nat) (e0 : exn) :
  In raw df ->
  ast_literal_eval E (r_nutrition raw) = Ok x ->
  In i [0; 1; 4; 6] ->
  getitem i x = Raise e0 ->
  exists e, fst (cleaner E df w) = Raise e.
Proof.
  intros Hin Hx Hi Hget.
  assert (Hpresent : In raw (dropna_nutrition df)).
  { unfold dropna_nutrition. apply filter_In. split; [exact Hin|].
    destruct (r_nutrition raw); try discriminate. reflexivity. }
  destruct (parse_nutrition_unreadable E df raw x i e0 Hin Hx Hi Hget)
    as [e He].
  destruct (parse_nutrition_unreadable E _ raw x i e0 Hpresent Hx Hi Hget)
    as [e' He'].
  unfold cleaner, bind.
  destruct (is_Exception e) eqn:Hexc.
  - rewrite (nutrition_columns_fallback E df w e He Hexc), He'. cbn. eauto.
  - unfold nutrition_columns, try_except, lift. rewrite He, Hexc. cbn. eauto.
Qed.

Lemma unreadable_nutrition_aborts_cleaner_witness :
  exists e,
    fst (cleaner Demo.good_env
           [Demo.soup; Demo.raw "stub" "[120.0, 3.0]" "['mix']" "['oats']"]
           Demo.three_rows) = Raise e.
Proof.
  apply (unreadable_nutrition_aborts_cleaner Demo.good_env
           [Demo.soup; Demo.raw "stub" "[120.0, 3.0]" "['mix']" "['oats']"]
           Demo.three_rows
           (Demo.raw "stub" "[120.0, 3.0]" "['mix']" "['oats']")
           (PyList [PyFloat (120 # 1); PyFloat (3 # 1)]) 4
           (IndexError "list index out of range")).
  - right; left; reflexivity.
  - reflexivity.
  - cbn. auto.
  - reflexivity.
Defined.

(* ================================================================== *)
(** ** What the steps leave alone, and what they can raise *)

Lemma only_printed_refl (w : World) : only_printed w w.
Proof. repeat split. Qed.

Lemma only_printed_trans (w1 w2 w3 : World) :
  only_printed w1 w2 -> only_printed w2 w3 -> only_printed w1 w3.
Proof.
  intros (F1 & G1 & D1 & L1) (F2 & G2 & D2 & L2).
  repeat split; congruence.
Qed.

Lemma po_ret {A} (a : A) : prints_only (ret a).
Proof. intros w r w' [= _ <-]. apply only_printed_refl. Qed.

Lemma po_raise {A} (e : exn) : prints_only (@raise A e).
Proof. intros w r w' [= _ <-]. apply only_printed_refl. Qed.

Lemma po_lift {A} (r : result A) : prints_only (lift r).
Proof. intros w r' w' [= _ <-]. apply only_printed_refl. Qed.

Lemma po_print (line : string) : prints_only (print line).
Proof. intros w r w' [= _ <-]. repeat split. Qed.

Lemma po_bind {A B} (m : M A) (k : A -> M B) :
  prints_only m -> (forall a, prints_only (k a)) -> prints_only (bind m k).
Proof.
  intros Hm Hk w r w'. unfold bind.
  destruct (m w) as [[a|e] w1] eqn:H1; intros H.
  - eapply only_printed_trans; [eapply Hm; eauto|eapply Hk; eauto].
  - injection H as <- <-. eapply Hm; eauto.
Qed.

Lemma po_try_except {A} (m : M A) (catches : exn -> bool) (h : exn -> M A) :
  prints_only m -> (forall e, prints_only (h e)) ->
  prints_only (try_except m catches h).
Proof.
  intros Hm Hh w r w'. unfold try_except.
  destruct (m w) as [[a|e] w1] eqn:H1; intros H.
  - injection H as <- <-. eapply Hm; eauto.
  - destruct (catches e).
    + eapply only_printed_trans; [eapply Hm; eauto|eapply Hh; eauto].
    + injection H as <- <-. eapply Hm; eauto.
Qed.

Lemma po_sampler {A} (E : Env) (n : nat) (df : list A) :
  prints_only (sampler E n df).
Proof.
  intros w r w'. unfold sampler, DataFrame_sample, ret.
  destruct (n <? List.length df)%nat.
  - destruct (List.length df <? n)%nat; intros [= _ <-];
      apply only_printed_refl.
  - intros [= _ <-]. apply only_printed_refl.
Qed.

Lemma po_cleaner (E : Env) (df : list RawRow) : prints_only (cleaner E df).
Proof.
  unfold cleaner, nutrition_columns.
  repeat (apply po_bind || apply po_try_except || apply po_lift
          || apply po_print || intro).
Qed.

Lemma load_and_clean_data_effects (E : Env) (w w' : World)
  (r : result (list Row)) :
  load_and_clean_data E w = (r, w') ->
  files w' = files w /\ np_random w' = np_random w /\ db w' = db w /\
  ((exists rows, files w DATA_FILE_PATH = Some rows /\
                 log w' = (log w ++ [EvReadCsv DATA_FILE_PATH])%list)
   \/
   (files w DATA_FILE_PATH = None /\ log w' = log w /\
    r = Raise (SystemExit 1))).
Proof.
  unfold load_and_clean_data. intros H.
  unfold bind at 1 in H. unfold print at 1 in H.
  unfold bind at 1 in H. unfold try_except at 1, pd_read_csv at 1 in H.
  cbv [files] in H. fold (files w) in H.
  destruct (files w DATA_FILE_PATH) as [rows|] eqn:Hfile.
  - match type of H with
    | ?m ?w0 = _ =>
        assert (Hpo : prints_only m)
    end.
    { repeat (apply po_cleaner || apply po_sampler || apply po_print
              || apply po_ret || apply po_bind || intro). }
    destruct (Hpo _ _ _ H) as (Hf & Hg & Hd & Hl).
    cbn in Hf, Hg, Hd, Hl. repeat split; auto.
    left. exists rows. split; [reflexivity|exact Hl].
  - cbn in H. injection H as <- <-. cbn. repeat split; auto.
Qed.

(** X6: [load_and_clean_data] only reads and prints.  Whatever its
    outcome, it leaves the files, the sink and numpy's global generator as
    they were; it reads the input file once when the file exists, and when
    it does not, it reads nothing and ends in [sys.exit(1)]. *)
Theorem load_and_clean_data_only_reads (E : Env) (w w' : World)
  (r : result (list Row)) :
  load_and_clean_data E w = (r, w') ->
  files w' = files w /\ np_random w' = np_random w /\ db w' = db w /\
  ((exists rows, files w DATA_FILE_PATH = Some rows /\
                 log w' = (log w ++ [EvReadCsv DATA_FILE_PATH])%list)
   \/
   (files w DATA_FILE_PATH = None /\ log w' = log w /\
    r = Raise (SystemExit 1))).
Proof. intros. eapply load_and_clean_data_effects; eauto. Qed.

Lemma load_and_clean_data_only_reads_witness :
  files (snd (load_and_clean_data Demo.good_env Demo.three_rows))
  = files Demo.three_rows /\
  np_random (snd (load_and_clean_data Demo.good_env Demo.three_rows))
  = np_random Demo.three_rows /\
  db (snd (load_and_clean_data Demo.good_env Demo.three_rows))
  = db Demo.three_rows /\
  ((exists rows,
       files Demo.three_rows DATA_FILE_PATH = Some rows /\
       log (snd (load_and_clean_data Demo.good_env Demo.three_rows))
       = (log Demo.three_rows ++ [EvReadCsv DATA_FILE_PATH])%list)
   \/
   (files Demo.three_rows DATA_FILE_PATH = None /\
    log (snd (load_and_clean_data Demo.good_env Demo.three_rows))
    = log Demo.three_rows /\
    fst (load_and_clean_data Demo.good_env Demo.three_rows)
    = Raise (SystemExit 1))).
Proof.
  apply (load_and_clean_data_only_reads Demo.good_env Demo.three_rows).
  apply surjective_pairing.
Defined.

(** X7: under the contract of [choice], [load_and_clean_data] never
    returns more than [SAMPLE_SIZE] rows. *)
Theorem load_and_clean_data_at_most_SAMPLE_SIZE (E : Env) (w w' : World)
  (out : list Row) :
  RandomStateLaws E ->
  load_and_clean_data E w = (Ok out, w') ->
  List.length out <= SAMPLE_SIZE.
Proof.
  intros HE H.
  apply load_and_clean_data_inv in H
    as (raw & cleaned & w1 & w2 & _ & _ & Hs).
  destruct (Nat.le_gt_cases (List.length cleaned) SAMPLE_SIZE) as [Hle|Hgt].
  - rewrite (sampler_small E SAMPLE_SIZE cleaned w2 Hle) in Hs.
    injection Hs as <-. exact Hle.
  - destruct (sampler_exact E HE SAMPLE_SIZE cleaned w2 Hgt)
      as (out' & Hrun & _ & Hlen & _).
    rewrite Hrun in Hs. injection Hs as <-. rewrite Hlen. apply Nat.le_refl.
Qed.

Lemma load_and_clean_data_at_most_SAMPLE_SIZE_witness :
  List.length [Demo.soup_row; Demo.toast_row] <= SAMPLE_SIZE.
Proof.
  apply (load_and_clean_data_at_most_SAMPLE_SIZE Demo.good_env
           Demo.three_rows
           (snd (load_and_clean_data Demo.good_env Demo.three_rows))).
  - exact Demo_random_state_laws.
  - vm_compute. reflexivity.
Defined.

(* ================================================================== *)
(** ** The exits of the script *)

Ltac run_step :=
  cbv beta iota zeta; cbn [stdout files np_random db log fst snd].

(** X8: when the bootstrap of the sink fails, [initialize_database]
    prints its two lines and calls [sys.exit(1)]; the [SystemExit] is not
    an [Exception], so the handler of [main] lets it pass and the process
    ends with status 1, before the model is loaded or the file read, with
    the sink as it was. *)
Theorem bootstrap_failure_exits_one (E : Env) (w : World) (e : exn) :
  (exists engine, create_engine E (DATABASE_URL E) = Ok engine) ->
  bootstrap_fails E e ->
  is_Exception e = true ->
  fst (run_script E w) = 1%Z /\
  stdout (snd (run_script E w))
  = (stdout w
       ++ ["Initializing database...";
           ("Error initializing database: " ++ exn_str e)%string;
           ("Please ensure you have run 'create extension if not exists "
              ++ "vector;' in your Supabase SQL Editor.")%string])%list /\
  log (snd (run_script E w)) = (log w ++ [EvInitDb])%list /\
  db (snd (run_script E w)) = db w.
Proof.
  intros [engine Heng] Hfail He.
  assert (Hrun : exists w',
            run_script E w = (1%Z, w') /\
            stdout w'
            = (((stdout w ++ ["Initializing database..."])
                 ++ [("Error initializing database: " ++ exn_str e)%string])
                ++ [("Please ensure you have run 'create extension if not "
                       ++ "exists vector;' in your Supabase SQL Editor.")%string])%list
            /\ log w' = (log w ++ [EvInitDb])%list /\ db w' = db w).
  { cbv [run_script main main_body initialize_database db_bootstrap
         try_except bind lift print emit sys_exit raise].
    rewrite Heng. run_step. rewrite Hfail. run_step. rewrite He. run_step.
    eexists. split; [reflexivity|]. run_step. repeat split. }
  destruct Hrun as (w' & -> & Hout & Hlog & Hdb). run_step.
  rewrite Hout, <- !app_assoc. repeat split; assumption.
Qed.

Lemma bootstrap_failure_exits_one_witness :
  fst (run_script Scenarios.no_sink_env Demo.three_rows) = 1%Z /\
  stdout (snd (run_script Scenarios.no_sink_env Demo.three_rows))
  = (stdout Demo.three_rows
       ++ ["Initializing database...";
           ("Error initializing database: "
              ++ exn_str (OtherError "connection refused"))%string;
           ("Please ensure you have run 'create extension if not exists "
              ++ "vector;' in your Supabase SQL Editor.")%string])%list /\
  log (snd (run_script Scenarios.no_sink_env Demo.three_rows))
  = (log Demo.three_rows ++ [EvInitDb])%list /\
  db (snd (run_script Scenarios.no_sink_env Demo.three_rows))
  = db Demo.three_rows.
Proof.
  apply (bootstrap_failure_exits_one Scenarios.no_sink_env Demo.three_rows
           (OtherError "connection refused")).
  - now exists "postgresql://demo".
  - intros w. reflexivity.
  - reflexivity.
Defined.

(** X9: when the input file does not exist, the process ends with status
    1 after the model was loaded: [load_and_clean_data] prints where the
    file was expected and calls [sys.exit(1)]; nothing is read, encoded or
    stored. *)
Theorem missing_file_exits_one (E : Env) (w : World) (model : Model) :
  database_ready E ->
  model_loads E model ->
  files w DATA_FILE_PATH = None ->
  fst (run_script E w) = 1%Z /\
  stdout (snd (run_script E w))
  = (stdout w
       ++ ["Initializing database...";
           "Database initialized and pgvector extension is active.";
           ("Loading embedding model: '" ++ EMBEDDING_MODEL ++ "'...")%string;
           "Embedding model loaded.";
           ("Loading data from " ++ DATA_FILE_PATH ++ "...")%string;
           ("ERROR: Data file not found at " ++ DATA_FILE_PATH)%string;
           ("Please download 'RAW_recipes.csv' from Kaggle and "
              ++ "place it in the 'data' folder.")%string])%list /\
  log (snd (run_script E w))
  = (log w ++ [EvInitDb; EvLoadModel EMBEDDING_MODEL])%list /\
  db (snd (run_script E w)) = db w.
Proof.
  intros ([engine Heng] & Hinit) Hmodel Hfile.
  assert (Hrun : exists w',
            run_script E w = (1%Z, w') /\
            stdout w'
            = (((((((stdout w ++ ["Initializing database..."])
                 ++ ["Database initialized and pgvector extension is active."])
                 ++ [("Loading embedding model: '" ++ EMBEDDING_MODEL
                        ++ "'...")%string])
                 ++ ["Embedding model loaded."])
                 ++ [("Loading data from " ++ DATA_FILE_PATH ++ "...")%string])
                 ++ [("ERROR: Data file not found at "
                        ++ DATA_FILE_PATH)%string])
                 ++ [("Please download 'RAW_recipes.csv' from Kaggle and "
                        ++ "place it in the 'data' folder.")%string])%list
            /\ log w' = ((log w ++ [EvInitDb])
                           ++ [EvLoadModel EMBEDDING_MODEL])%list
            /\ db w' = db w).
  { cbv [run_script main main_body initialize_database db_bootstrap
         load_model load_and_clean_data pd_read_csv
         try_except bind lift print emit sys_exit raise].
    rewrite Heng. run_step. rewrite Hinit. run_step.
    rewrite Hmodel. run_step. rewrite Hfile. run_step.
    eexists. split; [reflexivity|]. run_step. repeat split. }
  destruct Hrun as (w' & -> & Hout & Hlog & Hdb). run_step.
  rewrite Hout, Hlog, <- !app_assoc. repeat split; assumption.
Qed.

Lemma missing_file_exits_one_witness :
  fst (run_script Demo.good_env (Demo.world_with None 0)) = 1%Z /\
  stdout (snd (run_script Demo.good_env (Demo.world_with None 0)))
  = (stdout (Demo.world_with None 0)
       ++ ["Initializing database...";
           "Database initialized and pgvector extension is active.";
           ("Loading embedding model: '" ++ EMBEDDING_MODEL ++ "'...")%string;
           "Embedding model loaded.";
           ("Loading data from " ++ DATA_FILE_PATH ++ "...")%string;
           ("ERROR: Data file not found at " ++ DATA_FILE_PATH)%string;
           ("Please download 'RAW_recipes.csv' from Kaggle and "
              ++ "place it in the 'data' folder.")%string])%list /\
  log (snd (run_script Demo.good_env (Demo.world_with None 0)))
  = (log (Demo.world_with None 0)
       ++ [EvInitDb; EvLoadModel EMBEDDING_MODEL])%list /\
  db (snd (run_script Demo.good_env (Demo.world_with None 0)))
  = db (Demo.world_with None 0).
Proof.
  apply (missing_file_exits_one Demo.good_env (Demo.world_with None 0)
           Demo.model).
  - split; [now exists "postgresql://demo"|reflexivity].
  - intros w. reflexivity.
  - reflexivity.
Defined.

(** *** What can be raised *)

Lemma re_ret {A} (a : A) : raises_Exceptions (ret a).
Proof. intros w e w'. discriminate. Qed.

Lemma re_print (line : string) : raises_Exceptions (print line).
Proof. intros w e w'. discriminate. Qed.

Lemma re_lift {A} (r : result A) :
  (forall e, r = Raise e -> is_Exception e = true) ->
  raises_Exceptions (lift r).
Proof. intros Hr w e w' [= -> _]. now apply Hr. Qed.

Lemma re_bind {A B} (m : M A) (k : A -> M B) :
  raises_Exceptions m -> (forall a, raises_Exceptions (k a)) ->
  raises_Exceptions (bind m k).
Proof.
  intros Hm Hk w e w'. unfold bind.
  destruct (m w) as [[a|e1] w1] eqn:H1; intros H.
  - eapply Hk; eauto.
  - injection H as <- <-. eapply Hm; eauto.
Qed.

Lemma re_try_except {A} (m : M A) (catches : exn -> bool) (h : exn -> M A) :
  raises_Exceptions m -> (forall e, raises_Exceptions (h e)) ->
  raises_Exceptions (try_except m catches h).
Proof.
  intros Hm Hh w e w'. unfold try_except.
  destruct (m w) as [[a|e1] w1] eqn:H1; [discriminate|].
  destruct (catches e1); intros H.
  - eapply Hh; eauto.
  - injection H as <- <-. eapply Hm; eauto.
Qed.

Lemma clean_text_Exception (E : Env) (x : pyval) (e : exn) :
  raises_only_Exceptions E ->
  clean_text E x = Raise e -> is_Exception e = true.
Proof.
  intros HE. unfold clean_text, rcatch.
  destruct (ast_literal_eval E x) as [items|e0] eqn:Hx; cbn.
  - destruct items; try discriminate.
    destruct (str_join ", " items) as [s|e1] eqn:Hj; cbn; [discriminate|].
    apply str_join_TypeError in Hj as [msg ->]. cbn. now intros [= <-].
  - destruct (is_ValueError_or_SyntaxError e0); [discriminate|].
    intros [= <-]. eapply ast_literal_eval_Exception; eauto.
Qed.

Lemma apply_column_Exception get set f (df : list Row) (e : exn) :
  (forall x e', f x = Raise e' -> is_Exception e' = true) ->
  apply_column get set f df = Raise e -> is_Exception e = true.
Proof.
  intros Hf. unfold apply_column.
  destruct (series_apply f (map get df)) as [col|e0] eqn:Hc; cbn;
    [discriminate|].
  intros [= <-]. apply series_apply_raise_inv in Hc as (x & _ & Hx). eauto.
Qed.

Lemma gt_zero_Exception (v : pyval) (e : exn) :
  gt_zero v = Raise e -> is_Exception e = true.
Proof. destruct v; cbn; intros [= <-]; reflexivity. Qed.

Lemma positive_calories_Exception (df : list Row) (e : exn) :
  positive_calories df = Raise e -> is_Exception e = true.
Proof.
  unfold positive_calories.
  destruct (series_apply gt_zero (map calories df)) as [mask|e0] eqn:Hm; cbn;
    [discriminate|].
  intros [= <-]. apply series_apply_raise_inv in Hm as (x & _ & Hx).
  eapply gt_zero_Exception; eauto.
Qed.

Lemma re_cleaner (E : Env) (df : list RawRow) :
  raises_only_Exceptions E -> raises_Exceptions (cleaner E df).
Proof.
  intros HE. unfold cleaner, nutrition_columns.
  apply re_bind; [|intros rows0; apply re_bind; [|intros rows1; apply re_bind]].
  - apply re_try_except; [|intros e].
    + apply re_lift. intros e. now apply parse_nutrition_Exception.
    + repeat (apply re_bind; [apply re_print|intros _]).
      apply re_lift. intros e'. now apply parse_nutrition_Exception.
  - apply re_lift. intros e. apply apply_column_Exception.
    intros x e'. now apply clean_text_Exception.
  - apply re_lift. intros e. apply apply_column_Exception.
    intros x e'. now apply clean_text_Exception.
  - intros rows2. apply re_lift. intros e. apply positive_calories_Exception.
Qed.

Lemma re_sampler {A} (E : Env) (n : nat) (df : list A) :
  raises_Exceptions (sampler E n df).
Proof.
  intros w e w'. unfold sampler, DataFrame_sample, ret, take_rows.
  destruct (n <? List.length df)%nat; [|discriminate].
  destruct (List.length df <? n)%nat; [intros [= <- _]; reflexivity|].
  intros [= H _]. apply series_apply_raise_inv in H as (i & _ & Hi).
  destruct (nth_error df i); [discriminate|]. now injection Hi as <-.
Qed.

Lemma concat_cells_Exception (a b : pyval) (e : exn) :
  concat_cells a b = Raise e -> is_Exception e = true.
Proof.
  unfold concat_cells.
  destruct a, b; cbn; try discriminate; intros [= <-]; reflexivity.
Qed.

Lemma texts_to_embed_Exception (batch_df : list Row) (e : exn) :
  texts_to_embed batch_df = Raise e -> is_Exception e = true.
Proof.
  unfold texts_to_embed.
  destruct (series_apply _ (map name batch_df)) as [left|e0] eqn:Hl; cbn.
  - intros H. apply series_apply_raise_inv in H as (x & _ & Hx).
    eapply concat_cells_Exception; eauto.
  - intros [= <-]. apply series_apply_raise_inv in Hl as (x & _ & Hx).
    eapply concat_cells_Exception; eauto.
Qed.

Lemma re_for_each {S A} (xs : list A) (body : S -> A -> M S) :
  (forall s x, raises_Exceptions (body s x)) ->
  forall s, raises_Exceptions (for_each xs body s).
Proof.
  intros Hbody. induction xs as [|x xs IH]; intros s; cbn [for_each].
  - apply re_ret.
  - apply re_bind; [apply Hbody|intros s'; apply IH].
Qed.

Lemma re_loader (E : Env) (df : list Row) (engine : Engine) (model : Model) :
  (forall texts e, encode model texts = Raise e -> is_Exception e = true) ->
  (forall w session e,
      commit_fault E w session = Some e -> is_Exception e = true) ->
  raises_Exceptions (create_embeddings_and_load E df engine model).
Proof.
  intros Henc Hcommit.
  unfold create_embeddings_and_load, create_embeddings_and_load_sized.
  apply re_bind; [apply re_print|intros _].
  apply re_bind; [|intros starts; apply re_bind;
                    [|intros _; apply re_print]].
  - apply re_lift. unfold py_range. intros e.
    destruct (BATCH_SIZE =? 0)%nat; [|discriminate].
    now intros [= <-].
  - apply re_for_each. intros session i. unfold load_batch.
    apply re_bind; [|intros texts; apply re_bind; [|intros embeddings]].
    + apply re_lift. intros e. apply texts_to_embed_Exception.
    + intros w e w'. unfold model_encode. intros [= H _]. eauto.
    + intros w e w'. unfold session_commit.
      destruct (commit_fault E w _) as [e0|] eqn:Hc; [|discriminate].
      intros [= <- _]. eauto.
Qed.

(** The files are no one's to write. *)
Lemma initialize_database_outcome (E : Env) (engine : Engine) (w w' : World)
  (r : result unit) :
  (forall w0 e, db_init_fault E w0 = Some e -> is_Exception e = true) ->
  initialize_database E engine w = (r, w') ->
  files w' = files w /\
  (r = Ok tt \/
   (r = Raise (SystemExit 1) /\ exists w0 e, db_init_fault E w0 = Some e)).
Proof.
  intros Hinit.
  cbv [initialize_database db_bootstrap try_except bind print emit
       sys_exit raise].
  match goal with
  | |- context [db_init_fault E ?w0] =>
      destruct (db_init_fault E w0) as [e|] eqn:Hf
  end.
  - rewrite (Hinit _ _ Hf). intros [= <- <-]. split; [reflexivity|].
    right. split; [reflexivity|eauto].
  - intros [= <- <-]. split; [reflexivity|now left].
Qed.

Lemma load_and_clean_data_SystemExit (E : Env) (w w' : World) (c : Z) :
  raises_only_Exceptions E ->
  load_and_clean_data E w = (Raise (SystemExit c), w') ->
  c = 1%Z /\ files w DATA_FILE_PATH = None.
Proof.
  intros HE H.
  destruct (load_and_clean_data_effects E w w' _ H)
    as (_ & _ & _ & [(rows & Hfile & _)|(Hfile & _ & Hr)]).
  - exfalso. unfold load_and_clean_data in H.
    unfold bind at 1 in H. unfold print at 1 in H.
    unfold bind at 1 in H. unfold try_except at 1, pd_read_csv at 1 in H.
    cbv [files] in H. fold (files w) in H. rewrite Hfile in H.
    match type of H with
    | ?m ?w0 = _ => assert (Hre : raises_Exceptions m)
    end.
    { apply re_bind; [apply re_print|intros _].
      apply re_bind; [now apply re_cleaner|intros cleaned].
      apply re_bind; [apply re_sampler|intros sampled].
      apply re_bind; [apply re_print|intros _]. apply re_ret. }
    specialize (Hre _ _ _ H). discriminate.
  - injection Hr as ->. auto.
Qed.

(** The status of a call of [main] is decided by the first stage that
    fails. *)
Lemma run_script_status (E : Env) (w : World) :
  CollaboratorsRaiseExceptions E ->
  fst (run_script E w) = exit_status_of E w.
Proof.
  intros HC. unfold exit_status_of.
  destruct (create_engine E (DATABASE_URL E)) as [engine|e] eqn:Heng.
  2:{ assert (Hbody : main_body E w = (Raise e, w))
        by (unfold main_body, bind, lift; now rewrite Heng).
      unfold run_script.
      now rewrite (main_catches E w w e Hbody (cre_engine E HC _ _ Heng)). }
  destruct (db_init_fault E (at_bootstrap w)) as [e|] eqn:Hinit.
  { unfold at_bootstrap in Hinit.
    cbv [run_script main main_body initialize_database db_bootstrap
         try_except bind lift print emit sys_exit raise].
    rewrite Heng. run_step. rewrite Hinit. run_step.
    rewrite (cre_init E HC _ _ Hinit). run_step. reflexivity. }
  destruct (SentenceTransformer E EMBEDDING_MODEL (at_model_load w))
    as [model|e] eqn:Hmodel.
  2:{ unfold at_bootstrap in Hinit. unfold at_model_load in Hmodel.
      cbv [run_script main main_body initialize_database db_bootstrap
           load_model try_except bind lift print emit sys_exit raise].
      rewrite Heng. run_step. rewrite Hinit. run_step.
      rewrite Hmodel. run_step.
      rewrite (cre_model E HC _ _ _ Hmodel). run_step. reflexivity. }
  assert (Hloader : forall df w5 e1 w6,
            create_embeddings_and_load E df engine model w5 = (Raise e1, w6) ->
            is_Exception e1 = true).
  { intros df w5 e1 w6. apply re_loader; [|apply (cre_commit E HC)].
    intros texts e0. eapply (cre_encode E HC). exact Hmodel. }
  assert (Hcell := Hmodel).
  unfold at_bootstrap in Hinit. unfold at_model_load in Hmodel.
  cbv [run_script main main_body initialize_database db_bootstrap
       load_model try_except bind lift print emit sys_exit raise].
  rewrite Heng. run_step. rewrite Hinit. run_step.
  rewrite Hmodel. run_step.
  match goal with
  | |- context [load_and_clean_data E ?w4] =>
      destruct (load_and_clean_data E w4) as [r w5] eqn:Hload;
      destruct (load_and_clean_data_effects E w4 w5 r Hload)
        as (_ & _ & _ & [(rows & Hfile & _)|(Hfile & _ & ->)]);
      cbn [files] in Hfile; rewrite Hfile
  end.
  - destruct r as [df|e0].
    + run_step.
      destruct (create_embeddings_and_load E df engine model w5)
        as [[u|e1] w6] eqn:Hrun; run_step; [reflexivity|].
      rewrite (Hloader _ _ _ _ Hrun). run_step. reflexivity.
    + assert (He0 : is_Exception e0 = true).
      { destruct e0; try reflexivity.
        apply (load_and_clean_data_SystemExit E _ _ _ (cre_literal E HC))
          in Hload as (_ & Hnone).
        cbn [files] in Hnone. congruence. }
      run_step. rewrite He0. run_step. reflexivity.
  - run_step. reflexivity.
Qed.

(** X10: once [main] is called (the imports of the module having
    succeeded), and provided no collaborator raises anything but an
    [Exception], the exit status is decided by the first stage that fails
    in the run itself: it is 0 or 1, and it is 1 exactly when the engine
    was created and either the bootstrap of the sink fails in the world it
    is tried in, or the bootstrap succeeds, the model loads and the input
    file does not exist.  Every other failure (a rejected URL, a failed
    model load, malformed rows, encoding, a refused commit) ends with
    status 0. *)
Theorem exit_status_is_zero_or_one (E : Env) (w : World) :
  CollaboratorsRaiseExceptions E ->
  fst (run_script E w) = exit_status_of E w /\
  (fst (run_script E w) = 0%Z \/ fst (run_script E w) = 1%Z) /\
  (fst (run_script E w) = 1%Z <->
   exists engine,
     create_engine E (DATABASE_URL E) = Ok engine /\
     ((exists e, db_init_fault E (at_bootstrap w) = Some e) \/
      (db_init_fault E (at_bootstrap w) = None /\
       (exists model,
           SentenceTransformer E EMBEDDING_MODEL (at_model_load w) = Ok model)
       /\ files w DATA_FILE_PATH = None))).
Proof.
  intros HC. rewrite (run_script_status E w HC).
  split; [reflexivity|]. unfold exit_status_of.
  destruct (create_engine E (DATABASE_URL E)) as [engine|e0].
  2:{ split; [now left|]. split; [discriminate|].
      intros (engine & Habs & _). discriminate. }
  destruct (db_init_fault E (at_bootstrap w)) as [e|].
  { split; [now right|]. split; [|reflexivity].
    intros _. exists engine. split; [reflexivity|]. left. eauto. }
  destruct (SentenceTransformer E EMBEDDING_MODEL (at_model_load w))
    as [model|e].
  2:{ split; [now left|]. split; [discriminate|].
      intros (_ & _ & [[e' Habs]|(_ & [model Habs] & _)]); discriminate. }
  destruct (files w DATA_FILE_PATH) as [rows|].
  - split; [now left|]. split; [discriminate|].
    intros (_ & _ & [[e' Habs]|(_ & _ & Habs)]); discriminate.
  - split; [now right|]. split; [|reflexivity].
    intros _. exists engine. split; [reflexivity|]. right. eauto.
Qed.

Lemma Demo_collaborators : CollaboratorsRaiseExceptions Demo.good_env.
Proof.
  constructor; cbn; try discriminate.
  - intros _ _ model texts e [= <-]. discriminate.
  - exact Ast_raises_only_Exceptions.
Qed.

Lemma exit_status_is_zero_or_one_witness :
  fst (run_script Scenarios.no_sink_env Demo.three_rows)
  = exit_status_of Scenarios.no_sink_env Demo.three_rows /\
  (fst (run_script Scenarios.no_sink_env Demo.three_rows) = 0%Z \/
   fst (run_script Scenarios.no_sink_env Demo.three_rows) = 1%Z) /\
  (fst (run_script Scenarios.no_sink_env Demo.three_rows) = 1%Z <->
   exists engine,
     create_engine Scenarios.no_sink_env (DATABASE_URL Scenarios.no_sink_env)
     = Ok engine /\
     ((exists e,
          db_init_fault Scenarios.no_sink_env (at_bootstrap Demo.three_rows)
          = Some e) \/
      (db_init_fault Scenarios.no_sink_env (at_bootstrap Demo.three_rows)
       = None /\
       (exists model,
           SentenceTransformer Scenarios.no_sink_env EMBEDDING_MODEL
             (at_model_load Demo.three_rows) = Ok model)
       /\ files Demo.three_rows DATA_FILE_PATH = None))).
Proof.
  apply (exit_status_is_zero_or_one Scenarios.no_sink_env Demo.three_rows).
  constructor; cbn; try discriminate.
  - intros w e [= <-]. reflexivity.
  - intros _ _ model texts e [= <-]. discriminate.
  - exact Ast_raises_only_Exceptions.
Defined.

(* ================================================================== *)
(** ** Further properties of the Batch Loader *)

Lemma left_texts (b : list Row) :
  Forall has_text_fields b ->
  series_apply (fun n => concat_cells n (PyStr ". Ingredients: "))
    (map name b)
  = Ok (map (fun r => match name r with
                      | PyStr n => PyStr (n ++ ". Ingredients: ")
                      | _ => PyNaN
                      end) b).
Proof.
  induction 1 as [|r b (n & i & Hn & Hi) _ IH]; [reflexivity|].
  cbn [map series_apply]. rewrite Hn, IH. reflexivity.
Qed.

Lemma texts_to_embed_text_rows (b : list Row) :
  Forall has_text_fields b ->
  texts_to_embed b = Ok (map embedding_text b).
Proof.
  intros Hb. unfold texts_to_embed. rewrite (left_texts b Hb).
  cbn [rbind].
  induction Hb as [|r b (n & i & Hn & Hi) _ IH]; [reflexivity|].
  cbn [map combine series_apply fst snd]. rewrite IH.
  unfold embedding_text at 2. rewrite Hn, Hi. reflexivity.
Qed.

(** X11: on rows whose name and ingredients are strings the texts to
    embed are built without error, one per row and in the order of the
    rows, each the name, the separator [". Ingredients: "] and the
    ingredients. *)
Theorem texts_to_embed_on_text_rows (b : list Row) :
  Forall has_text_fields b ->
  texts_to_embed b = Ok (map embedding_text b).
Proof. intros. eapply texts_to_embed_text_rows; eauto. Qed.

Lemma texts_to_embed_on_text_rows_witness :
  texts_to_embed [Demo.soup_row; Demo.toast_row]
  = Ok (map embedding_text [Demo.soup_row; Demo.toast_row]).
Proof.
  apply (texts_to_embed_on_text_rows [Demo.soup_row; Demo.toast_row]).
  repeat (apply Forall_cons || apply Forall_nil);
    do 2 eexists; split; reflexivity.
Defined.

Lemma Forall_firstn {A} (P : A -> Prop) (n : nat) (l : list A) :
  Forall P l -> Forall P (firstn n l).
Proof.
  intros H. rewrite <- (firstn_skipn n l) in H.
  now apply Forall_app in H.
Qed.

Lemma Forall_skipn {A} (P : A -> Prop) (n : nat) (l : list A) :
  Forall P l -> Forall P (skipn n l).
Proof.
  intros H. rewrite <- (firstn_skipn n l) in H.
  now apply Forall_app in H.
Qed.

Lemma Forall_iloc_slice {A} (P : A -> Prop) (i j : nat) (l : list A) :
  Forall P l -> Forall P (iloc_slice i j l).
Proof. intros H. now apply Forall_firstn, Forall_skipn. Qed.

Lemma Forall2_Forall_right {A B} (P : A -> Prop) (R : A -> B -> Prop)
  (l : list A) (l' : list B) :
  Forall P l -> Forall2 R l l' -> Forall (fun b => exists a, P a /\ R a b) l'.
Proof.
  intros HP HR. induction HR as [|a b l l' Hab _ IH]; [constructor|].
  inversion HP; subst. constructor; eauto.
Qed.

Lemma cleaner_text_fields (E : Env) (df : list RawRow)
  (w w' : World) (out : list Row) :
  Forall (fun raw => text_cell (r_name raw) /\ text_cell (r_ingredients raw))
    df ->
  cleaner E df w = (Ok out, w') ->
  Forall has_text_fields out /\
  (forall i j, texts_to_embed (iloc_slice i j out)
               = Ok (map embedding_text (iloc_slice i j out))).
Proof.
  intros Hcells H.
  assert (Hout : Forall has_text_fields out).
  { apply cleaner_Ok_inv in H as (kept & rows & Hkept & Hrows & ->).
    assert (Hk : Forall (fun raw => text_cell (r_name raw)
                                    /\ text_cell (r_ingredients raw)) kept).
    { destruct Hkept as [[-> _]|(e & _ & -> & _)]; [exact Hcells|].
      apply Forall_forall. intros raw Hin.
      apply filter_In in Hin as [Hin _].
      rewrite Forall_forall in Hcells. auto. }
    pose proof (Forall2_Forall_right _ _ _ _ Hk Hrows) as Hr.
    apply Forall_forall. intros r Hin.
    apply filter_In in Hin as [Hin _].
    apply filter_In in Hin as [Hin Hreq].
    rewrite Forall_forall in Hr.
    destruct (Hr r Hin)
      as (raw & (Hname & Hing) & _ & _ & Hclean & Hn & _).
    assert (Hpresent : isna (name r) = false /\ isna (ingredients r) = false).
    { unfold required_present in Hreq.
      rewrite !andb_true_iff, !negb_true_iff in Hreq. tauto. }
    destruct Hpresent as [Hnp Hip]. unfold has_text_fields.
    destruct Hname as [Hmiss|[n Hname]].
    { rewrite Hn, Hmiss in Hnp. discriminate. }
    destruct (clean_text_cell_kind E _ _ Hclean) as (Hstr & Hsame & _).
    destruct Hing as [Hmiss|[i Hing]].
    { rewrite Hsame in Hip by (rewrite Hmiss; discriminate).
      rewrite Hmiss in Hip. discriminate. }
    destruct (Hstr i Hing) as [t Ht].
    exists n, t. split; [congruence|assumption]. }
  split; [exact Hout|].
  intros i j. apply texts_to_embed_text_rows.
  now apply Forall_iloc_slice.
Qed.

(** X12: on a file whose name and ingredients cells are strings or
    empty, every row the Cleaner returns has a string for its name and for
    its ingredients, so the loader can build the texts of any slice of the
    Cleaner's output: a run cannot fail at that step. *)
Theorem cleaner_output_has_text_fields (E : Env) (df : list RawRow)
  (w w' : World) (out : list Row) :
  Forall (fun raw => text_cell (r_name raw) /\ text_cell (r_ingredients raw))
    df ->
  cleaner E df w = (Ok out, w') ->
  Forall has_text_fields out /\
  (forall i j, texts_to_embed (iloc_slice i j out)
               = Ok (map embedding_text (iloc_slice i j out))).
Proof. intros. eapply cleaner_text_fields; eauto. Qed.

Lemma cleaner_output_has_text_fields_witness :
  Forall has_text_fields [Demo.soup_row; Demo.toast_row] /\
  (forall i j,
      texts_to_embed (iloc_slice i j [Demo.soup_row; Demo.toast_row])
      = Ok (map embedding_text
              (iloc_slice i j [Demo.soup_row; Demo.toast_row]))).
Proof.
  apply (cleaner_output_has_text_fields Demo.good_env
           [Demo.soup; Demo.water; Demo.toast]
           Demo.three_rows Demo.three_rows).
  - repeat (apply Forall_cons || apply Forall_nil);
      (split; right; eexists; reflexivity).
  - reflexivity.
Defined.

Lemma map_snd_combine {A B} (l : list A) (l' : list B) :
  List.length l' <= List.length l -> map snd (combine l l') = l'.
Proof.
  revert l'; induction l as [|a l IH]; intros [|b l'] H; cbn in *;
    try reflexivity; try lia.
  f_equal. apply IH. lia.
Qed.

Lemma objects_to_add_embeddings (b : list Row) (vectors : list (list Q)) :
  List.length vectors = List.length b ->
  map Models.embedding (objects_to_add b vectors) = vectors /\
  map recipe_fields (objects_to_add b vectors) = map row_fields b.
Proof.
  intros Hlen. unfold objects_to_add. rewrite !map_map. split.
  - rewrite <- (map_snd_combine b vectors) at 2 by lia.
    apply map_ext. now intros [row v].
  - rewrite <- (map_fst_combine b vectors) at 2 by lia.
    rewrite map_map. apply map_ext. now intros [row v].
Qed.

(** A turn of the loop that succeeds has built the texts, encoded them
    and stored the objects made of the batch and the vectors. *)
Lemma load_batch_Ok_inv (E : Env) (B : nat) (df : list Row) (model : Model)
  (i : nat) (w w1 : World) (s : Session) :
  load_batch E B df model [] i w = (Ok s, w1) ->
  let b := iloc_slice i (i + B) df in
  s = [] /\
  db w1 = (db w ++ batch_objects model b)%list /\
  exists texts vectors,
    texts_to_embed b = Ok texts /\ encode model texts = Ok vectors /\
    batch_vectors model b = vectors.
Proof.
  intros H b. unfold load_batch in H. fold b in H.
  unfold bind, lift, model_encode, session_commit, session_add_all in H.
  unfold batch_objects, batch_vectors.
  destruct (texts_to_embed b) as [texts|e] eqn:Ht; [|discriminate].
  destruct (encode model texts) as [vectors|e] eqn:He; [|discriminate].
  cbn [app] in H.
  destruct (commit_fault E _ _) as [e|] in H; [discriminate|].
  injection H as <- <-. cbn [db]. repeat split. eauto.
Qed.

Lemma for_each_load_batch_objects (E : Env) (B : nat) (df : list Row)
  (model : Model) (starts : list nat) :
  forall (w w' : World) (s : Session),
    for_each starts (load_batch E B df model) [] w = (Ok s, w') ->
    let bs := map (fun i => iloc_slice i (i + B) df) starts in
    db w' = (db w ++ List.concat (map (batch_objects model) bs))%list /\
    Forall (fun b => exists texts,
                texts_to_embed b = Ok texts /\
                encode model texts = Ok (batch_vectors model b)) bs.
Proof.
  induction starts as [|i starts IH]; intros w w' s H bs.
  - injection H as _ <-. cbn. rewrite app_nil_r. split; constructor.
  - cbn [for_each] in H. unfold bind in H.
    destruct (load_batch E B df model [] i w) as [[s1|e] w1] eqn:H1;
      [|discriminate].
    apply load_batch_Ok_inv in H1
      as (-> & Hdb & texts & vectors & Ht & He & Hv).
    destruct (IH w1 w' s H) as (Hdb' & Hall).
    subst bs. cbn [map List.concat]. split.
    + rewrite Hdb', Hdb, <- app_assoc. reflexivity.
    + constructor; [|exact Hall]. exists texts. rewrite Hv. auto.
Qed.

(** X13: in a run that completes, the sink receives, after what it held,
    the objects of the batches in order; for each batch the stored
    vectors, read in the order of the records, are the very list the model
    returned for the texts of that batch, and the clean fields of the
    records are those of the rows of the batch in order: the i-th row of a
    batch is stored with the i-th vector. *)
Theorem loader_stores_vectors_in_order (E : Env) (df : list Row)
  (engine : Engine) (model : Model) (w w' : World) :
  EncodeContract model ->
  create_embeddings_and_load E df engine model w = (Ok tt, w') ->
  db w' = (db w ++ List.concat (map (batch_objects model)
                                  (batches BATCH_SIZE df)))%list /\
  Forall (fun b =>
            exists texts,
              texts_to_embed b = Ok texts /\
              encode model texts
              = Ok (map Models.embedding (batch_objects model b)) /\
              map recipe_fields (batch_objects model b) = map row_fields b)
    (batches BATCH_SIZE df).
Proof.
  intros Hm H.
  unfold create_embeddings_and_load, create_embeddings_and_load_sized in H.
  unfold bind at 1 in H. unfold print at 1 in H.
  unfold bind at 1 in H. unfold lift at 1 in H. unfold batches.
  destruct (py_range 0 (List.length df) BATCH_SIZE) as [starts|e] eqn:Hr;
    [|discriminate].
  unfold bind at 1 in H.
  match type of H with
  | context [for_each starts ?body [] ?w0] =>
      destruct (for_each starts body [] w0) as [[s|e] w1] eqn:Hloop;
        [|discriminate]
  end.
  apply for_each_load_batch_objects in Hloop as (Hdb & Hall).
  cbn [db] in Hdb. unfold print in H. injection H as <-. cbn [db].
  split; [exact Hdb|].
  eapply Forall_impl; [|exact Hall]. cbn.
  intros b (texts & Ht & He). exists texts.
  assert (Hlen : List.length (batch_vectors model b) = List.length b).
  { rewrite (Hm _ _ He). now apply texts_to_embed_length. }
  destruct (objects_to_add_embeddings b _ Hlen) as (Hemb & Hfields).
  unfold batch_objects. rewrite Hemb. auto.
Qed.

Lemma loader_stores_vectors_in_order_witness :
  db (snd Demo.smooth_run)
  = (db (Demo.world_with None 0)
       ++ List.concat (map (batch_objects Demo.model)
                         (batches BATCH_SIZE (Demo.frame 2500))))%list /\
  Forall (fun b =>
            exists texts,
              texts_to_embed b = Ok texts /\
              encode Demo.model texts
              = Ok (map Models.embedding (batch_objects Demo.model b)) /\
              map recipe_fields (batch_objects Demo.model b)
              = map row_fields b)
    (batches BATCH_SIZE (Demo.frame 2500)).
Proof.
  apply (loader_stores_vectors_in_order Demo.good_env (Demo.frame 2500)
           "engine" Demo.model (Demo.world_with None 0)
           (snd Demo.smooth_run)).
  - exact Demo_model_contract.
  - vm_compute. reflexivity.
Defined.

Lemma for_each_load_batch_stdout (E : Env) (B : nat) (df : list Row)
  (model : Model) (starts : list nat) :
  forall (session : Session) (w w' : World) (r : result Session),
    for_each starts (load_batch E B df model) session w = (r, w') ->
    stdout w' = stdout w.
Proof.
  induction starts as [|i starts IH]; intros session w w' r H.
  - now injection H as _ <-.
  - cbn [for_each] in H. unfold bind in H.
    destruct (load_batch E B df model session i w) as [[s1|e] w1] eqn:H1.
    + rewrite (IH _ _ _ _ H). clear H.
      unfold load_batch, bind, lift, model_encode, session_commit in H1.
      destruct (texts_to_embed _); [|discriminate].
      destruct (encode model _); [|discriminate].
      destruct (commit_fault E _ _); [discriminate|].
      now injection H1 as _ <-.
    + injection H as _ <-.
      unfold load_batch, bind, lift, model_encode, session_commit in H1.
      destruct (texts_to_embed _); [|now injection H1 as _ <-].
      destruct (encode model _); [|now injection H1 as _ <-].
      destruct (commit_fault E _ _); now injection H1 as _ <-.
Qed.

(** X14: the loader prints its first line in every run and the line
    [Data loading complete!] exactly when every batch was committed: a run
    that raises prints nothing after the first line. *)
Theorem loader_reports_completion_only_on_success (E : Env) (df : list Row)
  (engine : Engine) (model : Model) (w w' : World) (r : result unit) :
  create_embeddings_and_load E df engine model w = (r, w') ->
  stdout w'
  = (stdout w ++ [loader_start_line df]
       ++ match r with
          | Ok _ => ["Data loading complete!"]
          | Raise _ => []
          end)%list.
Proof.
  intros H.
  unfold create_embeddings_and_load, create_embeddings_and_load_sized in H.
  unfold bind at 1 in H. unfold print at 1 in H.
  unfold bind at 1 in H. unfold lift at 1 in H.
  destruct (py_range 0 (List.length df) BATCH_SIZE) as [starts|e] eqn:Hr.
  2:{ unfold py_range in Hr. discriminate. }
  unfold bind at 1 in H.
  match type of H with
  | context [for_each starts ?body [] ?w0] =>
      destruct (for_each starts body [] w0) as [[s|e] w1] eqn:Hloop
  end;
    apply for_each_load_batch_stdout in Hloop; cbn [stdout] in Hloop.
  - unfold print in H. injection H as <- <-. cbn [stdout].
    rewrite Hloop, <- app_assoc. reflexivity.
  - injection H as <- <-. rewrite Hloop. reflexivity.
Qed.

Lemma loader_reports_completion_only_on_success_witness :
  stdout (snd Demo.flaky_run)
  = (stdout (Demo.world_with None 0) ++ [loader_start_line (Demo.frame 2500)]
       ++ match fst Demo.flaky_run with
          | Ok _ => ["Data loading complete!"]
          | Raise _ => []
          end)%list.
Proof.
  apply (loader_reports_completion_only_on_success (Demo.env None (Some 1))
           (Demo.frame 2500) "engine" Demo.model (Demo.world_with None 0)).
  unfold Demo.flaky_run. apply surjective_pairing.
Defined.

Section BatchCount.

Context {A : Type}.
Variable B : nat.
Hypothesis B_pos : 0 < B.

Lemma batches_of_multiple (df : list A) (k : nat) :
  List.length df = k * B ->
  List.length (batches B df) = k /\
  Forall (fun b => List.length b = B) (batches B df).
Proof.
  intros Hlen. split.
  - rewrite (batches_count B B_pos), Hlen.
    replace (k * B + B - 1) with ((B - 1) + k * B) by lia.
    rewrite Nat.div_add by lia. rewrite Nat.div_small by lia. reflexivity.
  - apply Forall_map with (f := @List.length A) (P := fun n => n = B).
    rewrite batches_sizes. unfold batch_sizes, py_range.
    destruct (Nat.eqb_spec B 0); [lia|].
    rewrite Hlen, Nat.sub_0_r.
    replace (k * B + B - 1) with ((B - 1) + k * B) by lia.
    rewrite Nat.div_add by lia. rewrite Nat.div_small by lia.
    cbn [Nat.add]. rewrite map_map. apply Forall_map, Forall_forall.
    intros j Hj. apply in_seq in Hj. nia.
Qed.

End BatchCount.

(** X15: a frame of [n] rows is loaded in [ceil(n / 1000)] batches; when
    [n] is a multiple of 1000 every batch, the last included, has exactly
    1000 rows, and no further, empty batch is added (an empty frame gives
    no batch at all). *)
Theorem batches_count_and_exact_multiples (df : list Row) :
  List.length (batches BATCH_SIZE df)
  = (List.length df + BATCH_SIZE - 1) / BATCH_SIZE /\
  (forall k, List.length df = k * BATCH_SIZE ->
             List.length (batches BATCH_SIZE df) = k /\
             Forall (fun b => List.length b = BATCH_SIZE)
               (batches BATCH_SIZE df)) /\
  (df = [] -> batches BATCH_SIZE df = []).
Proof.
  assert (HB : 0 < BATCH_SIZE) by (unfold BATCH_SIZE; lia).
  split; [apply batches_count, HB|]. split.
  - intros k. now apply batches_of_multiple.
  - intros ->. apply batches_nil, HB.
Qed.

Lemma batches_count_and_exact_multiples_witness :
  List.length (batches BATCH_SIZE (Demo.frame 2000)) = 2 /\
  Forall (fun b => List.length b = BATCH_SIZE)
    (batches BATCH_SIZE (Demo.frame 2000)).
Proof.
  apply (proj1 (proj2 (batches_count_and_exact_multiples (Demo.frame 2000)))).
  rewrite Demo_frame_length. reflexivity.
Defined.

(* ================================================================== *)
(** ** A run in which nothing fails *)

Lemma for_each_load_batch_succeeds (E : Env) (B : nat) (df : list Row)
  (model : Model) (starts : list nat) :
  encode_total model -> sink_accepts E -> Forall has_text_fields df ->
  forall w, exists w',
    for_each starts (load_batch E B df model) [] w = (Ok [], w').
Proof.
  intros Henc Hsink Htext.
  induction starts as [|i starts IH]; intros w; cbn [for_each].
  - exists w. reflexivity.
  - assert (Hb : exists w1, load_batch E B df model [] i w = (Ok [], w1)).
    { unfold load_batch, bind, lift, model_encode, session_commit,
        session_add_all.
      rewrite texts_to_embed_text_rows by (now apply Forall_iloc_slice).
      destruct (Henc (map embedding_text (iloc_slice i (i + B) df)))
        as [vectors ->].
      rewrite Hsink. eauto. }
    destruct Hb as [w1 Hb]. unfold bind. rewrite Hb. apply IH.
Qed.

Lemma loader_succeeds (E : Env) (df : list Row) (engine : Engine)
  (model : Model) (w : World) :
  encode_total model -> sink_accepts E -> Forall has_text_fields df ->
  exists w', create_embeddings_and_load E df engine model w = (Ok tt, w').
Proof.
  intros Henc Hsink Htext.
  unfold create_embeddings_and_load, create_embeddings_and_load_sized.
  unfold bind at 1. unfold print at 1.
  unfold bind at 1. unfold lift at 1.
  destruct (py_range 0 (List.length df) BATCH_SIZE) as [starts|e] eqn:Hr.
  2:{ unfold py_range in Hr. discriminate. }
  unfold bind at 1.
  match goal with
  | |- context [for_each starts ?body [] ?w0] =>
      destruct (for_each_load_batch_succeeds E BATCH_SIZE df model starts
                  Henc Hsink Htext w0) as [w1 Hloop]
  end.
  rewrite Hloop. unfold print. eauto.
Qed.

Lemma full_run_outcome (E : Env) (w : World) (model : Model)
  (df : list RawRow) (rows : list Row) :
  database_ready E ->
  model_loads E model ->
  EncodeContract model ->
  encode_total model ->
  sink_accepts E ->
  files w DATA_FILE_PATH = Some df ->
  Forall (fun raw => text_cell (r_name raw) /\ text_cell (r_ingredients raw))
    df ->
  Forall2 (cleans_to E) df rows ->
  Forall (fun r => required_present r = true ->
                   exists b, gt_zero (calories r) = Ok b) rows ->
  List.length (filter calories_positive (dropna_required rows))
  <= SAMPLE_SIZE ->
  fst (run_script E w) = 0%Z /\
  exists added,
    db (snd (run_script E w)) = (db w ++ added)%list /\
    map recipe_fields added
    = map row_fields (filter calories_positive (dropna_required rows)) /\
    log (snd (run_script E w))
    = (log w
         ++ [EvInitDb; EvLoadModel EMBEDDING_MODEL; EvReadCsv DATA_FILE_PATH]
         ++ committed_events
              (batches BATCH_SIZE
                 (filter calories_positive (dropna_required rows))))%list.
Proof.
  intros ([engine Heng] & Hinit) Hmodel Hcontract Henc Hsink Hfile Hcells
    Hrows Hcmp Hsmall.
  set (kept := filter calories_positive (dropna_required rows)) in *.
  assert (HB : 0 < BATCH_SIZE) by (unfold BATCH_SIZE; lia).
  assert (Htext : Forall has_text_fields kept).
  { eapply (cleaner_text_fields E df w w); [exact Hcells|].
    now apply cleaner_rowwise. }
  assert (Hrun : exists wf added,
            run_script E w = (0%Z, wf) /\
            db wf = (db w ++ added)%list /\
            map recipe_fields added = map row_fields kept /\
            log wf
            = ((((log w ++ [EvInitDb]) ++ [EvLoadModel EMBEDDING_MODEL])
                  ++ [EvReadCsv DATA_FILE_PATH])
                 ++ committed_events (batches BATCH_SIZE kept))%list).
  { cbv [run_script main main_body initialize_database db_bootstrap
         load_model try_except bind lift print emit].
    rewrite Heng. run_step. rewrite Hinit. run_step.
    rewrite Hmodel. run_step.
    match goal with
    | |- context [load_and_clean_data E ?w4] =>
        destruct (load_and_clean_data_rowwise E w4 df rows Hfile Hrows Hcmp
                    Hsmall) as [w5 Hload];
        destruct (load_and_clean_data_effects E w4 w5 _ Hload)
          as (_ & _ & Hdb5 & [(rows' & _ & Hlog5)|(_ & _ & Habs)]);
          [|discriminate]
    end.
    rewrite Hload. run_step. fold kept in Hload |- *.
    destruct (loader_succeeds E kept engine model w5 Henc Hsink Htext)
      as [w6 Hload6].
    rewrite Hload6. run_step.
    destruct (loader_sized_outcome BATCH_SIZE E kept engine model w5 w6 _
                HB Hcontract Hload6)
      as (K & added & Hdb6 & Hfields
          & [(_ & -> & Hlog6)|(e & stage & Habs & _)]); [|discriminate].
    rewrite firstn_all, (batches_concat BATCH_SIZE HB) in Hfields.
    cbn [db log] in Hdb5, Hlog5.
    eexists. exists added. split; [reflexivity|]. run_step.
    rewrite Hdb6, Hdb5, Hlog6, Hlog5. repeat split. exact Hfields. }
  destruct Hrun as (wf & added & -> & Hdb & Hfields & Hlog). run_step.
  split; [reflexivity|]. exists added.
  rewrite Hdb, Hlog, <- !app_assoc. repeat split. exact Hfields.
Qed.

(** X16: the whole script when nothing fails.  With a sink that
    bootstraps and accepts every commit, a model that loads and returns
    one vector per text, and an input file whose rows all clean without
    error (names and ingredients being strings or empty) and leave at most
    [SAMPLE_SIZE] valid rows, the process ends with status 0 and the sink
    holds, after what it held, one record per valid row, in the order of
    the file and with that row's clean fields; the external actions are
    the bootstrap, the loading of the model, one read of the file and,
    batch by batch, one encoding and one commit. *)
Theorem full_run_loads_the_valid_rows (E : Env) (w : World) (model : Model)
  (df : list RawRow) (rows : list Row) :
  database_ready E ->
  model_loads E model ->
  EncodeContract model ->
  encode_total model ->
  sink_accepts E ->
  files w DATA_FILE_PATH = Some df ->
  Forall (fun raw => text_cell (r_name raw) /\ text_cell (r_ingredients raw))
    df ->
  Forall2 (cleans_to E) df rows ->
  Forall (fun r => required_present r = true ->
                   exists b, gt_zero (calories r) = Ok b) rows ->
  List.length (filter calories_positive (dropna_required rows))
  <= SAMPLE_SIZE ->
  fst (run_script E w) = 0%Z /\
  exists added,
    db (snd (run_script E w)) = (db w ++ added)%list /\
    map recipe_fields added
    = map row_fields (filter calories_positive (dropna_required rows)) /\
    log (snd (run_script E w))
    = (log w
         ++ [EvInitDb; EvLoadModel EMBEDDING_MODEL; EvReadCsv DATA_FILE_PATH]
         ++ committed_events
              (batches BATCH_SIZE
                 (filter calories_positive (dropna_required rows))))%list.
Proof. intros. eapply full_run_outcome; eauto. Qed.

Lemma full_run_loads_the_valid_rows_witness :
  fst (run_script Demo.good_env Demo.three_rows) = 0%Z /\
  exists added,
    db (snd (run_script Demo.good_env Demo.three_rows))
    = (db Demo.three_rows ++ added)%list /\
    map recipe_fields added
    = map row_fields
        (filter calories_positive
           (dropna_required
              [Demo.soup_row; Demo.water_row; Demo.toast_row])) /\
    log (snd (run_script Demo.good_env Demo.three_rows))
    = (log Demo.three_rows
         ++ [EvInitDb; EvLoadModel EMBEDDING_MODEL; EvReadCsv DATA_FILE_PATH]
         ++ committed_events
              (batches BATCH_SIZE
                 (filter calories_positive
                    (dropna_required
                       [Demo.soup_row; Demo.water_row; Demo.toast_row]))))%list.
Proof.
  apply (full_run_loads_the_valid_rows Demo.good_env Demo.three_rows
           Demo.model [Demo.soup; Demo.water; Demo.toast]
           [Demo.soup_row; Demo.water_row; Demo.toast_row]).
  - split; [now exists "postgresql://demo"|reflexivity].
  - intros w. reflexivity.
  - exact Demo_model_contract.
  - intros texts. eexists. reflexivity.
  - intros w session. reflexivity.
  - reflexivity.
  - repeat (apply Forall_cons || apply Forall_nil);
      (split; right; eexists; reflexivity).
  - repeat (apply Forall2_cons || apply Forall2_nil);
      (split; [eexists|]; vm_compute; repeat split; reflexivity).
  - repeat (apply Forall_cons || apply Forall_nil); intros _;
      eexists; vm_compute; reflexivity.
  - apply Nat.leb_le. vm_compute. reflexivity.
Defined.

(* ================================================================== *)
(** ** What a run never does to the sink *)

Lemma sink_extended_refl (w : World) : sink_extended w w.
Proof. repeat split. exists []. now rewrite app_nil_r. Qed.

Lemma sink_extended_trans (w1 w2 w3 : World) :
  sink_extended w1 w2 -> sink_extended w2 w3 -> sink_extended w1 w3.
Proof.
  intros (F1 & G1 & a1 & D1) (F2 & G2 & a2 & D2).
  repeat split; try congruence.
  exists (a1 ++ a2)%list. now rewrite D2, D1, app_assoc.
Qed.

Lemma ao_of_prints_only {A} (m : M A) : prints_only m -> appends_only m.
Proof.
  intros Hm w r w' H. destruct (Hm w r w' H) as (F & G & D & _).
  repeat split; auto. exists []. now rewrite app_nil_r.
Qed.

Lemma sink_extended_emit (ev : event) (w : World) :
  sink_extended w (emit ev w).
Proof. repeat split. exists []. cbn. now rewrite app_nil_r. Qed.

Lemma ao_emit {A} (f : World -> result A) (ev : event) :
  appends_only (fun w => (f w, emit ev w)).
Proof. intros w r w' [= _ <-]. apply sink_extended_emit. Qed.

Lemma ao_bind {A B} (m : M A) (k : A -> M B) :
  appends_only m -> (forall a, appends_only (k a)) -> appends_only (bind m k).
Proof.
  intros Hm Hk w r w'. unfold bind.
  destruct (m w) as [[a|e] w1] eqn:H1; intros H.
  - eapply sink_extended_trans; [eapply Hm; eauto|eapply Hk; eauto].
  - injection H as <- <-. eapply Hm; eauto.
Qed.

Lemma ao_try_except {A} (m : M A) (catches : exn -> bool) (h : exn -> M A) :
  appends_only m -> (forall e, appends_only (h e)) ->
  appends_only (try_except m catches h).
Proof.
  intros Hm Hh w r w'. unfold try_except.
  destruct (m w) as [[a|e] w1] eqn:H1; intros H.
  - injection H as <- <-. eapply Hm; eauto.
  - destruct (catches e).
    + eapply sink_extended_trans; [eapply Hm; eauto|eapply Hh; eauto].
    + injection H as <- <-. eapply Hm; eauto.
Qed.

Lemma ao_session_commit (E : Env) (session : Session) :
  appends_only (session_commit E session).
Proof.
  intros w r w'. unfold session_commit.
  destruct (commit_fault E w session); intros [= _ <-].
  - apply sink_extended_emit.
  - repeat split. now exists session.
Qed.

Lemma ao_for_each {S A} (xs : list A) (body : S -> A -> M S) :
  (forall s x, appends_only (body s x)) ->
  forall s, appends_only (for_each xs body s).
Proof.
  intros Hbody. induction xs as [|x xs IH]; intros s; cbn [for_each].
  - apply ao_of_prints_only, po_ret.
  - apply ao_bind; [apply Hbody|intros s'; apply IH].
Qed.

Lemma ao_loader (E : Env) (df : list Row) (engine : Engine) (model : Model) :
  appends_only (create_embeddings_and_load E df engine model).
Proof.
  unfold create_embeddings_and_load, create_embeddings_and_load_sized.
  apply ao_bind; [apply ao_of_prints_only, po_print|intros _].
  apply ao_bind; [apply ao_of_prints_only, po_lift|intros starts].
  apply ao_bind; [|intros _; apply ao_of_prints_only, po_print].
  apply ao_for_each. intros session i. unfold load_batch.
  apply ao_bind; [apply ao_of_prints_only, po_lift|intros texts].
  apply ao_bind; [|intros embeddings; apply ao_session_commit].
  unfold model_encode. apply (ao_emit (fun _ => encode model texts)).
Qed.

Lemma ao_load_and_clean_data (E : Env) : appends_only (load_and_clean_data E).
Proof.
  intros w r w' H.
  destruct (load_and_clean_data_effects E w w' r H) as (F & G & D & _).
  repeat split; auto. exists []. now rewrite app_nil_r.
Qed.

Lemma ao_initialize_database (E : Env) (engine : Engine) :
  appends_only (initialize_database E engine).
Proof.
  unfold initialize_database, sys_exit.
  apply ao_bind; [apply ao_of_prints_only, po_print|intros _].
  apply ao_try_except.
  - apply ao_bind; [|intros _; apply ao_of_prints_only, po_print].
    intros w r w'. unfold db_bootstrap.
    destruct (db_init_fault E w); intros [= _ <-]; apply sink_extended_emit.
  - intros e. apply ao_of_prints_only.
    repeat (apply po_bind; [apply po_print|intros _]). apply po_raise.
Qed.

Lemma ao_main (E : Env) : appends_only (main E).
Proof.
  unfold main, main_body. apply ao_try_except.
  - apply ao_bind; [apply ao_of_prints_only, po_lift|intros engine].
    apply ao_bind; [apply ao_initialize_database|intros _].
    apply ao_bind; [apply ao_of_prints_only, po_print|intros _].
    apply ao_bind;
      [unfold load_model;
       apply (ao_emit (SentenceTransformer E EMBEDDING_MODEL))|intros model].
    apply ao_bind; [apply ao_of_prints_only, po_print|intros _].
    apply ao_bind; [apply ao_load_and_clean_data|intros df].
    apply ao_bind; [apply ao_loader|intros _].
    apply ao_of_prints_only.
    repeat (apply po_bind; [apply po_print|intros _]). apply po_print.
  - intros e. apply ao_of_prints_only.
    apply po_bind; [apply po_print|intros _]. apply po_print.
Qed.

(** X17: whatever happens in a run, and whatever the collaborators do,
    the script leaves the files and numpy's global generator as they were,
    and the rows the sink held before the run are still there, unchanged
    and in place: a run only ever appends rows to the sink. *)
Theorem run_only_appends_to_sink (E : Env) (w : World) :
  files (snd (run_script E w)) = files w /\
  np_random (snd (run_script E w)) = np_random w /\
  exists added, db (snd (run_script E w)) = (db w ++ added)%list.
Proof.
  unfold run_script.
  destruct (main E w) as [[u|e] w'] eqn:Hmain.
  - exact (ao_main E w _ w' Hmain).
  - destruct e; exact (ao_main E w _ w' Hmain).
Qed.

(** X18: the script is not idempotent on data.  When a run in which
    nothing fails is followed by a second run on the world it left, the
    valid rows are stored a second time after the first copy: no row is
    recognised as already present. *)
Theorem second_run_stores_the_rows_again (E : Env) (w : World)
  (model : Model) (df : list RawRow) (rows : list Row) :
  database_ready E ->
  model_loads E model ->
  EncodeContract model ->
  encode_total model ->
  sink_accepts E ->
  files w DATA_FILE_PATH = Some df ->
  Forall (fun raw => text_cell (r_name raw) /\ text_cell (r_ingredients raw))
    df ->
  Forall2 (cleans_to E) df rows ->
  Forall (fun r => required_present r = true ->
                   exists b, gt_zero (calories r) = Ok b) rows ->
  List.length (filter calories_positive (dropna_required rows))
  <= SAMPLE_SIZE ->
  exists first second,
    db (snd (run_script E (snd (run_script E w))))
    = (db w ++ first ++ second)%list /\
    map recipe_fields first
    = map row_fields (filter calories_positive (dropna_required rows)) /\
    map recipe_fields second
    = map row_fields (filter calories_positive (dropna_required rows)).
Proof.
  intros Hready Hmodel Hcontract Henc Hsink Hfile Hcells Hrows Hcmp Hsmall.
  destruct (full_run_outcome E w model df rows Hready Hmodel Hcontract Henc
              Hsink Hfile Hcells Hrows Hcmp Hsmall)
    as (_ & first & Hdb1 & Hf1 & _).
  assert (Hfile' : files (snd (run_script E w)) DATA_FILE_PATH = Some df).
  { unfold run_script.
    destruct (main E w) as [[u|e] w1] eqn:Hmain;
      [|destruct e];
      destruct (ao_main E w _ w1 Hmain) as (F & _);
      cbn [snd]; rewrite F; exact Hfile. }
  destruct (full_run_outcome E _ model df rows Hready Hmodel Hcontract Henc
              Hsink Hfile' Hcells Hrows Hcmp Hsmall)
    as (_ & second & Hdb2 & Hf2 & _).
  exists first, second. rewrite Hdb2, Hdb1, <- app_assoc. auto.
Qed.

Lemma second_run_stores_the_rows_again_witness :
  exists first second,
    db (snd (run_script Demo.good_env
               (snd (run_script Demo.good_env Demo.three_rows))))
    = (db Demo.three_rows ++ first ++ second)%list /\
    map recipe_fields first
    = map row_fields
        (filter calories_positive
           (dropna_required
              [Demo.soup_row; Demo.water_row; Demo.toast_row])) /\
    map recipe_fields second
    = map row_fields
        (filter calories_positive
           (dropna_required
              [Demo.soup_row; Demo.water_row; Demo.toast_row])).
Proof.
  apply (second_run_stores_the_rows_again Demo.good_env Demo.three_rows
           Demo.model [Demo.soup; Demo.water; Demo.toast]
           [Demo.soup_row; Demo.water_row; Demo.toast_row]).
  - split; [now exists "postgresql://demo"|reflexivity].
  - intros w. reflexivity.
  - exact Demo_model_contract.
  - intros texts. eexists. reflexivity.
  - intros w session. reflexivity.
  - reflexivity.
  - repeat (apply Forall_cons || apply Forall_nil);
      (split; right; eexists; reflexivity).
  - repeat (apply Forall2_cons || apply Forall2_nil);
      (split; [eexists|]; vm_compute; repeat split; reflexivity).
  - repeat (apply Forall_cons || apply Forall_nil); intros _;
      eexists; vm_compute; reflexivity.
  - apply Nat.leb_le. vm_compute. reflexivity.
Defined.

(** X19: a row is dropped for missing calories but not for calories that
    cannot be compared with 0.  When the rows clean without error and one
    of them has every required cell present and calories of a kind for
    which [> 0] raises (a string, a list), the Cleaner raises instead of
    dropping the row. *)
Theorem incomparable_calories_abort_cleaner (E : Env) (df : list RawRow)
  (rows : list Row) (w : World) (r : Row) (e0 : exn) :
  Forall2 (cleans_to E) df rows ->
  In r rows ->
  required_present r = true ->
  gt_zero (calories r) = Raise e0 ->
  exists e, fst (cleaner E df w) = Raise e.
Proof.
  intros Hrows Hin Hreq Hcmp.
  destruct (cleans_to_stages E df rows Hrows) as (rows0 & rows1 & H0 & H1 & H2).
  unfold cleaner, bind, nutrition_columns, try_except, lift.
  rewrite (extracted_parse_nutrition E df rows0 H0).
  rewrite (Forall2_apply_column _ _ _ _ _ H1).
  rewrite (Forall2_apply_column _ _ _ _ _ H2).
  unfold positive_calories.
  destruct (series_apply_raises gt_zero (map calories (dropna_required rows))
              (calories r) e0) as [e He]; [|exact Hcmp|].
  - apply in_map. unfold dropna_required. apply filter_In. auto.
  - rewrite He. cbn. eauto.
Qed.

Lemma incomparable_calories_abort_cleaner_witness :
  exists e,
    fst (cleaner Demo.good_env
           [Demo.raw "riddle" "['a', 1, 2, 3, 4, 5, 6]" "['guess']" "['air']"]
           Demo.three_rows) = Raise e.
Proof.
  apply (incomparable_calories_abort_cleaner Demo.good_env
           [Demo.raw "riddle" "['a', 1, 2, 3, 4, 5, 6]" "['guess']" "['air']"]
           [mkRow (PyStr "riddle") (PyStr "['a', 1, 2, 3, 4, 5, 6]")
              (PyStr "guess") (PyStr "air")
              (PyStr "a") (PyInt 1) (PyInt 4) (PyInt 6)]
           Demo.three_rows
           (mkRow (PyStr "riddle") (PyStr "['a', 1, 2, 3, 4, 5, 6]")
              (PyStr "guess") (PyStr "air")
              (PyStr "a") (PyInt 1) (PyInt 4) (PyInt 6))
           (TypeError
              "'>' not supported between instances of 'str' and 'int'")).
  - repeat (apply Forall2_cons || apply Forall2_nil);
      (split; [eexists|]; vm_compute; repeat split; reflexivity).
  - left. reflexivity.
  - reflexivity.
  - reflexivity.
Defined.

(** X20: a database URL that the engine rejects is not a fatal error of
    its own: [create_engine] is called inside the [try] of [main], so its
    exception is caught at the top level and the process ends with status
    0 after the two lines of the handler, before the bootstrap is tried,
    with no external action and the sink as it was. *)
Theorem engine_failure_exits_zero (E : Env) (w : World) (e : exn) :
  create_engine E (DATABASE_URL E) = Raise e ->
  is_Exception e = true ->
  fst (run_script E w) = 0%Z /\
  stdout (snd (run_script E w))
  = (stdout w
       ++ [(nl ++ "An error occurred: " ++ exn_str e)%string;
           ("Please check your DATABASE_URL in the .env file and ensure "
              ++ "your Supabase project is active.")%string])%list /\
  log (snd (run_script E w)) = log w /\
  db (snd (run_script E w)) = db w.
Proof.
  intros Heng He.
  assert (Hbody : main_body E w = (Raise e, w)).
  { unfold main_body, bind, lift. now rewrite Heng. }
  unfold run_script. rewrite (main_catches E w w e Hbody He).
  cbn [fst snd after_top_level_message stdout log db]. repeat split.
Qed.

Lemma engine_failure_exits_zero_witness :
  fst (run_script Scenarios.bad_url_env Demo.three_rows) = 0%Z /\
  stdout (snd (run_script Scenarios.bad_url_env Demo.three_rows))
  = (stdout Demo.three_rows
       ++ [(nl ++ "An error occurred: "
               ++ exn_str (OtherError "Could not parse SQLAlchemy URL"))%string;
           ("Please check your DATABASE_URL in the .env file and ensure "
              ++ "your Supabase project is active.")%string])%list /\
  log (snd (run_script Scenarios.bad_url_env Demo.three_rows))
  = log Demo.three_rows /\
  db (snd (run_script Scenarios.bad_url_env Demo.three_rows))
  = db Demo.three_rows.
Proof.
  apply (engine_failure_exits_zero Scenarios.bad_url_env Demo.three_rows
           (OtherError "Could not parse SQLAlchemy URL")); reflexivity.
Defined.

(* ================================================================== *)
(** ** Reading the nutrition cell by position *)

Lemma Forall2_In_right {A B} (R : A -> B -> Prop) (l : list A) (l' : list B)
  (b : B) :
  Forall2 R l l' -> In b l' -> exists a, In a l /\ R a b.
Proof.
  induction 1 as [|x y l l' Hxy _ IH]; [contradiction|].
  intros [->|Hin].
  - exists x. split; [now left|exact Hxy].
  - destruct (IH Hin) as (a & Ha & Hab). exists a. split; [now right|exact Hab].
Qed.

Lemma extracted_number_refl (v : pyval) : extracted_number v v.
Proof. split; [reflexivity|auto]. Qed.

(** A cell read at the four positions of a list of seven elements. *)
Lemma read_at_positions (x : pyval) (l : list pyval) (row : Row) :
  x = PyList l -> List.length l = 7 ->
  getitem 0 x = Ok (calories row) -> getitem 1 x = Ok (fat_g row) ->
  getitem 4 x = Ok (protein_g row) -> getitem 6 x = Ok (carbs_g row) ->
  holds_positions l row.
Proof.
  intros -> Hlen G0 G1 G4 G6.
  rewrite getitem_list_seven in G0, G1, G4, G6 by (auto; lia).
  unfold holds_positions.
  injection G0 as <-. injection G1 as <-.
  injection G4 as <-. injection G6 as <-.
  repeat split; auto.
Qed.

Lemma extracted_holds_positions (E : Env) (raw : RawRow) (row : Row)
  (l : list pyval) :
  extracted E raw row ->
  ast_literal_eval E (r_nutrition raw) = Ok (PyList l) ->
  List.length l = 7 ->
  holds_positions l row.
Proof.
  intros (x & Hx & G0 & G1 & G4 & G6 & _) Hl Hlen.
  rewrite Hl in Hx. injection Hx as <-.
  now apply (read_at_positions (PyList l) l row).
Qed.

(** The rows of a successful nutrition step, against the rows it
    worked on. *)
Lemma nutrition_columns_rows (E : Env) (df : list RawRow) (w w' : World)
  (rows : list Row) :
  nutrition_columns E df w = (Ok rows, w') ->
  exists kept,
    (kept = df \/ kept = dropna_nutrition df) /\
    Forall2 (extracted E) kept rows.
Proof.
  intros H.
  apply nutrition_columns_Ok_inv in H as [[Hp _]|(e & _ & Hp & _)].
  - exists df. split; [now left|now apply parse_nutrition_extracted].
  - exists (dropna_nutrition df).
    split; [now right|now apply parse_nutrition_extracted].
Qed.

(** C8, as stated, fails: a row whose nutrition parses to a list of seven
    numbers is not extracted when another row of the frame holds a
    nutrition text that does not parse; the step raises for the whole
    frame. *)
Lemma well_formed_row_beside_malformed_not_extracted :
  ~ (forall (E : Env) (df : list RawRow) (w : World) (raw : RawRow)
            (l : list pyval),
        In raw df ->
        ast_literal_eval E (r_nutrition raw) = Ok (PyList l) ->
        List.length l = 7 ->
        exists rows w' row,
          nutrition_columns E df w = (Ok rows, w') /\
          In row rows /\ nutrition row = r_nutrition raw /\
          holds_positions l row).
Proof.
  intros claim.
  destruct (claim Demo.good_env
              [Demo.soup; Demo.raw "stew" "[250.0, 9.0" "['boil']" "['beef']"]
              Demo.three_rows Demo.soup
              [PyFloat (100 # 1); PyFloat (5 # 1); PyFloat (2 # 1);
               PyFloat (1 # 1); PyFloat (3 # 1); PyFloat (1 # 2);
               PyFloat (10 # 1)])
    as (rows & w' & row & Hrun & _).
  - left. reflexivity.
  - reflexivity.
  - reflexivity.
  - vm_compute in Hrun. discriminate.
Qed.

(** C8 (amended): whenever the nutrition step of the Cleaner succeeds, in
    its first pass or in the retry over the rows whose nutrition cell is
    present, every row it worked on is kept with its name and nutrition
    text, and each one whose nutrition text parses to a list of seven
    elements has calories from position 0, fat_g from position 1,
    protein_g from position 4 and carbs_g from position 6 of its own list
    (as numbers; a float as it is).  The same holds of every row the
    Cleaner returns.  A row with the text
    [[100.0, 5.0, 2.0, 1.0, 3.0, 0.5, 10.0]] gets calories 100, fat_g 5,
    protein_g 3 and carbs_g 10, and a frame of that one row is read so. *)
Theorem nutrition_read_by_position :
  (forall (E : Env) (df : list RawRow) (w w' : World) (rows : list Row),
      nutrition_columns E df w = (Ok rows, w') ->
      exists kept,
        (kept = df \/ kept = dropna_nutrition df) /\
        Forall2
          (fun raw row =>
             name row = r_name raw /\ nutrition row = r_nutrition raw /\
             forall l,
               ast_literal_eval E (r_nutrition raw) = Ok (PyList l) ->
               List.length l = 7 -> holds_positions l row)
          kept rows) /\
  (forall (E : Env) (df : list RawRow) (w w' : World) (out : list Row)
          (row : Row) (l : list pyval),
      cleaner E df w = (Ok out, w') ->
      In row out ->
      ast_literal_eval E (nutrition row) = Ok (PyList l) ->
      List.length l = 7 ->
      holds_positions l row) /\
  (forall (df : list RawRow) (w w' : World) (rows : list Row) (row : Row),
      nutrition_columns Demo.good_env df w = (Ok rows, w') ->
      In row rows ->
      nutrition row = PyStr "[100.0, 5.0, 2.0, 1.0, 3.0, 0.5, 10.0]" ->
      calories row = PyFloat (100 # 1) /\ fat_g row = PyFloat (5 # 1) /\
      protein_g row = PyFloat (3 # 1) /\ carbs_g row = PyFloat (10 # 1)) /\
  (forall (n st ing : pyval) (w : World),
      nutrition_columns Demo.good_env
        [mkRawRow n (PyStr "[100.0, 5.0, 2.0, 1.0, 3.0, 0.5, 10.0]") st ing] w
      = (Ok [mkRow n (PyStr "[100.0, 5.0, 2.0, 1.0, 3.0, 0.5, 10.0]") st ing
               (PyFloat (100 # 1)) (PyFloat (5 # 1)) (PyFloat (3 # 1))
               (PyFloat (10 # 1))], w)).
Proof.
  split; [|split; [|split]].
  - intros E df w w' rows H.
    destruct (nutrition_columns_rows E df w w' rows H) as (kept & Hk & Hrows).
    exists kept. split; [exact Hk|].
    eapply Forall2_impl; [|exact Hrows]. cbn. intros raw row Hex.
    assert (Hex' := Hex).
    destruct Hex' as (x & _ & _ & _ & _ & _ & Hn & Hnu & _).
    split; [exact Hn|]. split; [exact Hnu|].
    intros l Hl Hlen. eapply extracted_holds_positions; eauto.
  - intros E df w w' out row l H Hin Hl Hlen.
    apply cleaner_Ok_inv in H as (kept & rows & _ & Hrows & ->).
    apply filter_In in Hin as [Hin _]. apply filter_In in Hin as [Hin _].
    destruct (Forall2_In_right _ _ _ _ Hrows Hin)
      as (raw & _ & (x & Hx & G0 & G1 & G4 & G6) & _ & _ & _ & Hnu).
    rewrite Hnu, Hx in Hl. injection Hl as ->.
    now apply (read_at_positions (PyList l) l row).
  - intros df w w' rows row H Hin Hnu.
    destruct (nutrition_columns_rows _ df w w' rows H) as (kept & _ & Hrows).
    destruct (Forall2_In_right _ _ _ _ Hrows Hin)
      as (raw & _ & x & Hx & G0 & G1 & G4 & G6 & _ & Hraw & _).
    rewrite <- Hraw, Hnu in Hx. vm_compute in Hx. injection Hx as <-.
    cbn [getitem nth_error] in G0, G1, G4, G6.
    injection G0 as G0. injection G1 as G1.
    injection G4 as G4. injection G6 as G6.
    repeat split; symmetry; assumption.
  - intros n st ing w. reflexivity.
Qed.

Lemma nutrition_read_by_position_witness :
  holds_positions
    [PyFloat (100 # 1); PyFloat (5 # 1); PyFloat (2 # 1); PyFloat (1 # 1);
     PyFloat (3 # 1); PyFloat (1 # 2); PyFloat (10 # 1)]
    Demo.soup_row.
Proof.
  apply (proj1 (proj2 nutrition_read_by_position) Demo.good_env
           [Demo.soup; mkRawRow (PyStr "ice") PyNaN (PyStr "['freeze']")
                         (PyStr "['water']")]
           Demo.three_rows
           (after_fallback_message
              (ValueError "malformed node or string: nan") Demo.three_rows)
           [Demo.soup_row] Demo.soup_row).
  - reflexivity.
  - left. reflexivity.
  - reflexivity.
  - reflexivity.
Defined.
